(** * transit-scrape: the cycling-route ingestion pipeline

    A shallow embedding of [src/process_cycle_networks.py],
    [src/utils/db_helpers.py], [src/utils/db_models.py],
    [src/push_to_db.py] and [src/utils/geotiles.py].

    The Python code is sequential, prints to standard output, writes files,
    talks to a database session and uses [try]/[except] throughout.  It is
    modelled in a state-and-exception monad [M]: a computation maps a
    [State] to a [Result] (a value or a raised exception) and a new
    [State]; effects performed before an exception is raised are kept, as
    in Python.

    Calls into third-party libraries (json, geopandas, shapely, pyproj,
    osr, os.path, glob, the database driver) are the fields of [Env]. *)

From Stdlib Require Import Reals QArith Qround ZArith List Lia Lra Bool Ascii
  String.
From stdpp Require Import base option list strings gmap pretty.
Import ListNotations.

Set Warnings "-register-all".
Local Open Scope string_scope.
Local Open Scope Z_scope.

(** ** Python values *)

(** A parsed JSON document, as [json.load] returns it.  An object keeps its
    keys in document order, as a Python dict does. *)
Inductive json : Type :=
| JNull
| JBool (b : bool)
| JNum (q : Q)
| JStr (s : string)
| JArr (items : list json)
| JObj (fields : list (string * json)).

(** The exceptions the pipeline can meet. *)
Inductive exn : Type :=
| OSError
| JSONDecodeError
| TypeError
| KeyError (key : string)
| AttributeError
| ValueError
| RuntimeError
| DBAPIError.

Inductive Result (A : Type) : Type :=
| Ok (a : A)
| Raise (e : exn).
Arguments Ok {A} a.
Arguments Raise {A} e.

Definition is_Ok {A} (r : Result A) : bool :=
  match r with Ok _ => true | Raise _ => false end.

(** Python truthiness of a JSON value ([if not features]). *)
Definition truthy (j : json) : bool :=
  match j with
  | JNull => false
  | JBool b => b
  | JNum q => negb (Qeq_bool q 0)
  | JStr s => negb (String.eqb s "")
  | JArr items => match items with [] => false | _ => true end
  | JObj fields => match fields with [] => false | _ => true end
  end.

Definition is_JStr (s : string) (j : json) : bool :=
  match j with JStr s' => String.eqb s s' | _ => false end.

(** ** Ordered dictionaries (Python [dict], pandas row) *)

Section Dict.
Context {V : Type}.

Fixpoint dict_get (k : string) (d : list (string * V)) : option V :=
  match d with
  | [] => None
  | (k', v) :: d' => if String.eqb k k' then Some v else dict_get k d'
  end.

Definition dict_has (k : string) (d : list (string * V)) : bool :=
  match dict_get k d with Some _ => true | None => false end.

(** [d[k] = v]: an existing key keeps its position, a new key goes last. *)
Fixpoint dict_set (k : string) (v : V) (d : list (string * V))
  : list (string * V) :=
  match d with
  | [] => [(k, v)]
  | (k', v') :: d' =>
      if String.eqb k k' then (k', v) :: d' else (k', v') :: dict_set k v d'
  end.

Definition dict_keys (d : list (string * V)) : list string := map fst d.
End Dict.

(** [x in data] for the string ['type'] and [data[key]] on a parsed JSON
    document: a dict is searched by key, a list by element, a string by
    substring; the other values are not containers. *)
Fixpoint is_substring (needle hay : string) : bool :=
  match hay with
  | EmptyString => String.eqb needle ""
  | String _ rest => String.prefix needle hay || is_substring needle rest
  end.

Definition py_contains (key : string) (data : json) : Result bool :=
  match data with
  | JObj fields => Ok (dict_has key fields)
  | JArr items => Ok (existsb (is_JStr key) items)
  | JStr s => Ok (is_substring key s)
  | _ => Raise TypeError
  end.

Definition py_getitem (data : json) (key : string) : Result json :=
  match data with
  | JObj fields =>
      match dict_get key fields with
      | Some v => Ok v
      | None => Raise (KeyError key)
      end
  | _ => Raise TypeError
  end.

Definition isinstance_list (data : json) : bool :=
  match data with JArr _ => true | _ => false end.

(** ** Messages printed by the programs *)

Inductive Msg : Type :=
| MImporting (file_path : string)
| MNoFeatures (file_path : string)
| MErrorImporting (file_path : string) (e : exn)
| MErrorFeature (idx : nat) (e : exn)
| MNoValidResults
| MErrorProcessingFeatures (e : exn)
| MSaved (output_file : string)
| MErrorPipeline (e : exn)
| MProcessingComplete
| MProcessingFailed
| MDatabaseParameters
| MDroppedTables
| MCreatedTables
| MTablesInSchema
| MNoDataFound (file_path : string)
| MConvertedToWGS84
| MErrorLoading (e : exn)
| MErrorReading (e : exn)
| MEitherRequired
| MBothProvided
| MInputFileNotFound (file_path : string)
| MProcessingFile (file_path : string)
| MInserted (n : Z)
| MError (e : exn)
| MInputDirNotFound (dir : string)
| MNoFilesMatching (pattern dir : string)
| MFoundFiles (n : nat)
| MProcessingFileOf (i n : nat) (name : string)
| MInsertedFrom (n : Z) (name : string)
| MErrorProcessingFile (file_path : string) (e : exn)
| MSummary (total_files : nat) (total_records : Z).

(** ** Tables, records and the world *)

Section Pipeline.

(** A shapely geometry object.  The pipeline never looks inside one: it
    only hands it to the libraries. *)
Context {Geometry : Type}.

(** A Python value held in a table cell or a record attribute.  [None] is
    [PJson JNull] and a [str] is [PJson (JStr s)]; [PNaN] is the
    missing-value marker pandas fills in. *)
Inductive value : Type :=
| PJson (j : json)
| PFloat (r : R)
| PNaN
| PGeom (g : Geometry).

Definition PStr (s : string) : value := PJson (JStr s).
Definition PNone : value := PJson JNull.

Definition is_None (v : value) : bool :=
  match v with PJson JNull => true | _ => false end.

(** One row of a (Geo)DataFrame: column name and cell, in column order. *)
Definition Row : Type := list (string * value).

(** A GeoDataFrame: its declared reference system and its rows. *)
Record Table : Type := mkTable {
  crs : option string;
  rows : list Row
}.

(** An instance of a SQLAlchemy model class: the attributes set on it. *)
Definition Model : Type := gmap string value.

(** A declarative model class, as far as the loader sees it.  [columns]
    are its mapped columns, the attributes that reach the database.
    [attributes] are the other names an instance has an attribute for
    (what the class body defines besides columns, and what the declarative
    base and [object] bring), each with what assigning a cell of a table
    to it does: [None] when the instance takes the value, [Some e] when
    the assignment raises [e]. *)
Record ModelClass : Type := mkModelClass {
  tablename : string;
  columns : list string;
  attributes : list (string * option exn)
}.

(** [hasattr(model, name)] on an instance of the class. *)
Definition hasattr (mc : ModelClass) (name : string) : bool :=
  existsb (String.eqb name) (columns mc) || dict_has name (attributes mc).

(** What the exporter stores in a file. *)
Inductive FileData : Type :=
| GeoJSONFile (t : Table)
| CSVFile (records : list Row).

(** The mutable world: standard output, the output file system, the
    committed database transactions (oldest first) and the objects pending
    in the open session. *)
Record State : Type := mkState {
  stdout : list Msg;
  fs_dirs : gset string;
  fs_files : gmap string FileData;
  db_txs : list (list Model);
  session_pending : list Model
}.

(** The libraries and the environment the programs call into.
    [makedirs_error] and [to_file_error] say whether creating a directory
    that is not there, and writing a file into a directory that is,
    raise: the operating system may refuse either. *)
Record Env : Type := mkEnv {
  (* json / geopandas input *)
  json_load : string -> Result json;
  from_features : json -> Result (list Row);
  gpd_read_file : string -> Result Table;
  (* shapely / pyproj / osr *)
  geom_length : Geometry -> R;
  geom_wkt : Geometry -> string;
  wkt_dumps : Geometry -> string;
  reproject : string -> string -> Geometry -> Geometry;
  osr_setup : Result unit;
  (* os, datetime, glob *)
  os_path_basename : string -> string;
  os_path_splitext_root : string -> string;
  os_path_join : string -> string -> string;
  os_path_exists : string -> bool;
  os_path_isdir : string -> bool;
  glob_glob : string -> list string;
  now_strftime : string;
  makedirs_error : string -> option exn;
  to_file_error : string -> FileData -> option exn;
  (* database *)
  create_engine : Result unit;
  db_connect : Result unit;
  commit_ok : list (list Model) -> list Model -> bool
}.

Variable E : Env.

(** ** The monad of the programs *)

Definition M (A : Type) : Type := State -> Result A * State.

Definition ret {A} (a : A) : M A := fun s => (Ok a, s).

Definition bind {A B} (c : M A) (k : A -> M B) : M B :=
  fun s =>
    match c s with
    | (Ok a, s') => k a s'
    | (Raise e, s') => (Raise e, s')
    end.

Definition raise {A} (e : exn) : M A := fun s => (Raise e, s).

(** A library call: its result, with no effect on the modelled state. *)
Definition lift {A} (r : Result A) : M A := fun s => (r, s).

(** [try: c  except Exception as e: h e] *)
Definition try_except {A} (c : M A) (h : exn -> M A) : M A :=
  fun s =>
    match c s with
    | (Ok a, s') => (Ok a, s')
    | (Raise e, s') => h e s'
    end.

(** [try: c  finally: f] *)
Definition try_finally {A} (c : M A) (f : M unit) : M A :=
  fun s =>
    match c s with
    | (r, s') =>
        match f s' with
        | (Ok _, s'') => (r, s'')
        | (Raise e, s'') => (Raise e, s'')
        end
    end.

Definition print (m : Msg) : M unit :=
  fun s => (Ok tt, mkState (stdout s ++ [m])%list (fs_dirs s) (fs_files s)
                           (db_txs s) (session_pending s)).

Notation "'let*' x ':=' c 'in' k" := (bind c (fun x => k))
  (at level 10, x pattern, c at level 100, k at level 200).

(** ** Feature Importer ([process_cycle_networks.import_json_data]) *)

(** ['type' in data and data['type'] == name] *)
Definition type_is (data : json) (name : string) : Result bool :=
  match py_contains "type" data with
  | Raise e => Raise e
  | Ok false => Ok false
  | Ok true =>
      match py_getitem data "type" with
      | Raise e => Raise e
      | Ok t => Ok (is_JStr name t)
      end
  end.

(** The [if]/[elif]/[else] that picks the feature list. *)
Definition select_features (data : json) : Result json :=
  match type_is data "FeatureCollection" with
  | Raise e => Raise e
  | Ok true => py_getitem data "features"
  | Ok false =>
      match type_is data "Feature" with
      | Raise e => Raise e
      | Ok true => Ok (JArr [data])
      | Ok false => Ok (if isinstance_list data then data else JArr [])
      end
  end.

Definition import_json_data (file_path : string) : M (option Table) :=
  try_except
    (let* _ := print (MImporting file_path) in
     let* data := lift (json_load E file_path) in
     let* features := lift (select_features data) in
     if negb (truthy features) then
       let* _ := print (MNoFeatures file_path) in
       ret None
     else
       let* rs := lift (from_features E features) in
       ret (Some (mkTable (Some "EPSG:27700") rs)))
    (fun e =>
       let* _ := print (MErrorImporting file_path e) in
       ret None).

(** ** Route Processor ([process_cycle_networks.process_route_features]) *)

(** [row.geometry]: attribute access on a pandas row. *)
Definition row_geometry (row : Row) : Result value :=
  match dict_get "geometry" row with
  | Some v => Ok v
  | None => Raise AttributeError
  end.

(** [v.length]: only a geometry has the attribute. *)
Definition py_length (v : value) : Result R :=
  match v with
  | PGeom g => Ok (geom_length E g)
  | _ => Raise AttributeError
  end.

(** [{k: v for k, v in row.items() if k != 'geometry'}] *)
Definition row_properties (row : Row) : Row :=
  List.filter (fun kv => negb (String.eqb (fst kv) "geometry")) row.

(** The body of the inner [try]: measure the geometry and build the
    result dictionary. *)
Definition process_row (file_path : string) (row : Row) : Result Row :=
  let properties := row_properties row in
  match row_geometry row with
  | Raise e => Raise e
  | Ok geom =>
      match py_length geom with
      | Raise e => Raise e
      | Ok route_length_m =>
          Ok (dict_set "source_file" (PStr (os_path_basename E file_path))
               (dict_set "route_length_m" (PFloat route_length_m)
                 (dict_set "geometry" geom properties)))
      end
  end.

(** The [for idx, row in gdf.iterrows()] loop; [results] accumulates. *)
Fixpoint process_rows (file_path : string) (idx : nat) (rs results : list Row)
  : M (list Row) :=
  match rs with
  | [] => ret results
  | row :: rest =>
      let* results' :=
        try_except
          (let* result := lift (process_row file_path row) in
           ret (results ++ [result])%list)
          (fun e =>
             let* _ := print (MErrorFeature idx e) in
             ret results) in
      process_rows file_path (S idx) rest results'
  end.

(** pandas builds a frame from a list of dictionaries: the columns are the
    keys in order of first appearance, a record lacking a key gets NaN. *)
Definition add_column (cols : list string) (k : string) : list string :=
  if existsb (String.eqb k) cols then cols else (cols ++ [k])%list.

Definition union_columns (records : list Row) : list string :=
  fold_left (fun cols r => fold_left add_column (dict_keys r) cols) records [].

Definition fill_row (cols : list string) (r : Row) : Row :=
  map (fun c => (c, default PNaN (dict_get c r))) cols.

Definition DataFrame_from_records (records : list Row) : list Row :=
  map (fill_row (union_columns records)) records.

(** [gdf.to_crs(target)]: the geometry column is transformed as a whole;
    a frame without a reference system cannot be transformed, and one
    already in the target system is returned as it is. *)
Definition reproject_cell (src target : string) (kv : string * value)
  : string * value :=
  match kv with
  | (k, PGeom g) =>
      if String.eqb k "geometry" then (k, PGeom (reproject E src target g))
      else kv
  | _ => kv
  end.

Definition to_crs (t : Table) (target : string) : Result Table :=
  match crs t with
  | None => Raise ValueError
  | Some src =>
      if String.eqb src target then Ok t
      else Ok (mkTable (Some target)
                       (map (map (reproject_cell src target)) (rows t)))
  end.

Definition process_route_features (gdf : Table) (file_path : string)
  : M (option Table) :=
  try_except
    (let* _ := lift (osr_setup E) in
     let* results := process_rows file_path 0%nat (rows gdf) [] in
     match results with
     | [] =>
         let* _ := print MNoValidResults in
         ret None
     | _ =>
         let result_gdf :=
           mkTable (Some "EPSG:27700") (DataFrame_from_records results) in
         let* result_gdf := lift (to_crs result_gdf "EPSG:4326") in
         ret (Some result_gdf)
     end)
    (fun e =>
       let* _ := print (MErrorProcessingFeatures e) in
       ret None).

(** ** Exporter ([process_cycle_networks.process_route_json_file]) *)

(** What [process_route_json_file] returns: [None], the path of the file
    it wrote, or the processed frame itself. *)
Inductive PipelineResult : Type :=
| RNone
| RPath (output_file : string)
| RTable (t : Table).


(** [to_file] and [to_csv] on [output_file], which the caller builds as
    [os.path.join(output_dir, name)]: the write needs the directory to
    exist, may be refused all the same, and replaces a file of the same
    name.  A write that raises is taken to leave no file behind. *)
Definition write_file (output_dir output_file : string) (d : FileData)
  : M unit :=
  fun s =>
    if decide (output_dir ∈ fs_dirs s) then
      match to_file_error E output_file d with
      | Some e => (Raise e, s)
      | None =>
          (Ok tt, mkState (stdout s) (fs_dirs s)
                          (<[output_file := d]> (fs_files s))
                          (db_txs s) (session_pending s))
      end
    else (Raise OSError, s).

(** [geom.wkt] inside [apply]. *)
Definition py_wkt (v : value) : Result value :=
  match v with
  | PGeom g => Ok (PStr (geom_wkt E g))
  | _ => Raise AttributeError
  end.

(** [result_gdf["geometry_wkt"] = result_gdf["geometry"].apply(...)] on
    one row. *)
Definition add_geometry_wkt (row : Row) : Result Row :=
  match dict_get "geometry" row with
  | None => Raise (KeyError "geometry")
  | Some v =>
      match py_wkt v with
      | Raise e => Raise e
      | Ok w => Ok (dict_set "geometry_wkt" w row)
      end
  end.

Fixpoint map_result {A B} (f : A -> Result B) (l : list A)
  : Result (list B) :=
  match l with
  | [] => Ok []
  | a :: l' =>
      match f a with
      | Raise e => Raise e
      | Ok b =>
          match map_result f l' with
          | Raise e => Raise e
          | Ok bs => Ok (b :: bs)
          end
      end
  end.

(** [result_gdf.drop(columns=["geometry"])] on one row. *)
Definition drop_geometry (row : Row) : Row := row_properties row.

Definition process_route_json_file
    (file_path output_dir output_format : string) : M PipelineResult :=
  try_except
    (let* gdf := import_json_data file_path in
     match gdf with
     | None => ret RNone
     | Some gdf =>
         let* result_gdf := process_route_features gdf file_path in
         match result_gdf with
         | None => ret RNone
         | Some result_gdf =>
             let base_name :=
               os_path_splitext_root E (os_path_basename E file_path) in
             let timestamp := now_strftime E in
             if String.eqb output_format "geojson" then
               let output_file :=
                 os_path_join E output_dir
                   (base_name ++ "_" ++ timestamp ++ ".geojson") in
               let* _ := write_file output_dir output_file
                                    (GeoJSONFile result_gdf) in
               let* _ := print (MSaved output_file) in
               ret (RPath output_file)
             else if String.eqb output_format "csv" then
               let output_file :=
                 os_path_join E output_dir
                   (base_name ++ "_" ++ timestamp ++ ".csv") in
               let* with_wkt :=
                 lift (map_result add_geometry_wkt (rows result_gdf)) in
               let* _ := write_file output_dir output_file
                                    (CSVFile (map drop_geometry with_wkt)) in
               let* _ := print (MSaved output_file) in
               ret (RPath output_file)
             else if String.eqb output_format "postgres" then
               ret (RTable result_gdf)
             else ret RNone
         end
     end)
    (fun e =>
       let* _ := print (MErrorPipeline e) in
       ret RNone).


(** ** Database Loader ([utils/db_helpers.py]) *)

Definition set_db (txs : list (list Model)) (pending : list Model) : M unit :=
  fun s => (Ok tt, mkState (stdout s) (fs_dirs s) (fs_files s) txs pending).

Definition get_engine : M unit :=
  let* _ := print MDatabaseParameters in
  lift (create_engine E).

(** [metadata_obj.drop_all(engine)] *)
Definition drop_all : M unit :=
  let* _ := lift (db_connect E) in
  fun s => set_db [] (session_pending s) s.

Definition create_tables (drop_first : bool) : M unit :=
  let* _ :=
    if drop_first then
      let* _ := drop_all in
      print MDroppedTables
    else ret tt in
  let* _ := lift (db_connect E) in
  let* _ := print MCreatedTables in
  let* _ := lift (db_connect E) in
  print MTablesInSchema.

(** [Session()], [session.add_all], [session.commit], [session.rollback]
    and [session.close]. *)
Definition new_session : M unit :=
  fun s => set_db (db_txs s) [] s.

Definition session_add_all (models : list Model) : M unit :=
  fun s => set_db (db_txs s) (session_pending s ++ models)%list s.

Definition session_commit : M unit :=
  fun s =>
    if commit_ok E (db_txs s) (session_pending s) then
      set_db (db_txs s ++ [session_pending s])%list [] s
    else (Raise DBAPIError, s).

Definition session_rollback : M unit :=
  fun s => set_db (db_txs s) [] s.

Definition session_close : M unit :=
  fun s => set_db (db_txs s) [] s.

(** [setattr(model, name, value)] for a name the instance has an
    attribute for: a mapped column takes any value, another attribute
    takes the value or refuses it, as the class says. *)
Definition setattr_error (mc : ModelClass) (name : string) : option exn :=
  if existsb (String.eqb name) (columns mc) then None
  else default None (dict_get name (attributes mc)).

Definition setattr (mc : ModelClass) (model : Model) (name : string)
    (v : value) : Result Model :=
  match setattr_error mc name with
  | Some e => Raise e
  | None => Ok (<[name := v]> model)
  end.

(** The body of [for key, value in row.items()]. *)
Definition set_attribute (mc : ModelClass) (model : Model)
    (kv : string * value) : Result Model :=
  let (key, v) := kv in
  if String.eqb key "geometry" then Ok model
  else if String.eqb key "type" && hasattr mc "route_type" then
    setattr mc model "route_type" v
  else if hasattr mc key then setattr mc model key v
  else Ok model.

(** The loop over the items of a row. *)
Fixpoint set_attributes (mc : ModelClass) (items : Row) (model : Model)
  : Result Model :=
  match items with
  | [] => Ok model
  | kv :: rest =>
      match set_attribute mc model kv with
      | Raise e => Raise e
      | Ok model' => set_attributes mc rest model'
      end
  end.

(** [wkt.dumps(row.geometry)] *)
Definition wkt_dumps_value (v : value) : Result string :=
  match v with
  | PGeom g => Ok (wkt_dumps E g)
  | _ => Raise TypeError
  end.

(** The geometry of the row on the instance, after the loop. *)
Definition set_geometry (mc : ModelClass) (row : Row) (model : Model)
  : Result Model :=
  if hasattr mc "geometry" then
    match row_geometry row with
    | Raise e => Raise e
    | Ok geom =>
        if negb (is_None geom) then
          match wkt_dumps_value geom with
          | Raise e => Raise e
          | Ok wkt_geom =>
              setattr mc model "geometry" (PStr ("SRID=4326;" ++ wkt_geom))
          end
        else Ok model
    end
  else Ok model.

(** One row to one model instance. *)
Definition row_to_model (mc : ModelClass) (row : Row) : Result Model :=
  match set_attributes mc row (∅ : Model) with
  | Raise e => Raise e
  | Ok model => set_geometry mc row model
  end.

(** [range(0, stop, step)] *)
Definition py_range (stop : nat) (step : Z) : Result (list nat) :=
  if step =? 0 then Raise ValueError
  else if step <? 0 then Ok []
  else
    let k := Z.to_nat step in
    Ok (map (fun j => (j * k)%nat) (seq 0 ((stop + k - 1) / k)%nat)).

(** The [for i in range(0, total_records, batch_size)] loop. *)
Fixpoint insert_batches (mc : ModelClass) (gdf_rows : list Row)
    (batch_size : Z) (starts : list nat) (records_inserted : Z) : M Z :=
  match starts with
  | [] => ret records_inserted
  | i :: rest =>
      let batch_gdf := firstn (Z.to_nat batch_size) (skipn i gdf_rows) in
      let* batch_models := lift (map_result (row_to_model mc) batch_gdf) in
      let* _ := session_add_all batch_models in
      let* _ := session_commit in
      insert_batches mc gdf_rows batch_size rest
        (records_inserted + Z.of_nat (length batch_models))
  end.

(** [get_session()] *)
Definition get_session : M unit :=
  let* _ := get_engine in
  new_session.

(** [session] is [Some tt] when the caller passes its session (the one of
    the state), [None] when it passes none.  The progress bar is not
    modelled. *)
Definition gdf_to_sql_model (gdf : Table) (mc : ModelClass)
    (session : option unit) (batch_size : Z) : M Z :=
  let* _ :=
    match session with
    | None => get_session
    | Some _ => ret tt
    end in
  try_except
    (let total_records := length (rows gdf) in
     let* starts := lift (py_range total_records batch_size) in
     insert_batches mc (rows gdf) batch_size starts 0)
    (fun e =>
       let* _ := session_rollback in
       raise e).

Definition load_processed_geojson_to_db (geojson_file_path : string)
    (mc : ModelClass) (batch_size : Z) (drop_existing : bool) : M Z :=
  try_except
    (let* gdf := lift (gpd_read_file E geojson_file_path) in
     match rows gdf with
     | [] =>
         let* _ := print (MNoDataFound geojson_file_path) in
         ret 0
     | _ =>
         let* gdf :=
           if negb (bool_decide (crs gdf = Some "EPSG:4326")) then
             let* gdf' := lift (to_crs gdf "EPSG:4326") in
             let* _ := print MConvertedToWGS84 in
             ret gdf'
           else ret gdf in
         let* _ := get_engine in
         let* _ := create_tables drop_existing in
         let* _ := new_session in
         try_finally
           (try_except
              (gdf_to_sql_model gdf mc (Some tt) batch_size)
              (fun e =>
                 let* _ := session_rollback in
                 let* _ := print (MErrorLoading e) in
                 ret 0))
           session_close
     end)
    (fun e =>
       let* _ := print (MErrorReading e) in
       ret 0).

(** ** The loading tool ([push_to_db.main]) *)

Record PushArgs : Type := mkPushArgs {
  input_file : option string;
  input_dir : option string;
  pattern : string;
  batch_size : Z;
  drop_existing : bool
}.

(** Truthiness of an optional string argument. *)
Definition given (a : option string) : bool :=
  match a with
  | Some s => negb (String.eqb s "")
  | None => false
  end.

Definition arg (a : option string) : string := default "" a.

(** [drop_this_file = args.drop_existing and i == 0] *)
Definition drop_this_file (args : PushArgs) (i : nat) : bool :=
  drop_existing args && Nat.eqb i 0.

(** The [for i, file_path in enumerate(files)] loop, from index [i]. *)
Fixpoint load_files (mc : ModelClass) (args : PushArgs) (n i : nat)
    (files : list string) (total_files : nat) (total_records : Z)
  : M (nat * Z) :=
  match files with
  | [] => ret (total_files, total_records)
  | file_path :: rest =>
      let* _ := print (MProcessingFileOf (i + 1) n
                         (os_path_basename E file_path)) in
      let* totals :=
        try_except
          (let* records_inserted :=
             load_processed_geojson_to_db file_path mc (batch_size args)
               (drop_this_file args i) in
           let* _ := print (MInsertedFrom records_inserted
                              (os_path_basename E file_path)) in
           ret (S total_files, total_records + records_inserted))
          (fun e =>
             let* _ := print (MErrorProcessingFile file_path e) in
             ret (total_files, total_records)) in
      load_files mc args n (S i) rest (fst totals) (snd totals)
  end.

Definition push_main (mc : ModelClass) (args : PushArgs) : M unit :=
  if negb (given (input_file args)) && negb (given (input_dir args)) then
    print MEitherRequired
  else
    let* _ :=
      if given (input_file args) && given (input_dir args)
      then print MBothProvided else ret tt in
    if given (input_file args) then
      if negb (os_path_exists E (arg (input_file args))) then
        print (MInputFileNotFound (arg (input_file args)))
      else
        let* _ := print (MProcessingFile (arg (input_file args))) in
        let* totals :=
          try_except
            (let* records_inserted :=
               load_processed_geojson_to_db (arg (input_file args)) mc
                 (batch_size args) (drop_existing args) in
             let* _ := print (MInserted records_inserted) in
             ret (1%nat, records_inserted))
            (fun e =>
               let* _ := print (MError e) in
               ret (0%nat, 0)) in
        print (MSummary (fst totals) (snd totals))
    else if given (input_dir args) then
      if negb (os_path_isdir E (arg (input_dir args))) then
        print (MInputDirNotFound (arg (input_dir args)))
      else
        let files :=
          glob_glob E (os_path_join E (arg (input_dir args)) (pattern args)) in
        match files with
        | [] => print (MNoFilesMatching (pattern args) (arg (input_dir args)))
        | _ =>
            let* _ := print (MFoundFiles (length files)) in
            let* totals :=
              load_files mc args (length files) 0%nat files 0%nat 0 in
            print (MSummary (fst totals) (snd totals))
        end
    else print (MSummary 0%nat 0).

(** ** Vocabulary of the statements *)

(** The two reference systems: British National Grid and WGS84. *)
Definition BNG : string := "EPSG:27700".
Definition WGS84 : string := "EPSG:4326".

(** The state after printing [ms]. *)
Definition emit (ms : list Msg) (s : State) : State :=
  mkState (stdout s ++ ms)%list (fs_dirs s) (fs_files s)
          (db_txs s) (session_pending s).

(** The result records of the rows that can be measured, in order, and
    the warnings for those that cannot. *)
Fixpoint measured (file_path : string) (rs : list Row) : list Row :=
  match rs with
  | [] => []
  | row :: rest =>
      match process_row file_path row with
      | Ok result => result :: measured file_path rest
      | Raise _ => measured file_path rest
      end
  end.

Fixpoint feature_warnings (file_path : string) (idx : nat) (rs : list Row)
  : list Msg :=
  match rs with
  | [] => []
  | row :: rest =>
      match process_row file_path row with
      | Ok _ => feature_warnings file_path (S idx) rest
      | Raise e => MErrorFeature idx e :: feature_warnings file_path (S idx) rest
      end
  end.

(** How an output record relates to the input row it comes from. *)
Definition processed_from (file_path : string) (row out_row : Row)
  : Prop :=
  exists g,
    dict_get "geometry" row = Some (PGeom g) /\
    dict_get "route_length_m" out_row = Some (PFloat (geom_length E g)) /\
    dict_get "geometry" out_row = Some (PGeom (reproject E BNG WGS84 g)) /\
    dict_get "source_file" out_row
      = Some (PStr (os_path_basename E file_path)) /\
    (forall k v, k <> "geometry" -> k <> "route_length_m" ->
                 k <> "source_file" -> (forall g', v <> PGeom g') ->
                 dict_get k row = Some v -> dict_get k out_row = Some v).

(** The attribute of the record that a source attribute is written to, if
    any. *)
Definition target (mc : ModelClass) (key : string) : option string :=
  if String.eqb key "geometry" then None
  else if String.eqb key "type" && hasattr mc "route_type"
  then Some "route_type"
  else if hasattr mc key then Some key
  else None.

(** The exception that the item named [key] makes the loop raise, if it
    does, and the rows none of whose items does. *)
Definition refusal (mc : ModelClass) (key : string) : option exn :=
  match target mc key with
  | Some name => setattr_error mc name
  | None => None
  end.

Fixpoint first_refusal (mc : ModelClass) (row : Row) : option exn :=
  match row with
  | [] => None
  | kv :: rest =>
      match refusal mc (fst kv) with
      | Some e => Some e
      | None => first_refusal mc rest
      end
  end.

Definition accepts (mc : ModelClass) (row : Row) : Prop :=
  first_refusal mc row = None.

(** The instance after an item that is not refused. *)
Definition assign (mc : ModelClass) (model : Model) (kv : string * value)
  : Model :=
  match target mc (fst kv) with
  | Some name => <[name := snd kv]> model
  | None => model
  end.

(** The record of a reprojected row: that of the row, with the geometry
    attribute written from the reprojected geometry. *)
Definition with_reprojected (mc : ModelClass) (src dst : string)
    (row : Row) (m : Model) : Model :=
  match dict_get "geometry" row with
  | Some (PGeom g) =>
      if hasattr mc "geometry" then
        <["geometry" :=
            PStr ("SRID=4326;" ++ wkt_dumps E (reproject E src dst g))]> m
      else m
  | _ => m
  end.

(** The slices [gdf.iloc[i:i+batch_size]] the loader goes through. *)
Definition batches (batch_size : Z) (rs : list Row) : list (list Row) :=
  match py_range (length rs) batch_size with
  | Ok starts =>
      map (fun i => firstn (Z.to_nat batch_size) (skipn i rs)) starts
  | Raise _ => []
  end.

(** The state with other database contents. *)
Definition with_db (txs : list (list Model)) (pending : list Model)
    (s : State) : State :=
  mkState (stdout s) (fs_dirs s) (fs_files s) txs pending.

(** The state in which the loader starts inserting: the engine exists, the
    tables are dropped (on request) and created, the session is fresh. *)
Definition ready (drop_first : bool) (s : State) : State :=
  with_db (if drop_first then [] else db_txs s) []
    (emit ([MDatabaseParameters]
           ++ (if drop_first then [MDroppedTables] else [])
           ++ [MCreatedTables; MTablesInSchema])%list s).

(** The arguments with the drop flag cleared. *)
Definition without_drop (args : PushArgs) : PushArgs :=
  mkPushArgs (input_file args) (input_dir args) (pattern args)
             (batch_size args) false.

(** How the batch loop ends: [k] batches are committed, one transaction
    each; either all of them, or batch [k] could not be built or
    committed. *)
Definition batch_outcome (mc : ModelClass) (rs : list Row) (B : Z)
    (starts : list nat) (txs0 : list (list Model)) (n : Z)
    (k : nat) (txs : list (list Model)) (r : Result Z)
    (pending : list Model) : Prop :=
  (k <= length starts)%nat /\
  Forall2 (fun i tx =>
             map_result (row_to_model mc)
                        (firstn (Z.to_nat B) (skipn i rs)) = Ok tx)
          (firstn k starts) txs /\
  ((k = length starts /\
    r = Ok (n + Z.of_nat (length (concat txs))) /\ pending = []) \/
   (exists i e,
      nth_error starts k = Some i /\ r = Raise e /\
      ((map_result (row_to_model mc)
                   (firstn (Z.to_nat B) (skipn i rs)) = Raise e /\
        pending = []) \/
       (exists tx,
          map_result (row_to_model mc)
                     (firstn (Z.to_nat B) (skipn i rs)) = Ok tx /\
          commit_ok E (txs0 ++ txs) tx = false /\
          e = DBAPIError /\ pending = tx)))).

(** The table the loader inserts, and what it prints on the way: a table
    not declared EPSG:4326 is reprojected first. *)
Definition reconcile_crs (gdf : Table) : Result (Table * list Msg) :=
  if bool_decide (crs gdf = Some WGS84) then Ok (gdf, [])
  else
    match to_crs gdf WGS84 with
    | Ok gdf' => Ok (gdf', [MConvertedToWGS84])
    | Raise e => Raise e
    end.

(** From [s] to [s']: messages were printed, none of them "Dropped
    existing tables", and transactions were added to the committed ones,
    none removed. *)
Definition extends_without_drop (s s' : State) : Prop :=
  exists msgs added,
    stdout s' = (stdout s ++ msgs)%list /\
    ~ In MDroppedTables msgs /\
    db_txs s' = (db_txs s ++ added)%list.

(** The value of the last item of a row whose key is one of [keys]. *)
Definition last_of (keys : list string) (row : Row) : option value :=
  fold_left
    (fun acc kv =>
       if existsb (String.eqb (fst kv)) keys then Some (snd kv) else acc)
    row None.

(** The arguments with the input directory left out. *)
Definition file_only (args : PushArgs) : PushArgs :=
  mkPushArgs (input_file args) None (pattern args)
             (batch_size args) (drop_existing args).



(** A file on which the load gives up before it gets to the tables: it
    cannot be read, holds no rows, cannot be brought to EPSG:4326, or the
    engine or the connection fails. *)
Definition unusable (path : string) : Prop :=
  (exists e, gpd_read_file E path = Raise e) \/
  (exists gdf,
     gpd_read_file E path = Ok gdf /\
     (rows gdf = [] \/
      (exists e, reconcile_crs gdf = Raise e) \/
      (exists e, create_engine E = Raise e) \/
      (exists e, db_connect E = Raise e))).

End Pipeline.

Arguments value : clear implicits.
Arguments Row : clear implicits.
Arguments Table : clear implicits.
Arguments Model : clear implicits.
Arguments FileData : clear implicits.
Arguments State : clear implicits.
Arguments Env : clear implicits.
Arguments M : clear implicits.
Arguments PipelineResult : clear implicits.

(** ** The target record ([utils/db_models.CyclingRoute]) *)

(** What an instance of a declarative class has besides its columns: the
    attributes of [object] and of every instance of a class (as of Python
    3.10), and those that [Base = declarative_base()] brings (SQLAlchemy
    1.4).  Assigning a cell to one of them sets an
    attribute of the instance, which is not stored.  The exceptions:
    [__class__] and [__dict__] take only a class and a dict (TypeError),
    [__weakref__] cannot be written (AttributeError), and
    [_sa_instance_state] is the bookkeeping of the session: an instance
    that has lost it is refused by [session.add_all] with an
    AttributeError, which is raised here where the attribute is assigned,
    for the same batch and before anything of it is committed. *)
Definition object_attributes : list (string * option exn) :=
  [("__class__", Some TypeError); ("__dict__", Some TypeError);
   ("__weakref__", Some AttributeError);
   ("__delattr__", None); ("__dir__", None); ("__doc__", None);
   ("__eq__", None); ("__format__", None); ("__ge__", None);
   ("__getattribute__", None); ("__gt__", None); ("__hash__", None);
   ("__init__", None); ("__init_subclass__", None); ("__le__", None);
   ("__lt__", None); ("__module__", None); ("__ne__", None);
   ("__new__", None); ("__reduce__", None); ("__reduce_ex__", None);
   ("__repr__", None); ("__setattr__", None); ("__sizeof__", None);
   ("__str__", None); ("__subclasshook__", None)].

Definition declarative_attributes : list (string * option exn) :=
  [("_sa_instance_state", Some AttributeError);
   ("_sa_class_manager", None); ("_sa_registry", None);
   ("metadata", None); ("registry", None);
   ("__mapper__", None); ("__table__", None)].

(** The class: its columns, in the order of the class body, then
    [__tablename__] and [__table_args__] of the class body and what every
    instance has. *)
Definition CyclingRoute : ModelClass :=
  mkModelClass "cycling_routes"
    [ "id"; "route_id";
      "street"; "locality"; "route_type"; "notes"; "surface"; "ncn_route";
      "traffic";
      "local_authority"; "la_s_code";
      "sh_date_uploaded"; "sh_src"; "sh_src_id";
      "route_length_m";
      "source_file";
      "created_at"; "updated_at";
      "geometry" ]
    ([("__tablename__", None); ("__table_args__", None)]
     ++ declarative_attributes ++ object_attributes)%list.

(** ** A concrete library: line geometries in the plane

    The part of shapely and geopandas the scenarios run on: line strings
    with rational coordinates, their length over the real numbers (the sum
    of the Euclidean lengths of the segments), and
    [GeoDataFrame.from_features] on a list of GeoJSON features.  Input
    outside this part (other geometry types, properties that are not an
    object) is refused here. *)

Module Planar.

Definition point : Type := (Q * Q)%type.

Inductive geometry : Type :=
| LineString (coordinates : list point)
| MultiLineString (lines : list (list point)).

Definition dist (p q : point) : R :=
  sqrt ((Q2R (fst q) - Q2R (fst p)) * (Q2R (fst q) - Q2R (fst p))
        + (Q2R (snd q) - Q2R (snd p)) * (Q2R (snd q) - Q2R (snd p))).

Fixpoint line_length (pts : list point) : R :=
  match pts with
  | [] => 0
  | p :: rest =>
      match rest with
      | [] => 0
      | q :: _ => dist p q + line_length rest
      end
  end.

Definition shapely_length (g : geometry) : R :=
  match g with
  | LineString pts => line_length pts
  | MultiLineString lines => fold_right (fun l acc => line_length l + acc)%R 0%R lines
  end.

(** A GeoJSON position: [[x, y]] or [[x, y, z]]. *)
Definition position (j : json) : Result point :=
  match j with
  | JArr (JNum x :: JNum y :: _) => Ok (x, y)
  | _ => Raise ValueError
  end.

Definition positions (j : json) : Result (list point) :=
  match j with
  | JArr items => map_result position items
  | _ => Raise ValueError
  end.

(** [shapely.geometry.shape] on a GeoJSON geometry object. *)
Definition shape (j : json) : Result geometry :=
  match py_getitem j "type" with
  | Raise e => Raise e
  | Ok t =>
      match py_getitem j "coordinates" with
      | Raise e => Raise e
      | Ok c =>
          if is_JStr "LineString" t then
            match positions c with
            | Raise e => Raise e
            | Ok pts => Ok (LineString pts)
            end
          else if is_JStr "MultiLineString" t then
            match c with
            | JArr ls =>
                match map_result positions ls with
                | Raise e => Raise e
                | Ok lines => Ok (MultiLineString lines)
                end
            | _ => Raise ValueError
            end
          else Raise ValueError
      end
  end.

(** One feature to one row: the geometry first, then the properties. *)
Definition feature_row (feature : json) : Result (Row geometry) :=
  match py_getitem feature "geometry" with
  | Raise e => Raise e
  | Ok g =>
      let geom :=
        if truthy g then
          match shape g with
          | Raise e => Raise e
          | Ok sh => Ok (PGeom sh)
          end
        else Ok PNone in
      match geom with
      | Raise e => Raise e
      | Ok geom =>
          match py_getitem feature "properties" with
          | Raise e => Raise e
          | Ok JNull => Ok [("geometry", geom)]
          | Ok (JObj fields) =>
              Ok (fold_left (fun row kv => dict_set (fst kv) (PJson (snd kv)) row)
                            fields [("geometry", geom)])
          | Ok _ => Raise TypeError
          end
      end
  end.

Definition is_geometry_cell (row : Row geometry) : bool :=
  match dict_get "geometry" row with
  | Some (PGeom _) => true
  | Some (PJson JNull) => true
  | _ => false
  end.

Definition gpd_from_features (features : json) : Result (list (Row geometry)) :=
  match features with
  | JArr items =>
      match map_result feature_row items with
      | Raise e => Raise e
      | Ok rs =>
          if forallb is_geometry_cell rs then Ok (DataFrame_from_records rs)
          else Raise TypeError
      end
  | _ => Raise TypeError
  end.

(** [posixpath.basename], [posixpath.join] and the root half of
    [posixpath.splitext], on the paths the scenarios use. *)
Fixpoint basename_from (acc : string) (p : string) : string :=
  match p with
  | EmptyString => acc
  | String c rest =>
      if Ascii.eqb c "/"%char then basename_from rest rest
      else basename_from acc rest
  end.

Definition basename (p : string) : string := basename_from p p.

Fixpoint splitext_from (seen : bool) (p : string) : string :=
  match p with
  | EmptyString => EmptyString
  | String c rest =>
      if Ascii.eqb c "."%char && seen && negb (is_substring "." rest)
      then EmptyString
      else String c (splitext_from (seen || negb (Ascii.eqb c "."%char)) rest)
  end.

Definition splitext_root (p : string) : string := splitext_from false p.

Definition join (a b : string) : string :=
  if String.prefix "/" b then b
  else if String.eqb a "" then b
  else a ++ "/" ++ b.

End Planar.

(** ** The scenario of the specification

    One feature on "Main St", a two-point line string in British National
    Grid coordinates. *)

Module Scenario.
Import Planar.

Definition main_st_line : geometry :=
  LineString [(inject_Z 300000, inject_Z 700000);
              (inject_Z 300100, inject_Z 700100)].

Definition document : json :=
  JObj [("type", JStr "FeatureCollection");
        ("features",
          JArr [JObj [("type", JStr "Feature");
                      ("properties",
                        JObj [("street", JStr "Main St");
                              ("type", JStr "Cycle Lane")]);
                      ("geometry",
                        JObj [("type", JStr "LineString");
                              ("coordinates",
                                JArr [JArr [JNum (inject_Z 300000);
                                            JNum (inject_Z 700000)];
                                      JArr [JNum (inject_Z 300100);
                                            JNum (inject_Z 700100)]])])]])].

Definition documents (file_path : string) : Result json :=
  if String.eqb file_path "data/routes.json" then Ok document
  else if String.eqb file_path "data/empty.json"
  then Ok (JObj [("type", JStr "FeatureCollection"); ("features", JArr [])])
  else if String.eqb file_path "data/other.json"
  then Ok (JObj [("name", JStr "not a feature")])
  else if String.eqb file_path "data/bad.json" then Raise JSONDecodeError
  else Raise OSError.

(** The imported table of the scenario, and one with a feature whose
    geometry is null in front. *)
Definition imported_row : Row geometry :=
  [("geometry", PGeom main_st_line);
   ("street", PStr "Main St");
   ("type", PStr "Cycle Lane")].

Definition null_row : Row geometry :=
  [("geometry", PNone); ("street", PStr "Mill Lane")].

Definition imported_table : Table geometry :=
  mkTable (Some BNG) [imported_row].

Definition mixed_table : Table geometry :=
  mkTable (Some BNG) [null_row; imported_row].

(** A reprojection standing in for pyproj's. *)
Definition transform (src target : string) (g : geometry) : geometry :=
  match g with
  | LineString pts => MultiLineString [pts]
  | MultiLineString ls => MultiLineString ls
  end.

Definition processed_table : Table geometry :=
  mkTable (Some WGS84)
    [[("street", PStr "Main St");
      ("type", PStr "Cycle Lane");
      ("geometry", PGeom (transform BNG WGS84 main_st_line));
      ("route_length_m", PFloat (shapely_length main_st_line));
      ("source_file", PStr "routes.json")]].

(** Processed files for the loader: three routes, one route without a
    geometry, and a file that declares no reference system. *)
Definition route (street : string) : Row geometry :=
  [("street", PStr street);
   ("type", PStr "Cycle Path");
   ("surface_width", PJson (JNum (inject_Z 2)));
   ("geometry", PGeom (transform BNG WGS84 main_st_line));
   ("source_file", PStr "routes.json")].

Definition three_routes : Table geometry :=
  mkTable (Some WGS84) [route "Main St"; route "High St"; route "Mill Lane"].

Definition route_without_geometry : Table geometry :=
  mkTable (Some WGS84)
    [[("street", PStr "Mill Lane"); ("geometry", PNone)]].

Definition undeclared : Table geometry :=
  mkTable None [route "Main St"].

Definition processed (file_path : string) : Result (Table geometry) :=
  if String.eqb file_path "out/routes.geojson" then Ok three_routes
  else if String.eqb file_path "out/null.geojson"
  then Ok route_without_geometry
  else if String.eqb file_path "out/undeclared.geojson" then Ok undeclared
  else Raise OSError.

(** A database that accepts every commit, and one that refuses every
    commit after the first. *)
Definition accept_all (txs : list (list (Model geometry)))
    (pending : list (Model geometry)) : bool := true.

Definition refuse_second (txs : list (list (Model geometry)))
    (pending : list (Model geometry)) : bool :=
  match txs with [] => true | _ => false end.

Definition world_with
    (commit : list (list (Model geometry)) -> list (Model geometry) -> bool)
  : Env geometry :=
  {| json_load := documents;
     from_features := gpd_from_features;
     gpd_read_file := processed;
     geom_length := shapely_length;
     geom_wkt := fun _ => "LINESTRING (-3.6 56.1, -3.6 56.1)";
     wkt_dumps := fun _ => "LINESTRING (-3.6 56.1, -3.6 56.1)";
     reproject := transform;
     osr_setup := Ok tt;
     os_path_basename := basename;
     os_path_splitext_root := splitext_root;
     os_path_join := join;
     os_path_exists := fun p => is_Ok (processed p);
     os_path_isdir := fun d => String.eqb d "out";
     glob_glob := fun p =>
       if String.eqb p "out/*.geojson"
       then ["out/routes.geojson"; "out/null.geojson"] else [];
     now_strftime := "20240101_120000";
     makedirs_error := fun _ => None;
     to_file_error := fun _ _ => None;
     create_engine := Ok tt;
     db_connect := Ok tt;
     commit_ok := commit |}.

Definition world : Env geometry := world_with accept_all.
Definition faulty_world : Env geometry := world_with refuse_second.

(** The empty world, and the world after the import of the scenario. *)
Definition s0 : State geometry := mkState [] ∅ ∅ [] [].

Definition after_import : State geometry :=
  mkState [MImporting "data/routes.json"] ∅ ∅ [] [].

(** The records of the three routes. *)
Definition record (street : string) : Model geometry :=
  <["geometry" := PStr "SRID=4326;LINESTRING (-3.6 56.1, -3.6 56.1)"]>
    (<["source_file" := PStr "routes.json"]>
       (<["route_type" := PStr "Cycle Path"]>
          (<["street" := PStr street]> ∅))).

End Scenario.

(** ** Further examples

    Rows, tables and worlds for the properties that go beyond the
    scenario of the specification. *)

Module Examples.
Import Planar Scenario.

(** A row with both a [type] and a [route_type] column. *)
Definition both_names : Row geometry :=
  [("street", PStr "Main St");
   ("type", PStr "Cycle Lane");
   ("route_type", PStr "Shared Use");
   ("geometry", PGeom (transform BNG WGS84 main_st_line))].

(** A row without a geometry column, and one whose geometry is text. *)
Definition no_geometry_column : Row geometry :=
  [("street", PStr "Mill Lane")].

Definition text_geometry : Row geometry :=
  [("street", PStr "Mill Lane");
   ("geometry", PStr "LINESTRING (0 0, 1 1)")].

Definition with_text_geometry : Table geometry :=
  mkTable (Some WGS84) [route "Main St"; text_geometry].

(** A processed table still declared in the British National Grid. *)
Definition bng_routes : Table geometry :=
  mkTable (Some BNG) [imported_row].

(** The world in which the pattern matches the given files. *)
Definition world_listing (files : list string) : Env geometry :=
  {| json_load := json_load world;
     from_features := from_features world;
     gpd_read_file := gpd_read_file world;
     geom_length := geom_length world;
     geom_wkt := geom_wkt world;
     wkt_dumps := wkt_dumps world;
     reproject := reproject world;
     osr_setup := osr_setup world;
     os_path_basename := os_path_basename world;
     os_path_splitext_root := os_path_splitext_root world;
     os_path_join := os_path_join world;
     os_path_exists := os_path_exists world;
     os_path_isdir := os_path_isdir world;
     glob_glob := fun _ => files;
     now_strftime := now_strftime world;
     makedirs_error := makedirs_error world;
     to_file_error := to_file_error world;
     create_engine := create_engine world;
     db_connect := db_connect world;
     commit_ok := commit_ok world |}.


Definition file_and_directory : PushArgs :=
  mkPushArgs (Some "out/routes.geojson") (Some "elsewhere") "*.geojson" 2
             false.


Definition directory_with_drop : PushArgs :=
  mkPushArgs None (Some "out") "*.geojson" 2 true.

(** A database that already holds one record, and a file system with
    the output directory. *)
Definition loaded_before : State geometry :=
  with_db [[record "Old Rd"]] [] s0.

Definition with_out_dir : State geometry :=
  mkState [] {["out"]} ∅ [] [].

(** A document with three features, the second of them without a
    geometry, and the world that reads it. *)
Definition side_st_line : geometry :=
  LineString [(inject_Z 300000, inject_Z 700000);
              (inject_Z 300030, inject_Z 700040);
              (inject_Z 300030, inject_Z 700100)].

Definition feature (street : string) (geom : json) : json :=
  JObj [("type", JStr "Feature");
        ("properties",
          JObj [("street", JStr street); ("type", JStr "Cycle Lane")]);
        ("geometry", geom)].

Definition line_string (coordinates : list (Z * Z)) : json :=
  JObj [("type", JStr "LineString");
        ("coordinates",
          JArr (map (fun xy => JArr [JNum (inject_Z (fst xy));
                                      JNum (inject_Z (snd xy))])
                    coordinates))].

Definition three_features : json :=
  JObj [("type", JStr "FeatureCollection");
        ("features",
          JArr [feature "Main St"
                  (line_string [(300000, 700000); (300100, 700100)]);
                feature "Mill Lane" JNull;
                feature "Side St"
                  (line_string [(300000, 700000); (300030, 700040);
                                (300030, 700100)])])].

Definition world_with_io (docs : string -> Result json)
    (write : string -> FileData geometry -> option exn) : Env geometry :=
  {| json_load := docs;
     from_features := from_features world;
     gpd_read_file := gpd_read_file world;
     geom_length := geom_length world;
     geom_wkt := geom_wkt world;
     wkt_dumps := wkt_dumps world;
     reproject := reproject world;
     osr_setup := osr_setup world;
     os_path_basename := os_path_basename world;
     os_path_splitext_root := os_path_splitext_root world;
     os_path_join := os_path_join world;
     os_path_exists := os_path_exists world;
     os_path_isdir := os_path_isdir world;
     glob_glob := glob_glob world;
     now_strftime := now_strftime world;
     makedirs_error := makedirs_error world;
     to_file_error := write;
     create_engine := create_engine world;
     db_connect := db_connect world;
     commit_ok := commit_ok world |}.

Definition reading_three : Env geometry :=
  world_with_io
    (fun file_path =>
       if String.eqb file_path "data/three.json" then Ok three_features
       else Raise OSError)
    (to_file_error world).

Definition feature_cells (street : string) (geom : value geometry)
  : Row geometry :=
  [("geometry", geom); ("street", PStr street); ("type", PStr "Cycle Lane")].

Definition imported_three : Table geometry :=
  mkTable (Some BNG)
    [feature_cells "Main St" (PGeom main_st_line);
     feature_cells "Mill Lane" PNone;
     feature_cells "Side St" (PGeom side_st_line)].



Definition with_class : Row geometry :=
  [("street", PStr "Main St");
   ("__class__", PStr "A");
   ("geometry", PGeom (transform BNG WGS84 main_st_line))].

(** An imported table with such a column. *)
Definition imported_with_class : Table geometry :=
  mkTable (Some BNG)
    [[("geometry", PGeom main_st_line); ("__class__", PStr "A")]].

(** A target class without a geometry field. *)
Definition Street : ModelClass :=
  mkModelClass "streets" ["id"; "street"] object_attributes.

(** A table with a route and a row without a geometry. *)
Definition route_and_null : Table geometry :=
  mkTable (Some WGS84)
    [route "Main St"; [("street", PStr "Mill Lane"); ("geometry", PNone)]].


(** The world in which a processed file is declared in the British
    National Grid. *)
Definition reading_bng : Env geometry :=
  {| json_load := json_load world;
     from_features := from_features world;
     gpd_read_file := fun file_path =>
       if String.eqb file_path "out/bng.geojson" then Ok bng_routes
       else Raise OSError;
     geom_length := geom_length world;
     geom_wkt := geom_wkt world;
     wkt_dumps := wkt_dumps world;
     reproject := reproject world;
     osr_setup := osr_setup world;
     os_path_basename := os_path_basename world;
     os_path_splitext_root := os_path_splitext_root world;
     os_path_join := os_path_join world;
     os_path_exists := os_path_exists world;
     os_path_isdir := os_path_isdir world;
     glob_glob := glob_glob world;
     now_strftime := now_strftime world;
     makedirs_error := makedirs_error world;
     to_file_error := to_file_error world;
     create_engine := create_engine world;
     db_connect := db_connect world;
     commit_ok := commit_ok world |}.

End Examples.

(** ** OS grid references ([utils/geotiles.py]) *)

(** Easting and northing are taken as exact rationals; [math.floor] is
    [Qfloor] and [str] of an [int] is its decimal numeral.  The code
    computes with floats: its divisions round, a quotient too small for a
    float becomes zero, and [math.floor] raises for a number that is not
    finite.  The branch the function takes is the one taken here for the
    coordinates of [plain_coordinate] below, and the statements are about
    these, or about the points of the grid. *)
Module Geotiles.

(** How a call ends: with a string, or with one of the two exceptions
    the body can raise. *)
Inductive outcome : Type :=
| Returns (ref : string)
| RaisesIndexError
| RaisesValueError.

Definition grid_chars : string := "ABCDEFGHJKLMNOPQRSTUVWXYZ".

(** [s[i]] on a string: a negative index counts from the end. *)
Definition py_index (s : string) (i : Z) : option ascii :=
  let len := Z.of_nat (String.length s) in
  if (0 <=? i) && (i <? len) then String.get (Z.to_nat i) s
  else if (- len <=? i) && (i <? 0) then String.get (Z.to_nat (len + i)) s
  else None.

Fixpoint repeat_char (n : nat) (c : ascii) : string :=
  match n with
  | O => ""
  | S n' => String c (repeat_char n' c)
  end.

(** [s.rjust(width, fill)] *)
Definition rjust (width : nat) (fill : ascii) (s : string) : string :=
  repeat_char (width - String.length s) fill +:+ s.

(** [str(i)] on an [int]. *)
Definition str (i : Z) : string := pretty i.

(** [grid_chars[int(l1)] + grid_chars[int(l2)]] for the 100 km square
    with indices [e100k] and [n100k]. *)
Definition let_pair (e100k n100k : Z) : option string :=
  let l1 :=
    (19 - n100k) - (19 - n100k) mod 5 + Qfloor (inject_Z (e100k + 10) / 5) in
  let l2 := ((19 - n100k) * 5) mod 25 + e100k mod 5 in
  match py_index grid_chars l1, py_index grid_chars l2 with
  | Some c1, Some c2 => Some (String c1 (String c2 ""))
  | _, _ => None
  end.

Definition get_os_grid_reference (e n : Q) (precision : Z) : outcome :=
  let e100k := Qfloor (e / 100000) in
  let n100k := Qfloor (n / 100000) in
  if (e100k <? 0) || (6 <? e100k) || (n100k <? 0) || (12 <? n100k)
  then Returns ""
  else
    match let_pair e100k n100k with
    | None => RaisesIndexError
    | Some let_pair =>
        let e_remaining := (e - inject_Z (e100k * 100000))%Q in
        let n_adjusted := if Qle_bool 1000000 n then (n - 1000000)%Q else n in
        let n_remaining := (n_adjusted - inject_Z (n100k * 100000))%Q in
        if precision =? 6 then
          let e_digits := rjust 3 "0" (str (Qfloor (e_remaining / 100))) in
          let n_digits := rjust 3 "0" (str (Qfloor (n_remaining / 100))) in
          Returns (let_pair +:+ e_digits +:+ n_digits)
        else if precision =? 8 then
          let e_digits := rjust 4 "0" (str (Qfloor (e_remaining / 10))) in
          let n_digits := rjust 4 "0" (str (Qfloor (n_remaining / 10))) in
          Returns (let_pair +:+ " " +:+ e_digits +:+ " " +:+ n_digits)
        else if precision =? 10 then
          let e_digits := rjust 5 "0" (str (Qfloor e_remaining)) in
          let n_digits := rjust 5 "0" (str (Qfloor n_remaining)) in
          Returns (let_pair +:+ " " +:+ e_digits +:+ " " +:+ n_digits)
        else RaisesValueError
    end.

(** *** Vocabulary of the statements *)

(** The coordinates for which the division by 100000 neither overflows
    nor turns a negative number into zero: those from 0 to 10^300, and
    the negative ones from -10^300 to -10^-300. *)
Definition plain_coordinate (x : Q) : Prop :=
  (0 <= x <= inject_Z (10 ^ 300))%Q \/
  (- inject_Z (10 ^ 300) <= x <= - (1 # Pos.pow 10 300))%Q.

(** The points the function covers: eastings from 0 to 700 km and
    northings from 0 to 1300 km, the upper ends left out. *)
Definition in_grid (e n : Q) : Prop :=
  (0 <= e < 700000)%Q /\ (0 <= n < 1300000)%Q.

(** The 100 km squares of the grid, by their indices. *)
Definition squares : list (Z * Z) :=
  list_prod (map Z.of_nat (seq 0 7)) (map Z.of_nat (seq 0 13)).

(** The number a string of decimal digits stands for. *)
Definition digit_value (c : ascii) : N := N.of_nat (nat_of_ascii c - 48).

Fixpoint decode (acc : N) (s : string) : N :=
  match s with
  | "" => acc
  | String c s' => decode (10 * acc + digit_value c) s'
  end.

Definition is_digit (c : ascii) : bool :=
  (48 <=? nat_of_ascii c)%nat && (nat_of_ascii c <=? 57)%nat.

Fixpoint all_chars (P : ascii -> bool) (s : string) : bool :=
  match s with
  | "" => true
  | String c s' => P c && all_chars P s'
  end.

(** Width of the digit groups, size of the cell in metres and separator
    for a precision the function knows. *)
Definition layout (precision : Z) : option (nat * Z * string) :=
  if precision =? 6 then Some (3%nat, 100, "")
  else if precision =? 8 then Some (4%nat, 10, " ")
  else if precision =? 10 then Some (5%nat, 1, " ")
  else None.

(** The function on the integer parts [E] and [N] of the coordinates. *)
Definition on_floors (E N : Z) (precision : Z) : outcome :=
  let e100k := E / 100000 in
  let n100k := N / 100000 in
  if (e100k <? 0) || (6 <? e100k) || (n100k <? 0) || (12 <? n100k)
  then Returns ""
  else
    match let_pair e100k n100k with
    | None => RaisesIndexError
    | Some let_pair =>
        let e_remaining := E - e100k * 100000 in
        let n_remaining :=
          (if 1000000 <=? N then N - 1000000 else N) - n100k * 100000 in
        match layout precision with
        | Some (width, cell, sep) =>
            Returns (let_pair +:+ sep
                     +:+ rjust width "0" (str (e_remaining / cell)) +:+ sep
                     +:+ rjust width "0" (str (n_remaining / cell)))
        | None => RaisesValueError
        end
    end.

End Geotiles.

(** * Properties *)

(** ** Dictionaries *)

Section DictFacts.
Context {V : Type}.
Implicit Types (d : list (string * V)) (k : string) (v : V).

Lemma dict_get_set_eq k v d : dict_get k (dict_set k v d) = Some v.
Proof.
  induction d as [|[k' v'] d IH]; simpl.
  - now rewrite String.eqb_refl.
  - destruct (String.eqb k k') eqn:Hk; simpl; rewrite Hk; auto.
Qed.

Lemma dict_get_set_ne k k' v d :
  k <> k' -> dict_get k (dict_set k' v d) = dict_get k d.
Proof.
  intros Hne. induction d as [|[k0 v0] d IH]; simpl.
  - destruct (String.eqb_spec k k'); congruence.
  - destruct (String.eqb_spec k' k0) as [->|Hk0]; simpl.
    + destruct (String.eqb_spec k k0); congruence.
    + destruct (String.eqb_spec k k0); auto.
Qed.

Lemma dict_get_keys k v d : dict_get k d = Some v -> In k (dict_keys d).
Proof.
  induction d as [|[k' v'] d IH]; simpl; [discriminate|].
  destruct (String.eqb_spec k k') as [->|]; auto.
Qed.

Lemma dict_get_None k d : ~ In k (dict_keys d) -> dict_get k d = None.
Proof.
  induction d as [|[k' v'] d IH]; simpl; [reflexivity|].
  intros Hn. destruct (String.eqb_spec k k') as [->|]; [tauto|].
  apply IH. tauto.
Qed.


Lemma dict_get_filter_ne k k' d :
  k <> k' ->
  dict_get k (List.filter (fun kv => negb (String.eqb (fst kv) k')) d)
  = dict_get k d.
Proof.
  intros Hne. induction d as [|[k0 v0] d IH]; simpl; [reflexivity|].
  destruct (String.eqb_spec k0 k') as [->|Hk0]; simpl.
  - destruct (String.eqb_spec k k'); congruence.
  - destruct (String.eqb_spec k k0); auto.
Qed.
End DictFacts.

(** ** The monad *)

Section MonadFacts.
Context {Geometry : Type}.
Implicit Types (s : State Geometry) (ms : list Msg).

Lemma print_emit m s : print m s = (Ok tt, emit [m] s).
Proof. reflexivity. Qed.

Lemma emit_emit ms1 ms2 s : emit ms2 (emit ms1 s) = emit (ms1 ++ ms2) s.
Proof. unfold emit; simpl. now rewrite <- app_assoc. Qed.

Lemma emit_nil s : emit [] s = s.
Proof. destruct s; unfold emit; simpl. now rewrite app_nil_r. Qed.

Lemma emit_files ms s : fs_files (emit ms s) = fs_files s.
Proof. reflexivity. Qed.

Lemma emit_txs ms s : db_txs (emit ms s) = db_txs s.
Proof. reflexivity. Qed.
End MonadFacts.

(** Unfolding one layer of monadic plumbing, keeping the printed messages
    gathered in one [emit]. *)
Arguments print : simpl never.
Arguments emit : simpl never.
Arguments gdf_to_sql_model : simpl never.

Ltac mstep :=
  unfold bind, ret, lift, raise, try_except, try_finally;
  repeat (rewrite ?print_emit; cbn -[print emit]);
  rewrite ?emit_emit; cbn [app].

(** ** Feature Importer *)

Section Importer.
Context {Geometry : Type} (E : Env Geometry).
Implicit Types (s : State Geometry).

Lemma import_json_data_run file_path s :
  import_json_data E file_path s =
  match json_load E file_path with
  | Raise e =>
      (Ok None, emit [MImporting file_path; MErrorImporting file_path e] s)
  | Ok data =>
      match select_features data with
      | Raise e =>
          (Ok None, emit [MImporting file_path; MErrorImporting file_path e] s)
      | Ok features =>
          if truthy features then
            match from_features E features with
            | Raise e =>
                (Ok None,
                 emit [MImporting file_path; MErrorImporting file_path e] s)
            | Ok rs =>
                (Ok (Some (mkTable (Some "EPSG:27700") rs)),
                 emit [MImporting file_path] s)
            end
          else (Ok None, emit [MImporting file_path; MNoFeatures file_path] s)
      end
  end.
Proof.
  unfold import_json_data. mstep.
  destruct (json_load E file_path) as [data|e]; [|now mstep].
  destruct (select_features data) as [features|e]; [|now mstep].
  destruct (truthy features); mstep; [|reflexivity].
  destruct (from_features E features); now mstep.
Qed.



End Importer.

(** ** Route Processor *)

Section Processor.
Context {Geometry : Type} (E : Env Geometry).
Implicit Types (s : State Geometry) (row result r : Row Geometry)
  (rs : list (Row Geometry)).

Lemma process_rows_run file_path rs : forall idx acc s,
  process_rows E file_path idx rs acc s =
  (Ok (acc ++ measured E file_path rs)%list,
   emit (feature_warnings E file_path idx rs) s).
Proof.
  induction rs as [|row rs IH]; intros idx acc s; simpl.
  - unfold ret. now rewrite app_nil_r, emit_nil.
  - mstep. destruct (process_row E file_path row) as [result|e]; mstep.
    + rewrite IH. now rewrite <- app_assoc.
    + rewrite IH, emit_emit. reflexivity.
Qed.

(** What [process_route_features] does, in one equation. *)
Lemma process_route_features_run gdf file_path s :
  process_route_features E gdf file_path s =
  match osr_setup E with
  | Raise e => (Ok None, emit [MErrorProcessingFeatures e] s)
  | Ok _ =>
      match measured E file_path (rows gdf) with
      | [] =>
          (Ok None,
           emit (feature_warnings E file_path 0 (rows gdf)
                 ++ [MNoValidResults]) s)
      | results =>
          (Ok (Some (mkTable (Some WGS84)
                       (map (map (reproject_cell E BNG WGS84))
                            (DataFrame_from_records results)))),
           emit (feature_warnings E file_path 0 (rows gdf)) s)
      end
  end.
Proof.
  unfold process_route_features. mstep.
  destruct (osr_setup E) as [[]|e]; mstep; [|reflexivity].
  rewrite process_rows_run. cbn [app].
  destruct (measured E file_path (rows gdf)); mstep; reflexivity.
Qed.

(** A measured record carries the geometry of its row, the length of
    that geometry, and the name of the file. *)
Lemma process_row_Ok file_path row result :
  process_row E file_path row = Ok result ->
  exists g,
    dict_get "geometry" row = Some (PGeom g) /\
    dict_get "geometry" result = Some (PGeom g) /\
    dict_get "route_length_m" result = Some (PFloat (geom_length E g)) /\
    dict_get "source_file" result
      = Some (PStr (os_path_basename E file_path)) /\
    (forall k, k <> "geometry" -> k <> "route_length_m" ->
               k <> "source_file" ->
               dict_get k result = dict_get k row).
Proof.
  unfold process_row, row_geometry, py_length.
  destruct (dict_get "geometry" row) as [v|] eqn:Hg; [|discriminate].
  destruct v as [j|r| |g]; try discriminate.
  intros [= <-]. exists g. repeat split.
  - rewrite !dict_get_set_ne by discriminate. apply dict_get_set_eq.
  - rewrite dict_get_set_ne by discriminate. apply dict_get_set_eq.
  - apply dict_get_set_eq.
  - intros k H1 H2 H3. rewrite !dict_get_set_ne by assumption.
    now apply dict_get_filter_ne.
Qed.

Lemma process_row_Ok_iff file_path row :
  (exists result, process_row E file_path row = Ok result) <->
  (exists g, dict_get "geometry" row = Some (PGeom g)).
Proof.
  split.
  - intros [result H]. destruct (process_row_Ok _ _ _ H) as (g & Hg & _).
    eauto.
  - intros [g Hg]. unfold process_row, row_geometry. rewrite Hg. simpl. eauto.
Qed.

Lemma measured_spec file_path rs result :
  In result (measured E file_path rs) <->
  exists row, In row rs /\ process_row E file_path row = Ok result.
Proof.
  induction rs as [|row rs IH]; simpl.
  - split; [tauto|intros (? & [] & _)].
  - destruct (process_row E file_path row) as [r|e] eqn:Hrow; simpl.
    + rewrite IH. split.
      * intros [<-|(row' & Hin & H)]; eauto.
      * intros (row' & [<-|Hin] & H); [left; congruence|right; eauto].
    + rewrite IH. split.
      * intros (row' & Hin & H); eauto.
      * intros (row' & [<-|Hin] & H); [congruence|eauto].
Qed.

(** The frame pandas builds keeps every cell of every record. *)
Lemma add_column_mono cols k c :
  In c cols -> In c (add_column cols k).
Proof.
  unfold add_column. destruct (existsb _ cols); auto.
  intros H. apply in_or_app. now left.
Qed.

Lemma add_column_In cols k : In k (add_column cols k).
Proof.
  unfold add_column. destruct (existsb _ cols) eqn:Hex.
  - apply existsb_exists in Hex as (x & Hin & Hx).
    apply String.eqb_eq in Hx. now subst.
  - apply in_or_app. right. now left.
Qed.

Lemma add_columns_mono ks : forall cols c,
  In c cols -> In c (fold_left add_column ks cols).
Proof.
  induction ks as [|k ks IH]; intros cols c H; simpl; auto.
  apply IH. now apply add_column_mono.
Qed.

Lemma add_columns_In ks : forall cols k,
  In k ks -> In k (fold_left add_column ks cols).
Proof.
  induction ks as [|k0 ks IH]; intros cols k; simpl; [tauto|].
  intros [->|H]; [|now apply IH].
  apply add_columns_mono, add_column_In.
Qed.

Lemma union_columns_from_mono (records : list (Row Geometry)) : forall cols c,
  In c cols ->
  In c (fold_left (fun cols r => fold_left add_column (dict_keys r) cols)
                  records cols).
Proof.
  induction records as [|r records IH]; intros cols c H; simpl; auto.
  apply IH. now apply add_columns_mono.
Qed.

Lemma union_columns_In (records : list (Row Geometry)) r k :
  In r records -> In k (dict_keys r) -> In k (union_columns records).
Proof.
  unfold union_columns. generalize (@nil string).
  induction records as [|r0 records IH]; intros cols; simpl; [tauto|].
  intros [->|H] Hk; [|now apply IH].
  apply union_columns_from_mono. now apply add_columns_In.
Qed.

Lemma dict_get_fill_row cols r k :
  In k cols ->
  dict_get k (fill_row cols r) = Some (default PNaN (dict_get k r)).
Proof.
  unfold fill_row. induction cols as [|c cols IH]; simpl; [tauto|].
  intros H. destruct (String.eqb_spec k c) as [->|Hne]; [reflexivity|].
  apply IH. destruct H; congruence.
Qed.

Lemma DataFrame_from_records_get (records : list (Row Geometry)) r k v :
  In r records -> dict_get k r = Some v ->
  dict_get k (fill_row (union_columns records) r) = Some v.
Proof.
  intros Hin Hget. rewrite dict_get_fill_row.
  - now rewrite Hget.
  - eapply union_columns_In; eauto using dict_get_keys.
Qed.

Lemma dict_get_reproject src target r k :
  dict_get k (map (reproject_cell E src target) r) =
  match dict_get k r with
  | Some (PGeom g) =>
      if String.eqb k "geometry"
      then Some (PGeom (reproject E src target g))
      else Some (PGeom g)
  | o => o
  end.
Proof.
  induction r as [|[k0 v0] r IH]; simpl; [reflexivity|].
  destruct v0 as [j|x| |g]; simpl;
    try (destruct (String.eqb_spec k k0); [reflexivity|exact IH]).
  destruct (String.eqb_spec k0 "geometry") as [Hk0|Hk0]; simpl;
    (destruct (String.eqb_spec k k0) as [Hk|Hne]; [|exact IH]); subst k.
  - subst k0. reflexivity.
  - destruct (String.eqb_spec k0 "geometry"); congruence.
Qed.

Lemma process_row_error file_path row e :
  process_row E file_path row = Raise e -> e = AttributeError.
Proof.
  unfold process_row, row_geometry, py_length.
  destruct (dict_get "geometry" row) as [[j|r| |g]|]; congruence.
Qed.

Lemma finished_row file_path (results : list (Row Geometry)) row result :
  In result results ->
  process_row E file_path row = Ok result ->
  processed_from E file_path row
    (map (reproject_cell E BNG WGS84) (fill_row (union_columns results) result)).
Proof.
  intros Hin Hrow.
  destruct (process_row_Ok _ _ _ Hrow) as (g & Hg & Hg' & Hlen & Hsrc & Hrest).
  exists g. split; [exact Hg|]. repeat split.
  - rewrite dict_get_reproject.
    now rewrite (DataFrame_from_records_get _ _ _ _ Hin Hlen).
  - rewrite dict_get_reproject.
    now rewrite (DataFrame_from_records_get _ _ _ _ Hin Hg').
  - rewrite dict_get_reproject.
    now rewrite (DataFrame_from_records_get _ _ _ _ Hin Hsrc).
  - intros k v H1 H2 H3 Hv Hk. rewrite dict_get_reproject.
    rewrite <- Hrest in Hk by assumption.
    rewrite (DataFrame_from_records_get _ _ _ _ Hin Hk).
    destruct v; try reflexivity. now destruct (Hv g0).
Qed.

Lemma measured_Forall2 file_path rs :
  Forall2 (fun row result => process_row E file_path row = Ok result)
    (List.filter (fun row => is_Ok (process_row E file_path row)) rs)
    (measured E file_path rs).
Proof.
  induction rs as [|row rs IH]; simpl; [constructor|].
  destruct (process_row E file_path row) eqn:Hrow; simpl; auto.
Qed.

Lemma Forall2_In_r {A B} (P : A -> B -> Prop) (l : list A) (l' : list B) :
  Forall2 P l l' -> Forall2 (fun a b => P a b /\ In b l') l l'.
Proof.
  induction 1 as [|a b l l' Hab _ IH]; constructor.
  - split; [assumption|now left].
  - eapply Forall2_impl; [exact IH|].
    intros a' b' [? ?]. split; [assumption|now right].
Qed.

Lemma Forall2_map_r {A B C} (P : A -> C -> Prop) (f : B -> C)
    (l : list A) (l' : list B) :
  Forall2 (fun a b => P a (f b)) l l' -> Forall2 P l (map f l').
Proof. induction 1; simpl; constructor; auto. Qed.

Lemma feature_warnings_length file_path rs : forall idx,
  (length (feature_warnings E file_path idx rs)
   + length (measured E file_path rs) = length rs)%nat.
Proof.
  induction rs as [|row rs IH]; intros idx; simpl; [reflexivity|].
  destruct (process_row E file_path row); simpl; rewrite <- (IH (S idx)); lia.
Qed.

Lemma feature_warnings_Forall file_path rs : forall idx,
  Forall (fun m => exists i, m = MErrorFeature i AttributeError)
         (feature_warnings E file_path idx rs).
Proof.
  induction rs as [|row rs IH]; intros idx; simpl; [constructor|].
  destruct (process_row E file_path row) eqn:Hrow; auto.
  constructor; auto. apply process_row_error in Hrow. subst. eauto.
Qed.

(** The records of the processed table, row by row. *)
Lemma processed_rows file_path rs :
  Forall2 (processed_from E file_path)
    (List.filter (fun row => is_Ok (process_row E file_path row)) rs)
    (map (map (reproject_cell E BNG WGS84))
         (DataFrame_from_records (measured E file_path rs))).
Proof.
  unfold DataFrame_from_records. rewrite map_map.
  apply Forall2_map_r.
  eapply Forall2_impl; [apply Forall2_In_r, measured_Forall2|].
  intros row result [Hrow Hin]. simpl in *. now apply finished_row.
Qed.

Lemma Forall2_Forall_r {A B} (P : A -> B -> Prop) (l : list A) (l' : list B) :
  Forall2 P l l' -> Forall (fun b => exists a, In a l /\ P a b) l'.
Proof.
  induction 1 as [|a b l l' Hab _ IH]; constructor.
  - exists a. split; [now left|assumption].
  - eapply Forall_impl; [exact IH|].
    intros b' (a' & Hin & HP). exists a'. split; [now right|assumption].
Qed.

(** C1.  A table that the importer returned is tagged EPSG:27700.  With
    the transformation set up, the processor gives each row of it that
    holds a geometry one record, in the order of the rows, and no other
    record: the record's [route_length_m] is the length of the row's
    geometry as it stands in the imported (projected) table, and its
    geometry is that same geometry reprojected from EPSG:27700 to
    EPSG:4326.  The table of these records is tagged EPSG:4326, and it is
    returned whenever there is such a row. *)
Theorem route_length_measured_before_reprojection file_path s gdf s1 :
  import_json_data E file_path s = (Ok (Some gdf), s1) ->
  osr_setup E = Ok tt ->
  let good :=
    List.filter (fun row => is_Ok (process_row E file_path row)) (rows gdf) in
  crs gdf = Some BNG /\
  (forall row,
     In row good <->
     In row (rows gdf) /\ exists g, dict_get "geometry" row = Some (PGeom g)) /\
  exists res s2,
    process_route_features E gdf file_path s1 = (Ok res, s2) /\
    match res with
    | None => good = []
    | Some out =>
        crs out = Some WGS84 /\
        Forall2
          (fun row out_row =>
             exists g,
               dict_get "geometry" row = Some (PGeom g) /\
               dict_get "route_length_m" out_row
                 = Some (PFloat (geom_length E g)) /\
               dict_get "geometry" out_row
                 = Some (PGeom (reproject E BNG WGS84 g)))
          good (rows out)
    end.
Proof.
  intros Himp Hosr good. split; [|split].
  - rewrite import_json_data_run in Himp.
    destruct (json_load E file_path) as [data|]; [|discriminate].
    destruct (select_features data) as [features|]; [|discriminate].
    destruct (truthy features); [|discriminate].
    destruct (from_features E features); [|discriminate].
    injection Himp as <- _. reflexivity.
  - intros row. unfold good. rewrite filter_In.
    rewrite <- (process_row_Ok_iff file_path row).
    destruct (process_row E file_path row); simpl; split.
    + intros [Hin _]. eauto.
    + intros [Hin _]. auto.
    + intros [_ ?]. discriminate.
    + intros [_ [? ?]]. discriminate.
  - rewrite process_route_features_run, Hosr.
    pose proof (processed_rows file_path (rows gdf)) as Hrows.
    pose proof (measured_Forall2 file_path (rows gdf)) as Hgood.
    fold good in Hrows, Hgood.
    destruct (measured E file_path (rows gdf)) as [|r results].
    + exists None. eexists. split; [reflexivity|]. now inversion Hgood.
    + eexists (Some _), _. split; [reflexivity|]. split; [reflexivity|].
      simpl. eapply Forall2_impl; [exact Hrows|].
      intros row out_row (g & Hg & Hlen & Hgeo & _). eauto.
Qed.

(** C5.  When the transformation set-up succeeds, the processor does not
    raise.  A row can be measured exactly when its geometry cell holds a
    geometry (a null geometry cannot).  Every row that cannot be measured
    is skipped with one warning and the loop goes on; the processed table
    holds one record for each row that can be measured, in input order,
    and there is no table only when no row can be measured. *)
Theorem unmeasurable_records_are_skipped gdf file_path s :
  osr_setup E = Ok tt ->
  let good :=
    List.filter (fun row => is_Ok (process_row E file_path row)) (rows gdf) in
  (forall row,
     is_Ok (process_row E file_path row) = true <->
     exists g, dict_get "geometry" row = Some (PGeom g)) /\
  exists res warnings,
    process_route_features E gdf file_path s
    = (Ok res, emit (warnings ++ match res with
                               | None => [MNoValidResults]
                               | Some _ => []
                               end)%list s) /\
    Forall (fun m => exists i, m = MErrorFeature i AttributeError) warnings /\
    (length warnings + length good = length (rows gdf))%nat /\
    match res with
    | None => good = []
    | Some out =>
        good <> [] /\ crs out = Some WGS84 /\
        Forall2 (processed_from E file_path) good (rows out)
    end.
Proof.
  intros Hosr good. split.
  - intros row. rewrite <- (process_row_Ok_iff file_path row).
    destruct (process_row E file_path row); simpl; split; eauto;
      try discriminate. intros [? ?]. discriminate.
  - rewrite process_route_features_run, Hosr.
    pose proof (processed_rows file_path (rows gdf)) as Hrows.
    pose proof (measured_Forall2 file_path (rows gdf)) as Hgood.
    pose proof (feature_warnings_length file_path (rows gdf) 0) as Hlen.
    pose proof (feature_warnings_Forall file_path (rows gdf) 0) as Hall.
    fold good in Hrows, Hgood.
    rewrite <- (Forall2_length _ _ _ Hgood) in Hlen.
    destruct (measured E file_path (rows gdf)) as [|r results].
    + exists None, (feature_warnings E file_path 0 (rows gdf)).
      repeat split; auto. now inversion Hgood.
    + eexists (Some _), (feature_warnings E file_path 0 (rows gdf)).
      rewrite app_nil_r. repeat split; auto.
      intros Hnil. rewrite Hnil in Hgood. inversion Hgood.
Qed.

End Processor.

(** ** The scenario of the specification *)

Section MainStreet.
Import Planar Scenario.
Local Open Scope R_scope.

Lemma Q2R_inject_Z z : Q2R (inject_Z z) = IZR z.
Proof. unfold Q2R, inject_Z; simpl. field. Qed.

Lemma main_st_length : shapely_length main_st_line = sqrt 20000.
Proof.
  unfold main_st_line, shapely_length, line_length, dist; simpl fst; simpl snd.
  rewrite !Q2R_inject_Z, Rplus_0_r. f_equal. lra.
Qed.

Lemma sqrt_20000_bounds : 141.42 < sqrt 20000 < 141.43.
Proof.
  split.
  - rewrite <- (sqrt_square 141.42) by lra. apply sqrt_lt_1_alt. lra.
  - rewrite <- (sqrt_square 141.43) by lra. apply sqrt_lt_1_alt. lra.
Qed.

(** C8.  With shapely and geopandas as in [Planar], importing and
    processing the document of the scenario gives one record; its
    [route_length_m] is the Euclidean distance between the two points,
    [sqrt 20000], which lies between 141.42 and 141.43 (lengths are real
    numbers here, rounding is not modelled); its geometry is the line
    reprojected from EPSG:27700 to EPSG:4326, in a table tagged
    EPSG:4326. *)
Theorem main_street_scenario (E : Env geometry) (file_path : string)
    (s : State geometry) :
  json_load E file_path = Ok document ->
  from_features E = gpd_from_features ->
  geom_length E = shapely_length ->
  osr_setup E = Ok tt ->
  exists gdf out len,
    import_json_data E file_path s
      = (Ok (Some gdf), emit [MImporting file_path] s) /\
    process_route_features E gdf file_path (emit [MImporting file_path] s)
      = (Ok (Some out), emit [MImporting file_path] s) /\
    crs gdf = Some BNG /\
    crs out = Some WGS84 /\
    rows out =
      [[("street", PStr "Main St");
        ("type", PStr "Cycle Lane");
        ("geometry", PGeom (reproject E BNG WGS84 main_st_line));
        ("route_length_m", PFloat len);
        ("source_file", PStr (os_path_basename E file_path))]] /\
    len = sqrt 20000 /\
    141.42 < len < 141.43.
Proof.
  intros Hdoc Hfeat Hlen Hosr.
  exists (mkTable (Some BNG)
            [[("geometry", PGeom main_st_line);
              ("street", PStr "Main St");
              ("type", PStr "Cycle Lane")]]).
  eexists. exists (shapely_length main_st_line).
  split; [|split].
  - rewrite import_json_data_run, Hdoc. simpl. rewrite Hfeat. reflexivity.
  - rewrite process_route_features_run, Hosr. simpl.
    unfold process_row. simpl. rewrite Hlen. simpl.
    rewrite emit_nil. reflexivity.
  - split; [reflexivity|]. split; [reflexivity|]. split; [reflexivity|].
    rewrite main_st_length. split; [reflexivity|apply sqrt_20000_bounds].
Qed.

End MainStreet.

(** ** Database Loader: one row to one record *)

Section RowMapping.
Context {Geometry : Type} (E : Env Geometry).
Implicit Types (row : Row Geometry) (m model : Model Geometry)
  (v : value Geometry) (mc : ModelClass).

Lemma assign_target mc model key v :
  assign mc model (key, v) =
  match target mc key with
  | Some t => <[t := v]> model
  | None => model
  end.
Proof. reflexivity. Qed.

(** The body of the loop: it raises for an item that is refused, and
    assigns otherwise. *)
Lemma set_attribute_run mc model key v :
  set_attribute mc model (key, v) =
  match refusal mc key with
  | Some e => Raise e
  | None => Ok (assign mc model (key, v))
  end.
Proof.
  unfold set_attribute, refusal, assign, target, setattr. cbn [fst snd].
  destruct (String.eqb key "geometry"); [reflexivity|].
  destruct (String.eqb key "type" && hasattr mc "route_type").
  - now destruct (setattr_error mc "route_type").
  - destruct (hasattr mc key); [|reflexivity].
    now destruct (setattr_error mc key).
Qed.

(** The loop raises at the first item that is refused, and assigns item
    by item when none is. *)
Lemma set_attributes_run mc row : forall model,
  set_attributes mc row model =
  match first_refusal mc row with
  | Some e => Raise e
  | None => Ok (fold_left (assign mc) row model)
  end.
Proof.
  induction row as [|[key v] row IH]; intros model; [reflexivity|].
  cbn [set_attributes first_refusal fold_left fst].
  rewrite set_attribute_run.
  destruct (refusal mc key); [reflexivity|]. apply IH.
Qed.

Lemma row_to_model_run mc row :
  row_to_model E mc row =
  match first_refusal mc row with
  | Some e => Raise e
  | None => set_geometry E mc row (fold_left (assign mc) row ∅)
  end.
Proof.
  unfold row_to_model. rewrite set_attributes_run.
  now destruct (first_refusal mc row).
Qed.

Lemma row_to_model_accepts mc row m :
  row_to_model E mc row = Ok m -> accepts mc row.
Proof.
  rewrite row_to_model_run. unfold accepts.
  now destruct (first_refusal mc row).
Qed.

(** A column of the class is never refused. *)
Lemma setattr_error_column mc name :
  existsb (String.eqb name) (columns mc) = true -> setattr_error mc name = None.
Proof. intros H. unfold setattr_error. now rewrite H. Qed.

Lemma setattr_Ok mc model name v m :
  setattr mc model name v = Ok m ->
  setattr_error mc name = None /\ m = <[name := v]> model.
Proof.
  unfold setattr. destruct (setattr_error mc name); [discriminate|].
  intros [= <-]. auto.
Qed.

Lemma accepts_In mc row key v :
  accepts mc row -> In (key, v) row -> refusal mc key = None.
Proof.
  unfold accepts. induction row as [|[k0 v0] row IH]; simpl; [tauto|].
  destruct (refusal mc k0) eqn:Hk0; [discriminate|].
  intros Hrest [[= <- <-]|Hin]; auto.
Qed.

(** What [set_geometry] gives when it gives a record. *)
Lemma set_geometry_Ok mc row model m :
  set_geometry E mc row model = Ok m ->
  (hasattr mc "geometry" = false /\ m = model) \/
  (hasattr mc "geometry" = true /\
   dict_get "geometry" row = Some PNone /\ m = model) \/
  (exists g,
     hasattr mc "geometry" = true /\
     dict_get "geometry" row = Some (PGeom g) /\
     setattr_error mc "geometry" = None /\
     m = <["geometry" := PStr ("SRID=4326;" ++ wkt_dumps E g)]> model).
Proof.
  unfold set_geometry, row_geometry.
  destruct (hasattr mc "geometry"); [|intros [= <-]; auto].
  destruct (dict_get "geometry" row) as [[j|x| |g]|]; simpl;
    try discriminate.
  - destruct j; simpl; try discriminate. intros [= <-]. auto.
  - intros Hset. apply setattr_Ok in Hset as [Herr ->].
    right. right. exists g. auto.
Qed.

(** An attribute no item of the row is written to keeps its value. *)
Lemma fold_assign_other mc row : forall model (k : string),
  (forall key v, In (key, v) row -> target mc key <> Some k) ->
  fold_left (assign mc) row model !! k = model !! k.
Proof.
  induction row as [|[key v] row IH]; intros model k Hk; cbn [fold_left];
    [reflexivity|].
  rewrite IH by (intros key' v' Hin; apply (Hk key' v'); now right).
  rewrite assign_target.
  specialize (Hk key v (or_introl eq_refl)).
  destruct (target mc key) as [t|]; [|reflexivity].
  unfold Model in *. apply lookup_insert_ne. congruence.
Qed.

Lemma target_geometry mc key : target mc key <> Some "geometry".
Proof.
  unfold target. destruct (String.eqb_spec key "geometry") as [->|Hne].
  - discriminate.
  - destruct (String.eqb key "type" && hasattr mc "route_type");
      [discriminate|].
    destruct (hasattr mc key); congruence.
Qed.

Lemma target_hasattr mc key k :
  hasattr mc "route_type" = true ->
  target mc key = Some k -> hasattr mc k = true.
Proof.
  intros Hrt. unfold target.
  destruct (String.eqb key "geometry"); [discriminate|].
  destruct (String.eqb key "type" && hasattr mc "route_type").
  - intros [= <-]. exact Hrt.
  - destruct (hasattr mc key) eqn:Hk; [|discriminate]. now intros [= <-].
Qed.



(** The record before its geometry is set holds nothing under "geometry". *)
Lemma fold_assign_geometry mc row :
  fold_left (assign mc) row (∅ : Model Geometry) !! "geometry" = None.
Proof.
  rewrite fold_assign_other; [unfold Model; apply lookup_empty|].
  intros key v _. apply target_geometry.
Qed.

Lemma row_to_model_Ok mc row m :
  row_to_model E mc row = Ok m ->
  accepts mc row /\
  set_geometry E mc row (fold_left (assign mc) row ∅) = Ok m.
Proof.
  rewrite row_to_model_run. unfold accepts.
  destruct (first_refusal mc row); [discriminate|]. auto.
Qed.

Lemma row_to_model_lookup mc row m k :
  row_to_model E mc row = Ok m ->
  k <> "geometry" ->
  m !! k = fold_left (assign mc) row (∅ : Model Geometry) !! k.
Proof.
  intros Hm Hk. apply row_to_model_Ok in Hm as [_ Hm].
  apply set_geometry_Ok in Hm
    as [[_ ->]|[(_ & _ & ->)|(g & _ & _ & _ & ->)]]; try reflexivity.
  unfold Model in *. now apply lookup_insert_ne.
Qed.


End RowMapping.

(** ** Database Loader: batches *)

Section Batches.
Context {Geometry : Type} (E : Env Geometry).
Implicit Types (rs : list (Row Geometry)) (s : State Geometry)
  (mc : ModelClass) (txs : list (list (Model Geometry))).

Lemma py_range_pos (stop : nat) (step : Z) :
  0 < step ->
  py_range stop step =
  Ok (map (fun j => (j * Z.to_nat step)%nat)
          (seq 0 ((stop + Z.to_nat step - 1) / Z.to_nat step)%nat)).
Proof.
  intros Hpos. unfold py_range.
  destruct (Z.eqb_spec step 0); [lia|].
  destruct (Z.ltb_spec step 0); [lia|reflexivity].
Qed.

Lemma chunks_concat (k : nat) : forall (n : nat) rs,
  (length rs <= n * k)%nat ->
  concat (map (fun i => firstn k (skipn i rs))
              (map (fun j => (j * k)%nat) (seq 0 n))) = rs.
Proof.
  induction n as [|n IH]; intros rs Hlen; simpl.
  - destruct rs; [reflexivity|simpl in Hlen; lia].
  - rewrite <- seq_shift, !map_map.
    transitivity (firstn k rs ++ skipn k rs)%list; [|apply firstn_skipn].
    f_equal.
    etransitivity;
      [|apply (IH (skipn k rs)); rewrite length_skipn; simpl in Hlen; lia].
    rewrite map_map. f_equal. apply map_ext. intros j.
    rewrite skipn_skipn. repeat f_equal. simpl. lia.
Qed.

Lemma chunks_length (k : nat) rs (starts : list nat) :
  Forall (fun b : list (Row Geometry) => (length b <= k)%nat)
         (map (fun i => firstn k (skipn i rs)) starts).
Proof.
  apply Forall_forall. intros b Hin. apply list_elem_of_In in Hin.
  apply in_map_iff in Hin as (i & <- & _). apply firstn_le_length.
Qed.

Lemma ceil_div_covers (len k : nat) :
  (0 < k)%nat -> (len <= (len + k - 1) / k * k)%nat.
Proof.
  intros Hk.
  pose proof (Nat.div_mod (len + k - 1) k ltac:(lia)) as Hdm.
  pose proof (Nat.mod_upper_bound (len + k - 1) k ltac:(lia)) as Hmod.
  nia.
Qed.

(** The batches are the consecutive slices of at most [batch_size] rows. *)
Lemma batches_partition (B : Z) rs :
  0 < B ->
  concat (batches B rs) = rs /\
  Forall (fun b => (length b <= Z.to_nat B)%nat) (batches B rs).
Proof.
  intros Hpos. unfold batches. rewrite py_range_pos by assumption. split.
  - apply chunks_concat, ceil_div_covers. lia.
  - apply chunks_length.
Qed.

Lemma map_result_length {A B} (f : A -> Result B) (l : list A) (l' : list B) :
  map_result f l = Ok l' -> length l' = length l.
Proof.
  revert l'. induction l as [|a l IH]; intros l'; simpl.
  - now intros [= <-].
  - destruct (f a); [|discriminate].
    destruct (map_result f l) as [bs|]; [|discriminate].
    intros [= <-]. simpl. f_equal. now apply IH.
Qed.

Lemma insert_batches_run mc rs (B : Z) (starts : list nat) : forall n s,
  session_pending s = [] ->
  exists k txs r pending,
    insert_batches E mc rs B starts n s
    = (r, with_db (db_txs s ++ txs) pending s) /\
    batch_outcome E mc rs B starts (db_txs s) n k txs r pending.
Proof.
  induction starts as [|i starts IH]; intros n s Hpend;
    destruct s as [out dirs files txs0 pend]; simpl in Hpend; subst pend.
  - exists 0%nat, [], (Ok n), []. split.
    + simpl. unfold ret, with_db. simpl. now rewrite app_nil_r.
    + repeat split; [simpl; lia|constructor|].
      left. repeat split. simpl. f_equal. lia.
  - cbn [insert_batches]. unfold bind, lift.
    destruct (map_result (row_to_model E mc)
                (firstn (Z.to_nat B) (skipn i rs))) as [tx|e] eqn:Hbuild.
    + unfold session_add_all, session_commit. simpl.
      destruct (commit_ok E txs0 tx) eqn:Hcommit; simpl.
      * destruct (IH (n + Z.of_nat (length tx))
                     (mkState out dirs files (txs0 ++ [tx])%list []) eq_refl)
          as (k & txs & r & pending & Hrun & Hk & Hall & Hend).
        exists (S k), (tx :: txs), r, pending. split.
        -- rewrite Hrun. unfold with_db. simpl. now rewrite <- app_assoc.
        -- split; [simpl; lia|]. split; [simpl; constructor; assumption|].
           simpl in Hend. rewrite <- app_assoc in Hend. simpl in Hend.
           destruct Hend as [(-> & -> & ->)|(i' & e & Hnth & -> & Hwhy)].
           ++ left. repeat split. f_equal.
              simpl. rewrite length_app. lia.
           ++ right. exists i', e. repeat split; assumption.
      * exists 0%nat, [], (Raise DBAPIError), tx. split.
        -- unfold with_db. simpl. now rewrite app_nil_r.
        -- repeat split; [simpl; lia|constructor|].
           right. exists i, DBAPIError. repeat split.
           right. exists tx. simpl. rewrite app_nil_r. auto.
    + exists 0%nat, [], (Raise e), []. split.
      * unfold with_db. simpl. now rewrite app_nil_r.
      * repeat split; [simpl; lia|constructor|].
        right. exists i, e. repeat split. now left.
Qed.

Lemma Forall2_map_l {A B C} (P : B -> C -> Prop) (f : A -> B)
    (l : list A) (l' : list C) :
  Forall2 (fun a c => P (f a) c) l l' -> Forall2 P (map f l) l'.
Proof. induction 1; simpl; constructor; auto. Qed.

Lemma concat_lengths {A B} (ls : list (list A)) (ls' : list (list B)) :
  Forall2 (fun l l' => length l' = length l) ls ls' ->
  length (concat ls') = length (concat ls).
Proof.
  induction 1 as [|l l' ls ls' Hl _ IH]; simpl; [reflexivity|].
  rewrite !length_app. congruence.
Qed.

Lemma set_db_run txs (pending : list (Model Geometry)) s :
  set_db txs pending s = (Ok tt, with_db txs pending s).
Proof. reflexivity. Qed.

(** What [gdf_to_sql_model] does with a positive batch size. *)
Lemma gdf_to_sql_model_run gdf mc (B : Z) s :
  0 < B ->
  session_pending s = [] ->
  exists k txs r,
    gdf_to_sql_model E gdf mc (Some tt) B s = (r, with_db (db_txs s ++ txs) [] s) /\
    (k <= length (batches B (rows gdf)))%nat /\
    Forall2 (fun b tx => map_result (row_to_model E mc) b = Ok tx)
            (firstn k (batches B (rows gdf))) txs /\
    ((k = length (batches B (rows gdf)) /\
      r = Ok (Z.of_nat (length (rows gdf)))) \/
     (exists b e,
        nth_error (batches B (rows gdf)) k = Some b /\ r = Raise e /\
        (map_result (row_to_model E mc) b = Raise e \/
         (exists tx,
            map_result (row_to_model E mc) b = Ok tx /\
            commit_ok E (db_txs s ++ txs) tx = false /\
            e = DBAPIError)))).
Proof.
  intros Hpos Hpend.
  destruct (batches_partition B (rows gdf) Hpos) as [Hconcat _].
  unfold gdf_to_sql_model, batches in *.
  rewrite py_range_pos in * by assumption.
  set (starts := map _ (seq 0 _)) in *.
  unfold try_except, bind, lift, ret. cbn beta iota.
  destruct (insert_batches_run mc (rows gdf) B starts 0 s Hpend)
    as (k & txs & r & pending & Hrun & Hk & Hall & Hend).
  rewrite Hrun. exists k, txs, r.
  assert (Hall' :
    Forall2 (fun b tx => map_result (row_to_model E mc) b = Ok tx)
      (firstn k (map (fun i => firstn (Z.to_nat B) (skipn i (rows gdf)))
                     starts)) txs).
  { rewrite firstn_map. now apply Forall2_map_l. }
  rewrite length_map.
  destruct Hend as [(-> & -> & ->)|(i & e & Hnth & -> & Hwhy)].
  - split; [reflexivity|]. split; [lia|]. split; [exact Hall'|].
    left. split; [reflexivity|]. rewrite Z.add_0_l. do 2 f_equal.
    rewrite firstn_all2 in Hall' by (rewrite length_map; lia).
    etransitivity; [|exact (f_equal (@length _) Hconcat)].
    apply concat_lengths.
    eapply Forall2_impl; [exact Hall'|].
    intros b tx. apply map_result_length.
  - split.
    + unfold session_rollback, raise. simpl. reflexivity.
    + split; [exact Hk|]. split; [exact Hall'|].
      right. exists (firstn (Z.to_nat B) (skipn i (rows gdf))), e.
      split; [now rewrite nth_error_map, Hnth|]. split; [reflexivity|].
      destruct Hwhy as [[Hb _]|(tx & Hb & Hc & He & _)]; [now left|].
      right. exists tx. auto.
Qed.

(** One row more than a batch: two batches, and a failure of the second
    commit leaves the first committed. *)
Lemma one_more_than_a_batch gdf mc (B : Z) s tx1 tx2 :
  0 < B ->
  session_pending s = [] ->
  length (rows gdf) = S (Z.to_nat B) ->
  map_result (row_to_model E mc) (firstn (Z.to_nat B) (rows gdf)) = Ok tx1 ->
  map_result (row_to_model E mc) (skipn (Z.to_nat B) (rows gdf)) = Ok tx2 ->
  commit_ok E (db_txs s) tx1 = true ->
  commit_ok E (db_txs s ++ [tx1]) tx2 = false ->
  gdf_to_sql_model E gdf mc (Some tt) B s
  = (Raise DBAPIError, with_db (db_txs s ++ [tx1]) [] s).
Proof.
  intros Hpos Hpend Hlen Hb1 Hb2 Hc1 Hc2.
  unfold gdf_to_sql_model. rewrite py_range_pos by assumption. rewrite Hlen.
  set (k := Z.to_nat B) in *. assert (Hk : (0 < k)%nat) by (subst k; lia).
  replace ((S k + k - 1) / k)%nat with 2%nat
    by (apply (Nat.div_unique _ k 2 0); lia).
  cbn [seq map Nat.mul]. rewrite Nat.add_0_r.
  destruct s as [out dirs files txs0 pend]; simpl in Hpend; subst pend.
  unfold try_except, bind, lift. cbn [insert_batches]. unfold bind, lift.
  rewrite skipn_O. fold k. rewrite Hb1.
  unfold session_add_all, session_commit. simpl in *. rewrite Hc1. simpl.
  rewrite (firstn_all2 (skipn k (rows gdf)))
    by (rewrite length_skipn, Hlen; lia).
  rewrite Hb2. simpl. rewrite Hc2. reflexivity.
Qed.

(** C2.  With a positive batch size [B] and a fresh session, the rows are
    inserted in consecutive batches of at most [B] rows, each committed as
    a transaction of its own.  When all batches go through, the number of
    rows is returned.  When a batch cannot be built or its commit is
    refused, the exception is raised to the caller, the session is rolled
    back (nothing is left pending), and the transactions of the batches
    before it stay committed.  With [B + 1] rows and a refusal of the
    second commit, the first [B] records stay committed. *)
Theorem batches_commit_independently gdf mc (B : Z) s :
  0 < B ->
  session_pending s = [] ->
  let bs := batches B (rows gdf) in
  concat bs = rows gdf /\
  Forall (fun b => (length b <= Z.to_nat B)%nat) bs /\
  (exists k txs r,
     gdf_to_sql_model E gdf mc (Some tt) B s = (r, with_db (db_txs s ++ txs) [] s) /\
     (k <= length bs)%nat /\
     Forall2 (fun b tx => map_result (row_to_model E mc) b = Ok tx)
             (firstn k bs) txs /\
     ((k = length bs /\ r = Ok (Z.of_nat (length (rows gdf)))) \/
      (exists b e,
         nth_error bs k = Some b /\ r = Raise e /\
         (map_result (row_to_model E mc) b = Raise e \/
          (exists tx,
             map_result (row_to_model E mc) b = Ok tx /\
             commit_ok E (db_txs s ++ txs) tx = false /\
             e = DBAPIError))))) /\
  (forall tx1 tx2,
     length (rows gdf) = S (Z.to_nat B) ->
     map_result (row_to_model E mc) (firstn (Z.to_nat B) (rows gdf)) = Ok tx1 ->
     map_result (row_to_model E mc) (skipn (Z.to_nat B) (rows gdf)) = Ok tx2 ->
     commit_ok E (db_txs s) tx1 = true ->
     commit_ok E (db_txs s ++ [tx1]) tx2 = false ->
     length tx1 = Z.to_nat B /\
     gdf_to_sql_model E gdf mc (Some tt) B s
     = (Raise DBAPIError, with_db (db_txs s ++ [tx1]) [] s)).
Proof.
  intros Hpos Hpend bs.
  destruct (batches_partition B (rows gdf) Hpos) as [Hconcat Hlen].
  split; [exact Hconcat|]. split; [exact Hlen|]. split.
  - exact (gdf_to_sql_model_run gdf mc B s Hpos Hpend).
  - intros tx1 tx2 Hn Hb1 Hb2 Hc1 Hc2. split.
    + rewrite (map_result_length _ _ _ Hb1), length_firstn, Hn. lia.
    + now apply (one_more_than_a_batch gdf mc B s tx1 tx2).
Qed.

End Batches.

(** ** Database Loader: one file *)

Section PerFileLoad.
Context {Geometry : Type} (E : Env Geometry).
Implicit Types (s : State Geometry) (mc : ModelClass)
  (gdf : Table Geometry).

(** [gdf_to_sql_model] with any batch size, from a fresh session: it
    only adds transactions, leaves nothing pending, and a count it
    returns is not negative. *)
Lemma gdf_to_sql_model_any gdf mc (B : Z) s :
  session_pending s = [] ->
  exists txs r,
    gdf_to_sql_model E gdf mc (Some tt) B s = (r, with_db (db_txs s ++ txs) [] s) /\
    (forall n, r = Ok n -> 0 <= n).
Proof.
  intros Hpend.
  destruct (Z.lt_trichotomy B 0) as [Hneg|[->|Hpos]].
  - exists [], (Ok 0). split; [|intros n [= <-]; lia].
    unfold gdf_to_sql_model, py_range.
    destruct (Z.eqb_spec B 0); [lia|]. destruct (Z.ltb_spec B 0); [|lia].
    destruct s as [out dirs files txs0 pend]; simpl in Hpend; subst pend.
    unfold with_db; simpl. now rewrite app_nil_r.
  - exists [], (Raise ValueError). split; [|discriminate].
    destruct s as [out dirs files txs0 pend]; simpl in Hpend; subst pend.
    unfold with_db; simpl. now rewrite app_nil_r.
  - destruct (gdf_to_sql_model_run E gdf mc B s Hpos Hpend)
      as (k & txs & r & Hrun & _ & _ & Hend).
    exists txs, r. split; [exact Hrun|].
    intros n ->. destruct Hend as [[_ [= ->]]|(b & e & _ & [=] & _)]. lia.
Qed.

Lemma create_tables_run (drop_first : bool) s :
  create_tables E drop_first s =
  match db_connect E with
  | Ok _ =>
      (Ok tt,
       with_db (if drop_first then [] else db_txs s) (session_pending s)
         (emit ((if drop_first then [MDroppedTables] else [])
                ++ [MCreatedTables; MTablesInSchema])%list s))
  | Raise e => (Raise e, s)
  end.
Proof.
  unfold create_tables, drop_all. mstep.
  destruct (db_connect E) as [[]|e], drop_first; mstep; reflexivity.
Qed.

(** What [load_processed_geojson_to_db] does, in one equation. *)
Lemma load_processed_geojson_to_db_run path mc (B : Z) (drop : bool) s :
  load_processed_geojson_to_db E path mc B drop s =
  match gpd_read_file E path with
  | Raise e => (Ok 0, emit [MErrorReading e] s)
  | Ok gdf =>
      match rows gdf with
      | [] => (Ok 0, emit [MNoDataFound path] s)
      | _ =>
          match reconcile_crs E gdf with
          | Raise e => (Ok 0, emit [MErrorReading e] s)
          | Ok (gdf', msgs) =>
              match create_engine E, db_connect E with
              | Ok _, Ok _ =>
                  match gdf_to_sql_model E gdf' mc (Some tt) B
                          (ready drop (emit msgs s)) with
                  | (Ok n, s2) => (Ok n, with_db (db_txs s2) [] s2)
                  | (Raise e, s2) =>
                      (Ok 0,
                       with_db (db_txs s2) [] (emit [MErrorLoading e] s2))
                  end
              | Raise e, _ | Ok _, Raise e =>
                  (Ok 0,
                   emit (msgs ++ [MDatabaseParameters; MErrorReading e]) s)
              end
          end
      end
  end.
Proof.
  unfold load_processed_geojson_to_db. mstep.
  destruct (gpd_read_file E path) as [gdf|e]; mstep; [|reflexivity].
  destruct (rows gdf) as [|row rest] eqn:Hrows; mstep; [reflexivity|].
  unfold reconcile_crs, WGS84.
  destruct (bool_decide (crs gdf = Some "EPSG:4326")); mstep.
  - unfold get_engine. mstep.
    destruct (create_engine E) as [[]|e]; mstep; [|reflexivity].
    rewrite create_tables_run.
    destruct (db_connect E) as [[]|e]; mstep; [|reflexivity].
    unfold new_session, set_db. mstep.
    match goal with
    | |- context [gdf_to_sql_model E gdf mc (Some tt) B ?st] =>
        replace st with (ready drop (emit [] s))
          by (destruct s, drop; unfold ready, with_db, emit; simpl;
              now rewrite app_nil_r)
    end.
    destruct (gdf_to_sql_model E gdf mc (Some tt) B (ready drop (emit [] s)))
      as [[n|e] s2]; mstep; reflexivity.
  - destruct (to_crs E gdf "EPSG:4326") as [gdf'|e]; mstep; [|reflexivity].
    unfold get_engine. mstep.
    destruct (create_engine E) as [[]|e]; mstep; [|reflexivity].
    rewrite create_tables_run.
    destruct (db_connect E) as [[]|e]; mstep; [|reflexivity].
    unfold new_session, set_db. mstep.
    match goal with
    | |- context [gdf_to_sql_model E gdf' mc (Some tt) B ?st] =>
        replace st with (ready drop (emit [MConvertedToWGS84] s))
          by (destruct s, drop; unfold ready, with_db, emit; simpl;
              now rewrite <- app_assoc)
    end.
    destruct (gdf_to_sql_model E gdf' mc (Some tt) B
                (ready drop (emit [MConvertedToWGS84] s)))
      as [[n|e] s2]; mstep; reflexivity.
Qed.

Lemma ready_pending (drop : bool) s : session_pending (ready drop s) = [].
Proof. reflexivity. Qed.




End PerFileLoad.

(** ** The loading tool: directory mode *)

Section DirectoryMode.
Context {Geometry : Type} (E : Env Geometry).
Implicit Types (s : State Geometry) (mc : ModelClass) (args : PushArgs).

Lemma extends_refl s : extends_without_drop s s.
Proof. exists [], []. rewrite !app_nil_r. auto. Qed.

Lemma extends_trans s1 s2 s3 :
  extends_without_drop s1 s2 -> extends_without_drop s2 s3 ->
  extends_without_drop s1 s3.
Proof.
  intros (m1 & a1 & Ho1 & Hn1 & Hd1) (m2 & a2 & Ho2 & Hn2 & Hd2).
  exists (m1 ++ m2)%list, (a1 ++ a2)%list. split; [|split].
  - rewrite Ho2, Ho1. now rewrite app_assoc.
  - intros Hin. apply in_app_or in Hin. tauto.
  - rewrite Hd2, Hd1. now rewrite app_assoc.
Qed.

Lemma extends_emit ms s :
  ~ In MDroppedTables ms -> extends_without_drop s (emit ms s).
Proof. intros Hms. exists ms, []. simpl. rewrite app_nil_r. auto. Qed.

(** A load that is not asked to drop does not drop. *)
Lemma load_without_drop path mc (B : Z) s :
  exists n s',
    load_processed_geojson_to_db E path mc B false s = (Ok n, s') /\
    extends_without_drop s s'.
Proof.
  rewrite load_processed_geojson_to_db_run.
  destruct (gpd_read_file E path) as [gdf|e0].
  2:{ eexists _, _. split; [reflexivity|]. apply extends_emit.
      simpl. intuition discriminate. }
  destruct (rows gdf) as [|row rest].
  { eexists _, _. split; [reflexivity|]. apply extends_emit.
    simpl. intuition discriminate. }
  destruct (reconcile_crs E gdf) as [[gdf' msgs]|e0] eqn:Hrec.
  2:{ eexists _, _. split; [reflexivity|]. apply extends_emit.
      simpl. intuition discriminate. }
  assert (Hmsgs : ~ In MDroppedTables msgs).
  { unfold reconcile_crs in Hrec.
    destruct (bool_decide _); [injection Hrec as _ <-; simpl; tauto|].
    destruct (to_crs E gdf WGS84); [|discriminate].
    injection Hrec as _ <-. simpl. intuition discriminate. }
  destruct (create_engine E) as [[]|e0].
  2:{ eexists _, _. split; [reflexivity|]. apply extends_emit.
      intros Hin. apply in_app_or in Hin as [Hin|Hin]; [tauto|].
      simpl in Hin. intuition discriminate. }
  destruct (db_connect E) as [[]|e0].
  2:{ eexists _, _. split; [reflexivity|]. apply extends_emit.
      intros Hin. apply in_app_or in Hin as [Hin|Hin]; [tauto|].
      simpl in Hin. intuition discriminate. }
  destruct (gdf_to_sql_model_any E gdf' mc B (ready false (emit msgs s))
              (ready_pending _ _)) as (txs & r & Hrun & _).
  rewrite Hrun. destruct r as [n|e0].
  - eexists _, _. split; [reflexivity|].
    exists (msgs ++ [MDatabaseParameters; MCreatedTables; MTablesInSchema])%list,
           txs.
    simpl. split; [now rewrite app_assoc|]. split; [|reflexivity].
    intros Hin. apply in_app_or in Hin as [Hin|Hin]; [tauto|].
    simpl in Hin. intuition discriminate.
  - eexists _, _. split; [reflexivity|].
    exists (msgs ++ [MDatabaseParameters; MCreatedTables; MTablesInSchema;
                     MErrorLoading e0])%list, txs.
    simpl. split; [now rewrite <- !app_assoc|]. split; [|reflexivity].
    intros Hin. apply in_app_or in Hin as [Hin|Hin]; [tauto|].
    simpl in Hin. intuition discriminate.
Qed.

Lemma drop_this_file_later args (i : nat) :
  i <> 0%nat -> drop_this_file args i = false.
Proof.
  intros Hi. unfold drop_this_file.
  destruct (Nat.eqb_spec i 0); [contradiction|]. apply andb_false_r.
Qed.

Lemma load_files_without_drop mc args (n : nat) files :
  forall (i : nat) tf tr s,
    i <> 0%nat ->
    load_files E mc args n i files tf tr s
    = load_files E mc (without_drop args) n i files tf tr s.
Proof.
  induction files as [|file rest IH]; intros i tf tr s Hi; [reflexivity|].
  cbn [load_files]. rewrite !drop_this_file_later by assumption.
  cbn [batch_size without_drop]. unfold bind.
  destruct (print _ s) as [[[]|e] s1]; [|reflexivity].
  destruct (try_except _ _ s1) as [[totals|e] s2]; [|reflexivity].
  apply IH. lia.
Qed.

Lemma load_files_extends mc args (n : nat) files :
  forall (i : nat) tf tr s,
    i <> 0%nat ->
    exists totals s',
      load_files E mc args n i files tf tr s = (Ok totals, s') /\
      extends_without_drop s s'.
Proof.
  induction files as [|file rest IH]; intros i tf tr s Hi.
  - eexists _, _. split; [reflexivity|]. apply extends_refl.
  - cbn [load_files]. rewrite drop_this_file_later by assumption. mstep.
    destruct (load_without_drop file mc (batch_size args)
                (emit [MProcessingFileOf (i + 1) n
                         (os_path_basename E file)] s))
      as (k & s1 & Hload & Hext).
    rewrite Hload. mstep.
    destruct (IH (S i) (S tf) (tr + k)
                 (emit [MInsertedFrom k (os_path_basename E file)] s1)
                 ltac:(lia)) as (totals & s' & Hrest & Hext').
    rewrite Hrest. eexists _, _. split; [reflexivity|].
    eapply extends_trans; [|exact Hext'].
    eapply extends_trans; [|apply extends_emit; simpl; intuition discriminate].
    eapply extends_trans; [|exact Hext].
    apply extends_emit. simpl. intuition discriminate.
Qed.

(** C7.  In directory mode the drop flag passed for the file at index [i]
    is false for every [i] but 0, where it is the caller's flag.  So the
    loop from any later index runs as if dropping had not been asked for,
    the loop over a list of files is the load of the first file followed
    by the loop over the others without the flag, and from a later index
    on nothing is dropped: no "Dropped existing tables" is printed and
    the committed transactions only grow. *)
Theorem only_the_first_file_may_drop mc args (n : nat) files tf tr s :
  drop_this_file args 0 = drop_existing args /\
  (forall i : nat, i <> 0%nat -> drop_this_file args i = false) /\
  (forall i : nat, i <> 0%nat ->
     load_files E mc args n i files tf tr s
     = load_files E mc (without_drop args) n i files tf tr s) /\
  (forall first,
     load_files E mc args n 0 (first :: files) tf tr s
     = match load_files E mc args n 0 [first] tf tr s with
       | (Ok totals, s1) =>
           load_files E mc (without_drop args) n 1 files
                      (fst totals) (snd totals) s1
       | (Raise e, s1) => (Raise e, s1)
       end) /\
  (forall i : nat, i <> 0%nat ->
     exists totals s',
       load_files E mc args n i files tf tr s = (Ok totals, s') /\
       extends_without_drop s s').
Proof.
  split; [|split; [|split; [|split]]].
  - unfold drop_this_file. simpl. apply andb_true_r.
  - apply drop_this_file_later.
  - intros i Hi. now apply load_files_without_drop.
  - intros first. cbn [load_files]. unfold bind.
    destruct (print _ s) as [[[]|e] s1]; [|reflexivity].
    destruct (try_except _ _ s1) as [[totals|e] s2]; [|reflexivity].
    unfold ret. destruct totals as [tf' tr']. simpl.
    apply load_files_without_drop. lia.
  - intros i Hi. now apply load_files_extends.
Qed.

End DirectoryMode.

(** ** Exporter *)

Section Exporter.
Context {Geometry : Type} (E : Env Geometry).
Implicit Types (s : State Geometry) (gdf out : Table Geometry).

Lemma import_json_data_emits file_path s :
  exists res msgs, import_json_data E file_path s = (Ok res, emit msgs s).
Proof.
  rewrite import_json_data_run.
  destruct (json_load E file_path) as [data|e]; [|eauto].
  destruct (select_features data) as [features|e]; [|eauto].
  destruct (truthy features); [|eauto].
  destruct (from_features E features); eauto.
Qed.

(** The processor only prints, and every record of a table it returns
    holds a geometry. *)
Lemma process_route_features_emits gdf file_path s :
  exists res msgs,
    process_route_features E gdf file_path s = (Ok res, emit msgs s) /\
    match res with
    | None => True
    | Some out =>
        Forall (fun r => exists g, dict_get "geometry" r = Some (PGeom g))
               (rows out)
    end.
Proof.
  rewrite process_route_features_run.
  destruct (osr_setup E); [|eexists None, _; eauto].
  pose proof (processed_rows E file_path (rows gdf)) as Hrows.
  destruct (measured E file_path (rows gdf)) as [|r results];
    [eexists None, _; eauto|].
  eexists (Some _), _. split; [reflexivity|]. simpl.
  eapply Forall_impl; [apply (Forall2_Forall_r _ _ _ Hrows)|].
  intros out_row (row & _ & g & _ & _ & Hg & _). eauto.
Qed.

Lemma map_result_Ok {A B} (f : A -> Result B) (l : list A) :
  Forall (fun a => exists b, f a = Ok b) l -> exists l', map_result f l = Ok l'.
Proof.
  induction 1 as [|a l [b Hb] _ [l' IH]]; simpl; [eauto|].
  rewrite Hb, IH. eauto.
Qed.

Lemma add_geometry_wkt_Ok (rs : list (Row Geometry)) :
  Forall (fun r => exists g, dict_get "geometry" r = Some (PGeom g)) rs ->
  exists rs', map_result (add_geometry_wkt E) rs = Ok rs'.
Proof.
  intros Hall. apply map_result_Ok.
  eapply Forall_impl; [exact Hall|].
  intros r [g Hg]. unfold add_geometry_wkt. rewrite Hg. simpl. eauto.
Qed.

Lemma write_file_run output_dir output_file (d : FileData Geometry) s :
  output_dir ∈ fs_dirs s ->
  write_file E output_dir output_file d s
  = match to_file_error E output_file d with
    | Some e => (Raise e, s)
    | None =>
        (Ok tt, mkState (stdout s) (fs_dirs s)
                        (<[output_file := d]> (fs_files s))
                        (db_txs s) (session_pending s))
    end.
Proof. intros Hin. unfold write_file. now rewrite decide_True. Qed.





End Exporter.

(** * The statements at work

    Each statement above that has hypotheses is used here on the worlds of
    [Scenario] and [Examples], and the sentences of the specification that
    the code does not follow are shown to fail on them. *)

Section Witnesses.
Import Planar Scenario Examples.

(** C1 on a document with three features, the second without a
    geometry: the first and the third get a record each, in this order. *)
Lemma route_length_measured_before_reprojection_witness :
  import_json_data reading_three "data/three.json" s0
    = (Ok (Some imported_three), emit [MImporting "data/three.json"] s0) /\
  osr_setup reading_three = Ok tt /\
  exists out s2,
    process_route_features reading_three imported_three "data/three.json"
      (emit [MImporting "data/three.json"] s0) = (Ok (Some out), s2) /\
    crs out = Some WGS84 /\
    Forall2
      (fun row out_row =>
         exists g,
           dict_get "geometry" row = Some (PGeom g) /\
           dict_get "route_length_m" out_row
             = Some (PFloat (geom_length reading_three g)) /\
           dict_get "geometry" out_row
             = Some (PGeom (reproject reading_three BNG WGS84 g)))
      [feature_cells "Main St" (PGeom main_st_line);
       feature_cells "Side St" (PGeom side_st_line)]
      (rows out).
Proof.
  split; [reflexivity|]. split; [reflexivity|].
  destruct (route_length_measured_before_reprojection reading_three
              "data/three.json" s0 imported_three
              (emit [MImporting "data/three.json"] s0) eq_refl eq_refl)
    as (_ & _ & res & s2 & Hrun & Hres).
  destruct res as [out|]; [|discriminate Hres].
  exists out, s2. split; [exact Hrun|]. exact Hres.
Defined.

(** C2 on three routes, batch size two, and a database that refuses the
    second commit: the first two records stay committed. *)
Lemma batches_commit_independently_witness :
  0 < 2 /\
  session_pending s0 = [] /\
  length [record "Main St"; record "High St"] = Z.to_nat 2 /\
  gdf_to_sql_model faulty_world three_routes CyclingRoute (Some tt) 2 s0
  = (Raise DBAPIError,
     with_db (db_txs s0 ++ [[record "Main St"; record "High St"]]) [] s0).
Proof.
  split; [reflexivity|]. split; [reflexivity|].
  destruct (batches_commit_independently faulty_world three_routes
              CyclingRoute 2 s0 eq_refl eq_refl) as (_ & _ & _ & Hfail).
  apply (Hfail [record "Main St"; record "High St"] [record "Mill Lane"]);
    reflexivity.
Defined.



(** C5 on a table whose first feature has a null geometry. *)
Lemma unmeasurable_records_are_skipped_witness :
  osr_setup world = Ok tt /\
  exists res warnings,
    process_route_features world mixed_table "data/routes.json" s0
    = (Ok res, emit (warnings ++ match res with
                                 | None => [MNoValidResults]
                                 | Some _ => []
                                 end)%list s0) /\
    Forall (fun m => exists i, m = MErrorFeature i AttributeError) warnings /\
    (length warnings
     + length (List.filter
                 (fun row => is_Ok (process_row world "data/routes.json" row))
                 (rows mixed_table))
     = length (rows mixed_table))%nat /\
    match res with
    | None =>
        List.filter (fun row => is_Ok (process_row world "data/routes.json" row))
                    (rows mixed_table) = []
    | Some out =>
        List.filter (fun row => is_Ok (process_row world "data/routes.json" row))
                    (rows mixed_table) <> [] /\
        crs out = Some WGS84 /\
        Forall2 (processed_from world "data/routes.json")
          (List.filter
             (fun row => is_Ok (process_row world "data/routes.json" row))
             (rows mixed_table))
          (rows out)
    end.
Proof.
  split; [reflexivity|].
  apply (unmeasurable_records_are_skipped world mixed_table
           "data/routes.json" s0 eq_refl).
Defined.

(** C7 on the second file of a run that asks for dropping. *)
Lemma only_the_first_file_may_drop_witness :
  let args := mkPushArgs None (Some "out") "*.geojson" 2 true in
  1%nat <> 0%nat /\
  drop_this_file args 0 = true /\
  drop_this_file args 1 = false /\
  exists totals s',
    load_files world CyclingRoute args 2 1 ["out/null.geojson"] 1 3
               (with_db [[record "Main St"]] [] s0) = (Ok totals, s') /\
    extends_without_drop (with_db [[record "Main St"]] [] s0) s'.
Proof.
  intros args.
  destruct (only_the_first_file_may_drop world CyclingRoute args 2
              ["out/null.geojson"] 1 3 (with_db [[record "Main St"]] [] s0))
    as (Hfirst & Hlater & _ & _ & Hkeeps).
  split; [lia|]. split; [exact Hfirst|].
  split; [apply Hlater; lia|]. apply Hkeeps. lia.
Defined.

(** C8 in the world of the scenario. *)
Lemma main_street_scenario_witness :
  json_load world "data/routes.json" = Ok document /\
  from_features world = gpd_from_features /\
  geom_length world = shapely_length /\
  osr_setup world = Ok tt /\
  exists gdf out len,
    import_json_data world "data/routes.json" s0
      = (Ok (Some gdf), emit [MImporting "data/routes.json"] s0) /\
    process_route_features world gdf "data/routes.json"
      (emit [MImporting "data/routes.json"] s0)
      = (Ok (Some out), emit [MImporting "data/routes.json"] s0) /\
    crs gdf = Some BNG /\
    crs out = Some WGS84 /\
    rows out =
      [[("street", PStr "Main St");
        ("type", PStr "Cycle Lane");
        ("geometry", PGeom (reproject world BNG WGS84 main_st_line));
        ("route_length_m", PFloat len);
        ("source_file", PStr (os_path_basename world "data/routes.json"))]] /\
    len = sqrt 20000 /\
    (141.42 < len < 141.43)%R.
Proof.
  do 4 (split; [reflexivity|]).
  exact (main_street_scenario world "data/routes.json" s0
           eq_refl eq_refl eq_refl eq_refl).
Defined.


(** C3: a processed file with a feature whose geometry is null is loaded,
    and its record is committed without a geometry. *)
Lemma null_geometry_is_persisted :
  gpd_read_file world "out/null.geojson" = Ok route_without_geometry /\
  exists m s',
    load_processed_geojson_to_db world "out/null.geojson" CyclingRoute
                                 64000 false s0 = (Ok 1, s') /\
    db_txs s' = [[m]] /\
    m !! "geometry" = None /\
    ~ (exists wkt, m !! "geometry" = Some (PStr ("SRID=4326;" ++ wkt))).
Proof.
  split; [reflexivity|].
  exists (<["street" := PStr "Mill Lane"]> ∅). eexists.
  split; [vm_compute; reflexivity|].
  split; [reflexivity|]. split; [reflexivity|].
  intros [wkt Hwkt]. vm_compute in Hwkt. discriminate.
Defined.



End Witnesses.

(** * Further properties of the code *)

(** ** Row mapping: which attributes a record gets *)

Section RecordAttributes.
Context {Geometry : Type} (E : Env Geometry).
Implicit Types (row : Row Geometry) (m model : Model Geometry)
  (v : value Geometry) (mc : ModelClass) (k key : string).

(** The attribute [k] after the loop over the items: the value of the last
    item written to [k], or what the record held before. *)
Lemma fold_assign_lookup mc k row : forall model,
  fold_left (assign mc) row model !! k =
  fold_left
    (fun acc kv =>
       if bool_decide (target mc (fst kv) = Some k) then Some (snd kv) else acc)
    row (model !! k).
Proof.
  induction row as [|[key v] row IH]; intros model; cbn [fold_left];
    [reflexivity|].
  rewrite IH. f_equal. rewrite assign_target. cbn [fst snd].
  destruct (target mc key) as [t|].
  - destruct (decide (t = k)) as [->|Hne].
    + rewrite bool_decide_eq_true_2 by reflexivity.
      unfold Model in *. apply lookup_insert_eq.
    + rewrite bool_decide_eq_false_2 by congruence.
      unfold Model in *. now apply lookup_insert_ne.
  - rewrite bool_decide_eq_false_2 by discriminate. reflexivity.
Qed.

Lemma target_is_column mc key k :
  target mc key = Some k -> hasattr mc k = true.
Proof.
  unfold target. destruct (String.eqb key "geometry"); [discriminate|].
  destruct (String.eqb key "type"); simpl.
  - destruct (hasattr mc "route_type") eqn:Hrt.
    + now intros [= <-].
    + destruct (hasattr mc key) eqn:Hk; [|discriminate]. now intros [= <-].
  - destruct (hasattr mc key) eqn:Hk; [|discriminate]. now intros [= <-].
Qed.

Lemma last_written_Some {A} (p : string * A -> bool) (l : list (string * A)) :
  forall (acc : option A) (v : A),
    fold_left (fun acc kv => if p kv then Some (snd kv) else acc) l acc = Some v ->
    acc = Some v \/ exists kv, In kv l /\ p kv = true.
Proof.
  induction l as [|kv l IH]; intros acc v; cbn [fold_left]; [auto|].
  intros H. apply IH in H as [H|(kv' & Hin & Hp)].
  - destruct (p kv) eqn:Hp; [|auto]. right. exists kv. split; [now left|auto].
  - right. exists kv'. split; [now right|auto].
Qed.

(** The attributes of the record apart from the geometry are those the
    loop has set. *)
Lemma row_to_model_geometry_column mc row m v :
  row_to_model E mc row = Ok m ->
  m !! "geometry" = Some v ->
  hasattr mc "geometry" = true /\ setattr_error mc "geometry" = None.
Proof.
  intros Hm Hv. apply row_to_model_Ok in Hm as [_ Hm].
  apply set_geometry_Ok in Hm
    as [[_ ->]|[(_ & _ & ->)|(g & Hg & _ & Herr & ->)]]; [| |auto];
    rewrite fold_assign_geometry in Hv; discriminate.
Qed.

(** X1.  Whatever the row holds and whatever the target class is, the
    row mapper gives the record no attribute of its own making: every
    attribute it sets is one an instance of the class has, a mapped
    column or another attribute that takes a value. *)
Theorem record_attributes_exist_on_the_instance mc row m k v :
  row_to_model E mc row = Ok m ->
  m !! k = Some v ->
  hasattr mc k = true /\ setattr_error mc k = None.
Proof.
  intros Hm Hv. destruct (decide (k = "geometry")) as [->|Hk].
  - eapply row_to_model_geometry_column; eauto.
  - rewrite (row_to_model_lookup _ _ _ _ _ Hm Hk) in Hv.
    rewrite fold_assign_lookup in Hv.
    apply last_written_Some in Hv as [Hv|([key x] & Hin & Hp)].
    + unfold Model in *. rewrite lookup_empty in Hv. discriminate.
    + apply bool_decide_eq_true_1 in Hp. simpl in Hp. split.
      * eapply target_is_column; eauto.
      * apply row_to_model_Ok in Hm as [Hacc _].
        pose proof (accepts_In _ _ _ _ Hacc Hin) as Href.
        unfold refusal in Href. now rewrite Hp in Href.
Qed.

Lemma last_with_key_dict_get {A} (k : string) (l : list (string * A)) :
  NoDup (dict_keys l) ->
  forall acc,
    fold_left (fun acc kv => if String.eqb (fst kv) k then Some (snd kv) else acc)
              l acc
    = match dict_get k l with Some v => Some v | None => acc end.
Proof.
  induction l as [|[k0 v0] l IH]; intros Hnd acc; cbn [fold_left];
    [reflexivity|].
  cbn [dict_keys map fst] in Hnd. inversion Hnd as [|? ? Hnotin Hnd']; subst.
  rewrite (IH Hnd'). cbn [dict_get fst snd].
  rewrite (String.eqb_sym k k0).
  destruct (String.eqb_spec k0 k) as [->|Hne]; [|reflexivity].
  rewrite dict_get_None; [reflexivity|].
  intros Hin. now apply Hnotin, list_elem_of_In.
Qed.

Lemma fold_left_ext_in {A B} (f g : A -> B -> A) (l : list B) :
  (forall a b, In b l -> f a b = g a b) ->
  forall a, fold_left f l a = fold_left g l a.
Proof.
  induction l as [|b l IH]; intros Hfg a; cbn [fold_left]; [reflexivity|].
  rewrite (Hfg a b) by now left. apply IH.
  intros a' b' Hin. apply Hfg. now right.
Qed.

Lemma row_to_model_pass_through mc row m k :
  NoDup (dict_keys row) ->
  hasattr mc k = true ->
  k <> "geometry" -> k <> "type" -> k <> "route_type" ->
  row_to_model E mc row = Ok m ->
  m !! k = dict_get k row.
Proof.
  intros Hnd Hcol Hg Ht Hrt Hm.
  rewrite (row_to_model_lookup _ _ _ _ _ Hm Hg), fold_assign_lookup.
  unfold Model in *. rewrite lookup_empty.
  rewrite (fold_left_ext_in _
             (fun acc kv => if String.eqb (fst kv) k then Some (snd kv) else acc)).
  - rewrite (last_with_key_dict_get k row Hnd). now destruct (dict_get k row).
  - intros acc [key v] _. cbn [fst snd]. unfold target.
    destruct (String.eqb_spec key k) as [->|Hne].
    + destruct (String.eqb_spec k "geometry"); [contradiction|].
      destruct (String.eqb_spec k "type"); [contradiction|]. simpl.
      rewrite Hcol. now rewrite bool_decide_eq_true_2.
    + rewrite bool_decide_eq_false_2; [reflexivity|].
      destruct (String.eqb key "geometry"); [discriminate|].
      destruct (String.eqb key "type" && hasattr mc "route_type");
        [congruence|].
      destruct (hasattr mc key); congruence.
Qed.

(** X2.  An attribute that is a column of the target, other than the
    geometry and the two names of the renaming, is passed through: the
    record holds the value of the row under that name, and nothing when
    the row has no such item. *)
Theorem attributes_pass_through mc row m k :
  NoDup (dict_keys row) ->
  hasattr mc k = true ->
  k <> "geometry" -> k <> "type" -> k <> "route_type" ->
  row_to_model E mc row = Ok m ->
  m !! k = dict_get k row.
Proof. apply row_to_model_pass_through. Qed.

(** X3.  When the target has a [route_type] field, the record's
    [route_type] is the value of whichever item named [type] or
    [route_type] comes last in the row: a [route_type] column after the
    [type] column overrides the renaming, and the other way round. *)
Theorem later_of_type_and_route_type_wins mc row m :
  hasattr mc "route_type" = true ->
  row_to_model E mc row = Ok m ->
  m !! "route_type" = last_of ["type"; "route_type"] row.
Proof.
  intros Hrt Hm.
  rewrite (row_to_model_lookup _ _ _ _ _ Hm) by discriminate.
  rewrite fold_assign_lookup.
  unfold Model in *. rewrite lookup_empty. unfold last_of.
  apply fold_left_ext_in. intros acc [key v] _. cbn [fst snd existsb].
  unfold target.
  destruct (String.eqb_spec key "geometry") as [->|Hg]; [reflexivity|].
  destruct (String.eqb_spec key "type") as [->|Ht]; simpl.
  - rewrite Hrt. now rewrite bool_decide_eq_true_2.
  - destruct (String.eqb_spec key "route_type") as [->|Hk]; simpl.
    + rewrite Hrt. now rewrite bool_decide_eq_true_2.
    + destruct (hasattr mc key); rewrite bool_decide_eq_false_2;
        congruence.
Qed.

Lemma map_result_In {A B} (f : A -> Result B) (l : list A) (l' : list B) a :
  map_result f l = Ok l' -> In a l -> exists b, f a = Ok b.
Proof.
  revert l'. induction l as [|a0 l IH]; intros l'; simpl; [tauto|].
  destruct (f a0) as [b0|] eqn:Ha0; [|discriminate].
  destruct (map_result f l) as [bs|]; [|discriminate].
  intros _ [<-|Hin]; eauto.
Qed.

Lemma Forall2_In_l {A B} (P : A -> B -> Prop) (l : list A) (l' : list B) a :
  Forall2 P l l' -> In a l -> exists b, P a b.
Proof.
  induction 1 as [|a0 b0 l l' Hab _ IH]; simpl; [tauto|].
  intros [<-|Hin]; eauto.
Qed.

(** A table with a row that raises is never loaded to the end. *)
Lemma gdf_to_sql_model_raises gdf mc (B : Z) s row e :
  0 < B ->
  session_pending s = [] ->
  In row (rows gdf) ->
  row_to_model E mc row = Raise e ->
  exists e' s', gdf_to_sql_model E gdf mc (Some tt) B s = (Raise e', s').
Proof.
  intros Hpos Hpend Hin Hraise.
  destruct (gdf_to_sql_model_run E gdf mc B s Hpos Hpend)
    as (k & txs & r & Hrun & _ & Hall & Hend).
  destruct (batches_partition B (rows gdf) Hpos) as [Hconcat _].
  destruct Hend as [(-> & _)|(b & e' & _ & -> & _)]; [|eauto].
  exfalso. rewrite firstn_all in Hall.
  rewrite <- Hconcat in Hin. apply in_concat in Hin as (b & Hb & Hrow).
  destruct (Forall2_In_l _ _ _ _ Hall Hb) as (tx & Hbuild).
  destruct (map_result_In _ _ _ _ Hbuild Hrow) as [m Hm]. congruence.
Qed.

(** X4.  A row with an item that is refused raises, whatever the
    target.  Of the other rows, for a target with a geometry field, one
    raises when it has no geometry column (AttributeError) and when its
    geometry cell holds something that is neither None nor a geometry;
    for a target without one, none of them raises.  A table that holds a
    row that raises is never loaded to the end: [gdf_to_sql_model]
    raises. *)
Theorem rows_without_usable_geometry_raise mc row :
  (forall e, first_refusal mc row = Some e ->
             row_to_model E mc row = Raise e) /\
  (hasattr mc "geometry" = false ->
   accepts mc row ->
   exists m, row_to_model E mc row = Ok m) /\
  (hasattr mc "geometry" = true ->
   accepts mc row ->
   dict_get "geometry" row = None ->
   row_to_model E mc row = Raise AttributeError) /\
  (forall v,
     hasattr mc "geometry" = true ->
     dict_get "geometry" row = Some v ->
     is_None v = false ->
     (forall g, v <> PGeom g) ->
     exists e, row_to_model E mc row = Raise e) /\
  (forall gdf (B : Z) s e,
     0 < B ->
     session_pending s = [] ->
     In row (rows gdf) ->
     row_to_model E mc row = Raise e ->
     exists e' s', gdf_to_sql_model E gdf mc (Some tt) B s = (Raise e', s')).
Proof.
  split; [|split; [|split; [|split]]].
  - intros e He. rewrite row_to_model_run. now rewrite He.
  - intros Hg Hacc. rewrite row_to_model_run, Hacc. unfold set_geometry.
    rewrite Hg. eauto.
  - intros Hg Hacc Hnone. rewrite row_to_model_run, Hacc.
    unfold set_geometry, row_geometry. now rewrite Hg, Hnone.
  - intros v Hg Hv Hnn Hgeom. rewrite row_to_model_run.
    destruct (first_refusal mc row); [eauto|].
    unfold set_geometry, row_geometry. rewrite Hg, Hv, Hnn. simpl.
    destruct v as [j|x| |g]; eauto. now destruct (Hgeom g).
  - intros gdf B s e. apply gdf_to_sql_model_raises.
Qed.

End RecordAttributes.

(** ** The per-file load: what ends up in the database *)

Section LoadedData.
Context {Geometry : Type} (E : Env Geometry).
Implicit Types (s : State Geometry) (mc : ModelClass)
  (gdf : Table Geometry) (row : Row Geometry).

Lemma map_result_app {A B} (f : A -> Result B) (l1 l2 : list A) l1' l2' :
  map_result f l1 = Ok l1' -> map_result f l2 = Ok l2' ->
  map_result f (l1 ++ l2) = Ok (l1' ++ l2')%list.
Proof.
  revert l1'. induction l1 as [|a l1 IH]; intros l1'; simpl.
  - now intros [= <-].
  - destruct (f a); [|discriminate].
    destruct (map_result f l1) as [bs|]; [|discriminate].
    intros [= <-] H2. now rewrite (IH bs eq_refl H2).
Qed.

Lemma map_result_concat {A B} (f : A -> Result B) (ls : list (list A)) ls' :
  Forall2 (fun l l' => map_result f l = Ok l') ls ls' ->
  map_result f (concat ls) = Ok (concat ls').
Proof.
  induction 1 as [|l l' ls ls' Hl _ IH]; simpl; [reflexivity|].
  now apply map_result_app.
Qed.

Lemma Forall2_functional {A B} (P : A -> B -> Prop) (l : list A) l1 l2 :
  (forall a b1 b2, P a b1 -> P a b2 -> b1 = b2) ->
  Forall2 P l l1 -> Forall2 P l l2 -> l1 = l2.
Proof.
  intros Hfun H1. revert l2.
  induction H1 as [|a b l l1 Hab _ IH]; intros l2 H2; inversion H2; subst;
    [reflexivity|].
  f_equal; eauto.
Qed.

(** With a database that accepts every commit and rows that can all be
    mapped, the insertion goes through: one transaction per batch. *)
Lemma gdf_to_sql_model_succeeds gdf mc (B : Z) s models :
  0 < B ->
  session_pending s = [] ->
  map_result (row_to_model E mc) (rows gdf) = Ok models ->
  (forall txs pending, commit_ok E txs pending = true) ->
  exists txs,
    gdf_to_sql_model E gdf mc (Some tt) B s
    = (Ok (Z.of_nat (length (rows gdf))), with_db (db_txs s ++ txs) [] s) /\
    Forall2 (fun b tx => map_result (row_to_model E mc) b = Ok tx)
            (batches B (rows gdf)) txs /\
    concat txs = models.
Proof.
  intros Hpos Hpend Hmodels Hcommit.
  destruct (gdf_to_sql_model_run E gdf mc B s Hpos Hpend)
    as (k & txs & r & Hrun & _ & Hall & Hend).
  destruct (batches_partition B (rows gdf) Hpos) as [Hconcat _].
  destruct Hend as [(-> & ->)|(b & e & Hnth & _ & Hwhy)].
  - exists txs. rewrite firstn_all in Hall. split; [exact Hrun|].
    split; [exact Hall|].
    pose proof (map_result_concat _ _ _ Hall) as Hcat.
    rewrite Hconcat, Hmodels in Hcat. now injection Hcat.
  - exfalso. destruct Hwhy as [Hb|(tx & _ & Hc & _)].
    + apply nth_error_In in Hnth.
      assert (Hrows : Forall (fun a => exists m, row_to_model E mc a = Ok m) b).
      { apply Forall_forall. intros a Ha. apply list_elem_of_In in Ha.
        apply (map_result_In _ _ _ _ Hmodels).
        rewrite <- Hconcat. apply in_concat. eauto. }
      destruct (map_result_Ok _ _ Hrows) as [tx Htx]. congruence.
    + rewrite Hcommit in Hc. discriminate.
Qed.

(** X5.  When the file is read, the reference system reconciled, the
    database reachable, every row can be mapped and every commit is
    accepted, the load returns the number of rows; the committed
    transactions are the previous ones (none, when dropping was asked
    for) followed by one transaction per batch, and together the new
    transactions hold the records of all rows in file order. *)
Theorem load_appends_all_records path mc (B : Z) (drop : bool) s
    gdf gdf' msgs models :
  gpd_read_file E path = Ok gdf ->
  rows gdf <> [] ->
  reconcile_crs E gdf = Ok (gdf', msgs) ->
  create_engine E = Ok tt ->
  db_connect E = Ok tt ->
  0 < B ->
  map_result (row_to_model E mc) (rows gdf') = Ok models ->
  (forall txs pending, commit_ok E txs pending = true) ->
  exists txs s',
    load_processed_geojson_to_db E path mc B drop s
    = (Ok (Z.of_nat (length (rows gdf'))), s') /\
    db_txs s' = ((if drop then [] else db_txs s) ++ txs)%list /\
    Forall2 (fun b tx => map_result (row_to_model E mc) b = Ok tx)
            (batches B (rows gdf')) txs /\
    concat txs = models /\
    session_pending s' = [].
Proof.
  intros Hread Hrows Hrec Hengine Hconnect Hpos Hmodels Hcommit.
  rewrite load_processed_geojson_to_db_run, Hread.
  destruct (rows gdf) as [|row rest] eqn:Hr; [contradiction|].
  rewrite Hrec, Hengine, Hconnect.
  destruct (gdf_to_sql_model_succeeds gdf' mc B (ready drop (emit msgs s))
              models Hpos eq_refl Hmodels Hcommit) as (txs & Hrun & Hall & Hcat).
  rewrite Hrun. exists txs. eexists. split; [reflexivity|].
  split; [reflexivity|]. auto.
Qed.

(** X6.  Loading the same file twice without dropping appends its
    records twice: the second load adds the same transactions again
    after those of the first, and nothing is merged or replaced. *)
Theorem loading_twice_appends_twice path mc (B : Z) s
    gdf gdf' msgs models :
  gpd_read_file E path = Ok gdf ->
  rows gdf <> [] ->
  reconcile_crs E gdf = Ok (gdf', msgs) ->
  create_engine E = Ok tt ->
  db_connect E = Ok tt ->
  0 < B ->
  map_result (row_to_model E mc) (rows gdf') = Ok models ->
  (forall txs pending, commit_ok E txs pending = true) ->
  exists txs s1 s2,
    load_processed_geojson_to_db E path mc B false s
    = (Ok (Z.of_nat (length (rows gdf'))), s1) /\
    load_processed_geojson_to_db E path mc B false s1
    = (Ok (Z.of_nat (length (rows gdf'))), s2) /\
    db_txs s1 = (db_txs s ++ txs)%list /\
    db_txs s2 = (db_txs s ++ txs ++ txs)%list /\
    concat txs = models.
Proof.
  intros Hread Hrows Hrec Hengine Hconnect Hpos Hmodels Hcommit.
  rewrite load_processed_geojson_to_db_run, Hread.
  destruct (rows gdf) as [|row rest] eqn:Hr; [contradiction|].
  rewrite Hrec, Hengine, Hconnect.
  destruct (gdf_to_sql_model_succeeds gdf' mc B (ready false (emit msgs s))
              models Hpos eq_refl Hmodels Hcommit) as (txs & Hrun & Hall & Hcat).
  rewrite Hrun. exists txs. eexists _, _. split; [reflexivity|].
  rewrite load_processed_geojson_to_db_run, Hread, Hr, Hrec, Hengine, Hconnect.
  match goal with
  | |- context [gdf_to_sql_model E gdf' mc (Some tt) B ?st] =>
      destruct (gdf_to_sql_model_succeeds gdf' mc B st models Hpos eq_refl
                  Hmodels Hcommit) as (txs' & Hrun' & Hall' & _)
  end.
  rewrite Hrun'.
  assert (txs' = txs) as ->.
  { eapply Forall2_functional; [|exact Hall'|exact Hall].
    intros b t1 t2 H1 H2. congruence. }
  split; [reflexivity|]. split; [reflexivity|].
  split; [|exact Hcat]. simpl. now rewrite <- app_assoc.
Qed.

(** [gdf_to_sql_model] with a batch size that is not positive:
    [range] raises for a step of 0 and is empty for a negative step. *)
Lemma gdf_to_sql_model_nonpositive gdf mc (B : Z) s :
  B <= 0 ->
  session_pending s = [] ->
  gdf_to_sql_model E gdf mc (Some tt) B s
  = (if B =? 0 then Raise ValueError else Ok 0, s).
Proof.
  intros HB Hpend.
  destruct s as [out dirs files txs0 pend]; simpl in Hpend; subst pend.
  unfold gdf_to_sql_model, py_range.
  destruct (Z.eqb_spec B 0) as [->|Hne]; [reflexivity|].
  destruct (Z.ltb_spec B 0); [reflexivity|lia].
Qed.

Lemma reconcile_crs_messages gdf gdf' msgs :
  reconcile_crs E gdf = Ok (gdf', msgs) -> ~ In MDroppedTables msgs.
Proof.
  unfold reconcile_crs.
  destruct (bool_decide _); [intros [= _ <-]; simpl; tauto|].
  destruct (to_crs E gdf WGS84); [|discriminate].
  intros [= _ <-]. simpl. intuition discriminate.
Qed.

Lemma load_stops_before_tables path mc (B : Z) (drop : bool) s :
  unusable E path ->
  exists msgs,
    load_processed_geojson_to_db E path mc B drop s = (Ok 0, emit msgs s) /\
    ~ In MDroppedTables msgs.
Proof.
  intros Hwhy. unfold unusable in Hwhy.
  rewrite load_processed_geojson_to_db_run.
  destruct (gpd_read_file E path) as [gdf|e0] eqn:Hread.
  2:{ eexists. split; [reflexivity|]. simpl. intuition discriminate. }
  destruct Hwhy as [[e He]|(gdf0 & [= <-] & Hwhy)]; [discriminate|].
  destruct (rows gdf) as [|row rest] eqn:Hrows.
  { eexists. split; [reflexivity|]. simpl. intuition discriminate. }
  destruct (reconcile_crs E gdf) as [[gdf' msgs]|e0] eqn:Hrec.
  2:{ eexists. split; [reflexivity|]. simpl. intuition discriminate. }
  pose proof (reconcile_crs_messages _ _ _ Hrec) as Hmsgs.
  assert (Hlate : forall e, ~ In MDroppedTables
                    (msgs ++ [MDatabaseParameters; MErrorReading e])%list)
    by (intros e Hin; apply in_app_or in Hin as [Hin|Hin]; [tauto|];
        simpl in Hin; intuition discriminate).
  destruct (create_engine E) as [[]|e0].
  2:{ eexists. split; [reflexivity|]. apply Hlate. }
  destruct (db_connect E) as [[]|e0].
  2:{ eexists. split; [reflexivity|]. apply Hlate. }
  exfalso.
  destruct Hwhy as [?|[[e ?]|[[e ?]|[e ?]]]]; discriminate.
Qed.


(** X8.  A batch size that is not positive loads nothing, and the load
    still returns 0: with batch size 0 the error of [range] is printed
    as a loading error, with a negative one nothing is printed at all.
    The tables are dropped and created all the same, so that with the
    drop flag the database ends up empty. *)
Theorem non_positive_batch_size_loads_nothing path mc (B : Z) (drop : bool) s
    gdf gdf' msgs :
  B <= 0 ->
  gpd_read_file E path = Ok gdf ->
  rows gdf <> [] ->
  reconcile_crs E gdf = Ok (gdf', msgs) ->
  create_engine E = Ok tt ->
  db_connect E = Ok tt ->
  exists s',
    load_processed_geojson_to_db E path mc B drop s = (Ok 0, s') /\
    db_txs s' = (if drop then [] else db_txs s) /\
    session_pending s' = [] /\
    stdout s' =
      (stdout s ++ msgs ++ [MDatabaseParameters]
       ++ (if drop then [MDroppedTables] else [])
       ++ [MCreatedTables; MTablesInSchema]
       ++ (if B =? 0 then [MErrorLoading ValueError] else []))%list.
Proof.
  intros HB Hread Hrows Hrec Hengine Hconnect.
  rewrite load_processed_geojson_to_db_run, Hread.
  destruct (rows gdf) as [|row rest] eqn:Hr; [contradiction|].
  rewrite Hrec, Hengine, Hconnect.
  rewrite gdf_to_sql_model_nonpositive by (assumption || reflexivity).
  destruct (Z.eqb_spec B 0); eexists; (split; [reflexivity|]);
    destruct drop; simpl; rewrite <- ?app_assoc; simpl;
    rewrite ?app_nil_r; auto.
Qed.

Lemma reproject_cell_key (src dst : string) (kv : string * value Geometry) :
  fst (reproject_cell E src dst kv) = fst kv.
Proof.
  destruct kv as [k [j|x| |g]]; try reflexivity.
  unfold reproject_cell. now destruct (String.eqb k "geometry").
Qed.

Lemma assign_reproject mc (src dst : string) model
    (kv : string * value Geometry) :
  assign mc model (reproject_cell E src dst kv) = assign mc model kv.
Proof.
  destruct kv as [k [j|x| |g]]; try reflexivity.
  unfold reproject_cell.
  destruct (String.eqb k "geometry") eqn:Hk; [|reflexivity].
  unfold assign, target. simpl. now rewrite Hk.
Qed.

Lemma fold_assign_reproject mc (src dst : string) row : forall model,
  fold_left (assign mc) (map (reproject_cell E src dst) row) model
  = fold_left (assign mc) row model.
Proof.
  induction row as [|kv row IH]; intros model; [reflexivity|].
  cbn [map fold_left]. now rewrite assign_reproject, IH.
Qed.

Lemma first_refusal_reproject mc (src dst : string) row :
  first_refusal mc (map (reproject_cell E src dst) row) = first_refusal mc row.
Proof.
  induction row as [|kv row IH]; [reflexivity|].
  cbn [map first_refusal]. now rewrite reproject_cell_key, IH.
Qed.

Lemma dict_keys_reproject (src dst : string) row :
  dict_keys (map (reproject_cell E src dst) row) = dict_keys row.
Proof.
  unfold dict_keys. rewrite map_map. apply map_ext.
  intros kv. apply reproject_cell_key.
Qed.

Lemma row_to_model_reproject mc (src dst : string) row :
  row_to_model E mc (map (reproject_cell E src dst) row) =
  match row_to_model E mc row with
  | Raise e => Raise e
  | Ok m => Ok (with_reprojected E mc src dst row m)
  end.
Proof.
  rewrite !row_to_model_run, first_refusal_reproject.
  destruct (first_refusal mc row); [reflexivity|].
  unfold set_geometry, row_geometry, with_reprojected.
  rewrite fold_assign_reproject, dict_get_reproject.
  destruct (hasattr mc "geometry");
    [|now destruct (dict_get "geometry" row) as [[j|x| |g]|]].
  destruct (dict_get "geometry" row) as [[j|x| |g]|]; try reflexivity.
  - now destruct j.
  - change ("geometry" =? "geometry")%string with true.
    cbn [is_None negb wkt_dumps_value]. unfold setattr.
    destruct (setattr_error mc "geometry"); [reflexivity|].
    unfold Model. now rewrite insert_insert_eq.
Qed.

Lemma map_result_reproject mc (src dst : string) (rs : list (Row Geometry)) :
  forall models,
    map_result (row_to_model E mc) rs = Ok models ->
    exists models',
      map_result (row_to_model E mc) (map (map (reproject_cell E src dst)) rs)
      = Ok models' /\
      Forall2 (fun row m' =>
                 exists m, row_to_model E mc row = Ok m /\
                           m' = with_reprojected E mc src dst row m)
              rs models'.
Proof.
  induction rs as [|row rs IH]; intros models; simpl.
  - intros _. exists []. split; [reflexivity|constructor].
  - rewrite row_to_model_reproject.
    destruct (row_to_model E mc row) as [m|e] eqn:Hm; [|discriminate].
    destruct (map_result (row_to_model E mc) rs) as [ms|e]; [|discriminate].
    intros _. destruct (IH ms eq_refl) as (ms' & -> & Hall).
    eexists. split; [reflexivity|]. constructor; eauto.
Qed.

(** X9.  A table declared in another reference system than EPSG:4326 is
    reprojected before it is loaded: when the file is read, the database
    is reachable, every row can be mapped and every commit is accepted,
    the load prints "Converted to WGS84" first and returns the number of
    rows, and the records it commits are, row by row and in file order,
    those the rows of the file give, except that the geometry attribute
    holds the geometry reprojected from the declared system to
    EPSG:4326. *)
Theorem other_reference_systems_are_reprojected path mc (B : Z) (drop : bool)
    s gdf (c : string) models :
  gpd_read_file E path = Ok gdf ->
  rows gdf <> [] ->
  crs gdf = Some c ->
  c <> WGS84 ->
  create_engine E = Ok tt ->
  db_connect E = Ok tt ->
  0 < B ->
  map_result (row_to_model E mc) (rows gdf) = Ok models ->
  (forall txs pending, commit_ok E txs pending = true) ->
  exists txs s',
    load_processed_geojson_to_db E path mc B drop s
    = (Ok (Z.of_nat (length (rows gdf))), s') /\
    stdout s' =
      (stdout s ++ [MConvertedToWGS84; MDatabaseParameters]
       ++ (if drop then [MDroppedTables] else [])
       ++ [MCreatedTables; MTablesInSchema])%list /\
    db_txs s' = ((if drop then [] else db_txs s) ++ txs)%list /\
    session_pending s' = [] /\
    Forall2
      (fun row m' =>
         exists m,
           row_to_model E mc row = Ok m /\
           m' = match dict_get "geometry" row with
                | Some (PGeom g) =>
                    if hasattr mc "geometry" then
                      <["geometry" :=
                          PStr ("SRID=4326;"
                                ++ wkt_dumps E (reproject E c WGS84 g))]> m
                    else m
                | _ => m
                end)
      (rows gdf) (concat txs).
Proof.
  intros Hread Hrows Hcrs Hc Hengine Hconnect Hpos Hmodels Hcommit.
  destruct (map_result_reproject mc c WGS84 _ _ Hmodels)
    as (models' & Hmodels' & Hall).
  rewrite load_processed_geojson_to_db_run, Hread.
  destruct (rows gdf) as [|row rest] eqn:Hr; [contradiction|].
  unfold reconcile_crs, to_crs. rewrite Hcrs.
  rewrite bool_decide_eq_false_2 by congruence.
  destruct (String.eqb_spec c WGS84); [contradiction|].
  rewrite Hengine, Hconnect.
  match goal with
  | |- context [gdf_to_sql_model E ?t mc (Some tt) B ?st] =>
      destruct (gdf_to_sql_model_succeeds t mc B st models' Hpos eq_refl)
        as (txs & Hrun & _ & Hcat);
        [cbn [rows]; rewrite Hr; exact Hmodels'|exact Hcommit|]
  end.
  rewrite Hrun. exists txs. eexists. split.
  { cbn [rows]. rewrite length_map, Hr. reflexivity. }
  split; [destruct drop; simpl; now rewrite <- ?app_assoc|].
  split; [reflexivity|]. split; [reflexivity|].
  rewrite Hcat. exact Hall.
Qed.

End LoadedData.

(** ** The loading tool: what a run reports *)

Section LoadingTool.
Context {Geometry : Type} (E : Env Geometry).
Implicit Types (s : State Geometry) (mc : ModelClass) (args : PushArgs).





(** X11.  When both a file and a directory are given, the tool prints
    the warning and then runs exactly as if only the file had been
    given: the directory is never looked at. *)
Theorem file_takes_precedence mc args s :
  given (input_file args) = true ->
  given (input_dir args) = true ->
  push_main E mc args s
  = push_main E mc (file_only args) (emit [MBothProvided] s).
Proof.
  intros Hfile Hdir. unfold push_main, file_only.
  cbn [input_file input_dir pattern batch_size drop_existing given].
  rewrite Hfile, Hdir. mstep.
  destruct (os_path_exists E (arg (input_file args))); mstep; reflexivity.
Qed.


(** X13.  In directory mode, when the first matched file is one the load
    gives up on before it gets to the tables, a requested drop never
    happens: the later files are loaded without the flag, so the run
    only adds to what the database held, and "Dropped existing tables"
    is not printed. *)
Theorem drop_is_lost_with_an_unusable_first_file mc args s first rest :
  given (input_file args) = false ->
  given (input_dir args) = true ->
  os_path_isdir E (arg (input_dir args)) = true ->
  glob_glob E (os_path_join E (arg (input_dir args)) (pattern args))
  = first :: rest ->
  unusable E first ->
  exists s',
    push_main E mc args s = (Ok tt, s') /\
    extends_without_drop s s'.
Proof.
  intros Hfile Hdir Hisdir Hglob Hfirst.
  unfold push_main. rewrite Hfile, Hdir, Hisdir, Hglob. do 2 mstep.
  destruct (load_stops_before_tables E first mc (batch_size args)
              (drop_this_file args 0)
              (emit [MFoundFiles (S (length rest));
                     MProcessingFileOf 1 (S (length rest))
                       (os_path_basename E first)] s) Hfirst)
    as (msgs & Hload & Hmsgs).
  rewrite Hload. mstep.
  destruct (load_files_extends E mc args (S (length rest)) rest 1 1 (0 + 0)
              (emit (MFoundFiles (S (length rest))
                     :: MProcessingFileOf 1 (S (length rest))
                          (os_path_basename E first)
                     :: msgs ++ [MInsertedFrom 0 (os_path_basename E first)])%list
                    s)
              ltac:(lia)) as (totals & s1 & Hrest & Hext).
  rewrite Hrest. mstep. eexists. split; [reflexivity|].
  eapply extends_trans; [|apply extends_emit; simpl; intuition discriminate].
  eapply extends_trans; [|exact Hext].
  apply extends_emit. intros [Hin|[Hin|Hin]]; try discriminate.
  apply in_app_or in Hin as [Hin|[Hin|[]]]; [tauto|discriminate].
Qed.

#[local] Arguments load_files : simpl never.


End LoadingTool.

(** ** The processing tool: what is imported and what is written *)

Section ProcessingTool.
Context {Geometry : Type} (E : Env Geometry).
Implicit Types (s : State Geometry) (gdf out : Table Geometry)
  (row : Row Geometry).

Lemma is_JStr_true (name : string) (t : json) :
  is_JStr name t = true -> t = JStr name.
Proof.
  destruct t; simpl; try discriminate.
  intros H. apply String.eqb_eq in H. now subst.
Qed.

(** The documents for which a feature list is selected that is not
    empty: a FeatureCollection, a single Feature, or a list. *)
Lemma select_features_shapes (data features : json) :
  select_features data = Ok features ->
  truthy features = true ->
  (exists fields,
     data = JObj fields /\
     dict_get "type" fields = Some (JStr "FeatureCollection") /\
     dict_get "features" fields = Some features) \/
  (exists fields,
     data = JObj fields /\
     dict_get "type" fields = Some (JStr "Feature") /\
     features = JArr [data]) \/
  (exists items,
     data = JArr items /\ features = data /\
     existsb (is_JStr "type") items = false).
Proof.
  unfold select_features, type_is.
  destruct data as [ |b|q|str|items|fields]; simpl; try discriminate.
  - destruct (is_substring "type" str); [discriminate|].
    intros [= <-]. discriminate.
  - destruct (existsb (is_JStr "type") items) eqn:Hin; [discriminate|].
    intros [= <-] _. right. right. eauto.
  - unfold dict_has.
    destruct (dict_get "type" fields) as [t|] eqn:Ht;
      [|intros [= <-]; discriminate].
    destruct (is_JStr "FeatureCollection" t) eqn:Hfc.
    + apply is_JStr_true in Hfc. subst t.
      destruct (dict_get "features" fields) as [fs|] eqn:Hfs; [|discriminate].
      intros [= <-] _. left. eauto.
    + destruct (is_JStr "Feature" t) eqn:Hf; [|intros [= <-]; discriminate].
      apply is_JStr_true in Hf. subst t.
      intros [= <-] _. right. left. eauto.
Qed.

(** X15.  A table is imported only from a FeatureCollection with a
    feature list that is not empty, from a single Feature (taken as a
    list of one), or from a top-level list that is not empty and does not
    contain the string "type".  The table is declared EPSG:27700 whatever
    the document says, its rows are what [from_features] makes of the
    selected features, and only the "Importing" message is printed. *)
Theorem imported_shapes file_path s t s' :
  import_json_data E file_path s = (Ok (Some t), s') ->
  crs t = Some BNG /\
  s' = emit [MImporting file_path] s /\
  exists data features,
    json_load E file_path = Ok data /\
    truthy features = true /\
    from_features E features = Ok (rows t) /\
    ((exists fields,
        data = JObj fields /\
        dict_get "type" fields = Some (JStr "FeatureCollection") /\
        dict_get "features" fields = Some features) \/
     (exists fields,
        data = JObj fields /\
        dict_get "type" fields = Some (JStr "Feature") /\
        features = JArr [data]) \/
     (exists items,
        data = JArr items /\ features = data /\
        existsb (is_JStr "type") items = false)).
Proof.
  rewrite import_json_data_run.
  destruct (json_load E file_path) as [data|e]; [|discriminate].
  destruct (select_features data) as [features|e] eqn:Hsel; [|discriminate].
  destruct (truthy features) eqn:Htruthy; [|discriminate].
  destruct (from_features E features) as [rs|e] eqn:Hrows; [|discriminate].
  intros [= <- <-]. split; [reflexivity|]. split; [reflexivity|].
  exists data, features. split; [reflexivity|]. split; [exact Htruthy|].
  split; [exact Hrows|]. now apply select_features_shapes.
Qed.




Lemma map_result_Forall2 {A B} (f : A -> Result B) (l : list A) :
  forall l', map_result f l = Ok l' -> Forall2 (fun a b => f a = Ok b) l l'.
Proof.
  induction l as [|a l IH]; intros l'; simpl.
  - intros [= <-]. constructor.
  - destruct (f a) as [b|] eqn:Ha; [|discriminate].
    destruct (map_result f l) as [bs|]; [|discriminate].
    intros [= <-]. constructor; auto.
Qed.

Lemma dict_get_filter_eq {V} (k : string) (d : list (string * V)) :
  dict_get k (List.filter (fun kv => negb (String.eqb (fst kv) k)) d) = None.
Proof.
  induction d as [|[k0 v0] d IH]; simpl; [reflexivity|].
  destruct (String.eqb_spec k0 k) as [->|Hk0]; simpl; [exact IH|].
  destruct (String.eqb_spec k k0); [congruence|exact IH].
Qed.

(** A row of the CSV file: the row of the table with the geometry
    replaced by its text. *)
Lemma csv_record row w :
  add_geometry_wkt E row = Ok w ->
  dict_get "geometry" (drop_geometry w) = None /\
  (exists g,
     dict_get "geometry" row = Some (PGeom g) /\
     dict_get "geometry_wkt" (drop_geometry w)
     = Some (PStr (geom_wkt E g))) /\
  (forall k, k <> "geometry" -> k <> "geometry_wkt" ->
             dict_get k (drop_geometry w) = dict_get k row).
Proof.
  unfold add_geometry_wkt, drop_geometry, row_properties.
  destruct (dict_get "geometry" row) as [[j|x| |g]|] eqn:Hg; try discriminate.
  simpl. intros [= <-]. split; [apply dict_get_filter_eq|]. split.
  - exists g. split; [reflexivity|].
    rewrite dict_get_filter_ne by discriminate. apply dict_get_set_eq.
  - intros k Hk Hw. rewrite dict_get_filter_ne by assumption.
    now apply dict_get_set_ne.
Qed.

(** X17.  What the file holds that the processing writes into an
    existing output directory, when no write is refused.  For geojson it
    is the processed table as it is.  For csv there is one record for each row of the processed
    table, in order: it has no [geometry] column, its [geometry_wkt] is
    the text of the row's geometry, and all other columns are those of
    the row. *)
Theorem written_file_holds_the_processed_table
    (file_path output_dir : string) s gdf s1 out s2 :
  import_json_data E file_path s = (Ok (Some gdf), s1) ->
  process_route_features E gdf file_path s1 = (Ok (Some out), s2) ->
  output_dir ∈ fs_dirs s ->
  (forall p d, to_file_error E p d = None) ->
  (exists p s3,
     process_route_json_file E file_path output_dir "geojson" s
     = (Ok (RPath p), s3) /\
     fs_files s3 !! p = Some (GeoJSONFile out)) /\
  (exists p recs s3,
     process_route_json_file E file_path output_dir "csv" s
     = (Ok (RPath p), s3) /\
     fs_files s3 !! p = Some (CSVFile recs) /\
     Forall2
       (fun row rec =>
          dict_get "geometry" rec = None /\
          (exists g,
             dict_get "geometry" row = Some (PGeom g) /\
             dict_get "geometry_wkt" rec = Some (PStr (geom_wkt E g))) /\
          (forall k, k <> "geometry" -> k <> "geometry_wkt" ->
                     dict_get k rec = dict_get k row))
       (rows out) recs).
Proof.
  intros Himp Hproc Hdir Hwrite.
  destruct (import_json_data_emits E file_path s) as (imported & m1 & Himp').
  rewrite Himp in Himp'. injection Himp' as <- ->.
  destruct (process_route_features_emits E gdf file_path (emit m1 s))
    as (processed & m2 & Hproc' & Hgeo).
  rewrite Hproc in Hproc'. injection Hproc' as <- ->.
  assert (Hdir' : output_dir ∈ fs_dirs (emit m2 (emit m1 s))) by exact Hdir.
  unfold process_route_json_file, try_except, bind.
  rewrite Himp, Hproc. split.
  - cbn [String.eqb Ascii.eqb Bool.eqb].
    rewrite (write_file_run E _ _ _ _ Hdir'), Hwrite. mstep.
    eexists _, _. split; [reflexivity|]. simpl. apply lookup_insert_eq.
  - cbn [String.eqb Ascii.eqb Bool.eqb].
    destruct (add_geometry_wkt_Ok E (rows out) Hgeo) as [with_wkt Hwkt].
    unfold lift. rewrite Hwkt.
    rewrite (write_file_run E _ _ _ _ Hdir'), Hwrite. mstep.
    eexists _, _, _. split; [reflexivity|]. simpl.
    split; [apply lookup_insert_eq|].
    apply Forall2_map_r. eapply Forall2_impl.
    + apply map_result_Forall2. exact Hwkt.
    + intros row w. apply csv_record.
Qed.


End ProcessingTool.

(** ** From the processor to the database *)

Section EndToEnd.
Context {Geometry : Type} (E : Env Geometry).
Implicit Types (s : State Geometry) (gdf out : Table Geometry)
  (row : Row Geometry) (mc : ModelClass).

Lemma add_column_NoDup (cols : list string) (k : string) :
  NoDup cols -> NoDup (add_column cols k).
Proof.
  intros Hnd. unfold add_column.
  destruct (existsb (String.eqb k) cols) eqn:Hin; [exact Hnd|].
  apply NoDup_app. split; [exact Hnd|]. split; [|apply NoDup_singleton].
  intros x Hx Hk. apply list_elem_of_singleton in Hk. subst x.
  apply list_elem_of_In in Hx.
  assert (existsb (String.eqb k) cols = true); [|congruence].
  apply existsb_exists. exists k. split; [exact Hx|apply String.eqb_refl].
Qed.

Lemma union_columns_NoDup (records : list (Row Geometry)) :
  NoDup (union_columns records).
Proof.
  unfold union_columns.
  assert (Hkeys : forall (ks : list string) cols,
            NoDup cols -> NoDup (fold_left add_column ks cols)).
  { induction ks as [|k ks IH]; intros cols Hnd; simpl; [exact Hnd|].
    apply IH. now apply add_column_NoDup. }
  assert (Hall : forall (rs : list (Row Geometry)) cols,
            NoDup cols ->
            NoDup (fold_left
                     (fun cols r => fold_left add_column (dict_keys r) cols)
                     rs cols)).
  { induction rs as [|r rs IH]; intros cols Hnd; simpl; [exact Hnd|].
    apply IH. now apply Hkeys. }
  apply Hall. constructor.
Qed.

Lemma dict_keys_fill_row (cols : list string) row :
  dict_keys (fill_row cols row) = cols.
Proof.
  unfold dict_keys, fill_row. rewrite map_map. simpl. apply map_id.
Qed.

(** A row that holds a geometry gives a record when none of its items
    is refused, and the geometry attribute takes a value. *)
Lemma row_to_model_with_geometry mc row (g : Geometry) :
  accepts mc row ->
  setattr_error mc "geometry" = None ->
  dict_get "geometry" row = Some (PGeom g) ->
  exists m,
    row_to_model E mc row = Ok m /\
    (hasattr mc "geometry" = true ->
     m !! "geometry" = Some (PStr ("SRID=4326;" ++ wkt_dumps E g))).
Proof.
  intros Hacc Hset Hg. rewrite row_to_model_run, Hacc.
  unfold set_geometry, row_geometry, setattr. rewrite Hg, Hset.
  destruct (hasattr mc "geometry"); simpl.
  - eexists. split; [reflexivity|]. intros _. unfold Model.
    apply lookup_insert_eq.
  - eexists. split; [reflexivity|]. discriminate.
Qed.

Lemma map_result_Forall2_ex {A B} (f : A -> Result B) (P : A -> B -> Prop)
    (l : list A) :
  Forall (fun a => exists b, f a = Ok b /\ P a b) l ->
  exists l', map_result f l = Ok l' /\ Forall2 P l l'.
Proof.
  induction 1 as [|a l (b & Hb & HP) _ (l' & Hl' & Hall)]; simpl.
  - exists []. split; [reflexivity|constructor].
  - rewrite Hb, Hl'. exists (b :: l'). split; [reflexivity|].
    now constructor.
Qed.

(** X19.  A table that the processor returns can be loaded as it is.  It
    is declared EPSG:4326, so that the loader does not reproject it, and
    the columns of each row have names of their own.  Every row gives a
    record, for any target class that refuses none of the items of the
    rows and takes a value for its geometry attribute, and the record
    comes from a row of the table that was processed: where the class has
    these fields, its geometry is the tagged text of that row's geometry
    reprojected, its [route_length_m] is the length of that geometry
    before the reprojection, and its [source_file] is the name of the
    input file. *)
Theorem processed_tables_load_as_they_are gdf file_path s out s' mc :
  process_route_features E gdf file_path s = (Ok (Some out), s') ->
  Forall (accepts mc) (rows out) ->
  setattr_error mc "geometry" = None ->
  reconcile_crs E out = Ok (out, []) /\
  Forall (fun row => NoDup (dict_keys row)) (rows out) /\
  exists models,
    map_result (row_to_model E mc) (rows out) = Ok models /\
    Forall2
      (fun row m =>
         exists src g,
           In src (rows gdf) /\
           dict_get "geometry" src = Some (PGeom g) /\
           (hasattr mc "geometry" = true ->
            m !! "geometry"
            = Some (PStr ("SRID=4326;"
                          ++ wkt_dumps E (reproject E BNG WGS84 g)))) /\
           (hasattr mc "route_length_m" = true ->
            m !! "route_length_m" = Some (PFloat (geom_length E g))) /\
           (hasattr mc "source_file" = true ->
            m !! "source_file"
            = Some (PStr (os_path_basename E file_path))))
      (rows out) models.
Proof.
  rewrite process_route_features_run.
  destruct (osr_setup E); [|discriminate].
  pose proof (processed_rows E file_path (rows gdf)) as Hrows.
  destruct (measured E file_path (rows gdf)) as [|r results];
    [discriminate|].
  intros [= <- _]. cbn [rows crs].
  set (out_rows := map (map (reproject_cell E BNG WGS84))
                       (DataFrame_from_records (r :: results))) in *.
  intros Hacc Hset.
  assert (Hnd : Forall (fun row => NoDup (dict_keys row)) out_rows).
  { subst out_rows. unfold DataFrame_from_records. rewrite map_map.
    apply Forall_forall. intros row Hin. apply list_elem_of_In in Hin.
    apply in_map_iff in Hin as (result & <- & _).
    rewrite dict_keys_reproject, dict_keys_fill_row.
    apply union_columns_NoDup. }
  split; [|split; [exact Hnd|]].
  - unfold reconcile_crs. cbn [crs].
    now rewrite bool_decide_eq_true_2.
  - apply map_result_Forall2_ex.
    pose proof (Forall2_Forall_r _ _ _ Hrows) as Hfrom.
    rewrite Forall_forall in Hnd. rewrite Forall_forall in Hacc.
    apply Forall_forall. intros row Hin.
    rewrite List.Forall_forall in Hfrom.
    destruct (Hfrom row (proj1 (list_elem_of_In _ _) Hin))
      as (src & Hsrc & g & Hg & Hlen & Hgeo & Hfile & _).
    apply filter_In in Hsrc as [Hsrc _].
    destruct (row_to_model_with_geometry mc row _ (Hacc row Hin) Hset Hgeo)
      as (m & Hm & Hwkt).
    exists m. split; [exact Hm|]. exists src, g.
    split; [exact Hsrc|]. split; [exact Hg|]. split; [exact Hwkt|].
    split; intros Hcol.
    + rewrite (row_to_model_pass_through E mc row m "route_length_m");
        auto; discriminate.
    + rewrite (row_to_model_pass_through E mc row m "source_file");
        auto; discriminate.
Qed.

End EndToEnd.

(** ** The records that are loaded *)

Section LoadedRecords.
Context {Geometry : Type} (E : Env Geometry).
Implicit Types (s : State Geometry) (gdf : Table Geometry)
  (row : Row Geometry) (mc : ModelClass).

(** A row none of whose items is refused, with a geometry or a null in
    its geometry cell, gives a record. *)
Lemma row_to_model_usable mc row :
  accepts mc row ->
  setattr_error mc "geometry" = None ->
  dict_get "geometry" row = Some PNone \/
  (exists g, dict_get "geometry" row = Some (PGeom g)) ->
  exists m, row_to_model E mc row = Ok m.
Proof.
  intros Hacc Hset Hcell. rewrite row_to_model_run, Hacc.
  unfold set_geometry, row_geometry, setattr. rewrite Hset.
  destruct (hasattr mc "geometry"); [|eauto].
  destruct Hcell as [->|[g ->]]; simpl; eauto.
Qed.

(** The geometry attribute of a record. *)
Lemma row_to_model_geometry_attribute mc row m :
  hasattr mc "geometry" = true ->
  row_to_model E mc row = Ok m ->
  (forall g,
     dict_get "geometry" row = Some (PGeom g) ->
     m !! "geometry" = Some (PStr ("SRID=4326;" ++ wkt_dumps E g))) /\
  (dict_get "geometry" row = Some PNone -> m !! "geometry" = None).
Proof.
  intros Hg Hm. apply row_to_model_Ok in Hm as [_ Hm].
  apply set_geometry_Ok in Hm
    as [[Hno _]|[(_ & Hnull & ->)|(g & _ & Hcell & _ & ->)]].
  - rewrite Hg in Hno. discriminate.
  - split; [intros g Hcell; rewrite Hnull in Hcell; discriminate|].
    intros _. apply fold_assign_geometry.
  - split; [|intros Hnull; rewrite Hnull in Hcell; discriminate].
    intros g' Hcell'. rewrite Hcell in Hcell'. injection Hcell' as <-.
    unfold Model. apply lookup_insert_eq.
Qed.


(** With a database that accepts every commit, a table whose rows all
    give a record is inserted whole: the committed records are those of
    the rows, in order. *)
Lemma gdf_to_sql_model_loads gdf mc (B : Z) s :
  0 < B ->
  session_pending s = [] ->
  (forall txs pending, commit_ok E txs pending = true) ->
  Forall (fun row => exists m, row_to_model E mc row = Ok m) (rows gdf) ->
  exists txs,
    gdf_to_sql_model E gdf mc (Some tt) B s
    = (Ok (Z.of_nat (length (rows gdf))), with_db (db_txs s ++ txs) [] s) /\
    Forall2 (fun row m => row_to_model E mc row = Ok m)
            (rows gdf) (concat txs).
Proof.
  intros Hpos Hpend Hcommit Hrows.
  destruct (map_result_Ok _ _ Hrows) as [models Hmodels].
  destruct (gdf_to_sql_model_succeeds E gdf mc B s models Hpos Hpend Hmodels
              Hcommit) as (txs & Hrun & _ & Hcat).
  exists txs. split; [exact Hrun|]. rewrite Hcat.
  now apply map_result_Forall2.
Qed.

(** C3, as the code has it.  For a target class with a [geometry] field
    and a table whose rows hold a geometry or a null: every row is
    mapped and inserted.  The geometry of a row that is not null is
    converted to well-known text and assigned with the prefix SRID=4326;
    a row whose geometry is null gives a record all the same, with its
    geometry left unset.  So a persisted record has no geometry exactly
    when its row had none. *)
Theorem geometry_is_tagged_unless_null gdf mc (B : Z) s :
  hasattr mc "geometry" = true ->
  setattr_error mc "geometry" = None ->
  0 < B ->
  session_pending s = [] ->
  (forall txs pending, commit_ok E txs pending = true) ->
  Forall (fun row =>
            accepts mc row /\
            (dict_get "geometry" row = Some PNone \/
             exists g, dict_get "geometry" row = Some (PGeom g)))
         (rows gdf) ->
  exists txs,
    gdf_to_sql_model E gdf mc (Some tt) B s
    = (Ok (Z.of_nat (length (rows gdf))), with_db (db_txs s ++ txs) [] s) /\
    Forall2
      (fun row m =>
         (forall g,
            dict_get "geometry" row = Some (PGeom g) ->
            m !! "geometry" = Some (PStr ("SRID=4326;" ++ wkt_dumps E g))) /\
         (m !! "geometry" = None <-> dict_get "geometry" row = Some PNone))
      (rows gdf) (concat txs).
Proof.
  intros Hgeo Hset Hpos Hpend Hcommit Hrows.
  destruct (gdf_to_sql_model_loads gdf mc B s Hpos Hpend Hcommit)
    as (txs & Hrun & Hall).
  { eapply Forall_impl; [exact Hrows|].
    intros row [Hacc Hcell]. now apply row_to_model_usable. }
  exists txs. split; [exact Hrun|].
  assert (Hcells : Forall2 (fun row (m : Model Geometry) =>
                              dict_get "geometry" row = Some PNone \/
                              exists g, dict_get "geometry" row = Some (PGeom g))
                           (rows gdf) (concat txs)).
  { clear - Hall Hrows. induction Hall; inversion Hrows; subst;
      constructor; [tauto|auto]. }
  clear Hrows Hrun.
  induction Hall as [|row m rs ms Hm _ IH]; inversion Hcells; subst;
    constructor; [|auto].
  destruct (row_to_model_geometry_attribute mc row m Hgeo Hm) as [Htag Hnull].
  split; [exact Htag|]. split; [|exact Hnull].
  intros Hnone.
  match goal with
  | H : _ \/ _ |- _ => destruct H as [Hcell|[g Hcell]]; [exact Hcell|]
  end.
  rewrite (Htag g Hcell) in Hnone. discriminate.
Qed.


End LoadedRecords.

(** *** The statements at work *)

Section LoadedRecordsWitnesses.
Import Planar Scenario Examples.

(** C3 on a table with a route and a row without a geometry. *)
Lemma geometry_is_tagged_unless_null_witness :
  hasattr CyclingRoute "geometry" = true /\
  setattr_error CyclingRoute "geometry" = None /\
  exists txs m1 m2,
    gdf_to_sql_model world route_and_null CyclingRoute (Some tt) 2 s0
    = (Ok 2, with_db (db_txs s0 ++ txs) [] s0) /\
    concat txs = [m1; m2] /\
    m1 !! "geometry"
    = Some (PStr ("SRID=4326;"
                  ++ wkt_dumps world (transform BNG WGS84 main_st_line))) /\
    m2 !! "geometry" = None.
Proof.
  split; [reflexivity|]. split; [reflexivity|].
  destruct (geometry_is_tagged_unless_null world route_and_null CyclingRoute
              2 s0 eq_refl eq_refl ltac:(lia) eq_refl (fun _ _ => eq_refl))
    as (txs & Hrun & Hall).
  { constructor; [split; [reflexivity|right; eexists; reflexivity]|].
    constructor; [split; [reflexivity|left; reflexivity]|]. constructor. }
  apply Forall2_cons_inv_l in Hall as (m1 & ms & [Htag _] & Hall & Hcat).
  apply Forall2_cons_inv_l in Hall as (m2 & ms' & [_ Hnull] & Hall & ->).
  apply Forall2_nil_inv_l in Hall as ->.
  exists txs, m1, m2. split; [exact Hrun|]. split; [exact Hcat|].
  split; [apply Htag; reflexivity|apply Hnull; reflexivity].
Defined.



End LoadedRecordsWitnesses.

(** ** OS grid references *)

Section GridReference.
Import Geotiles.

(** *** Floors *)

Lemma Qfloor_div_pos (x : Q) (d : positive) :
  Qfloor (x / (Zpos d # 1)) = Qfloor x / Zpos d.
Proof.
  destruct x as [a b].
  cbv [Qdiv Qmult Qinv Qnum Qden Qfloor].
  rewrite Z.mul_1_r, Pos2Z.inj_mul. symmetry. apply Z.div_div; lia.
Qed.

Lemma Qfloor_minus_Z (x : Q) (k : Z) :
  Qfloor (x - inject_Z k) = Qfloor x - k.
Proof.
  destruct x as [a b].
  cbv [Qminus Qplus Qopp inject_Z Qnum Qden Qfloor].
  rewrite !Z.mul_1_r, Pos.mul_1_r.
  replace (a + - k * Z.pos b) with (a + (- k) * Z.pos b) by lia.
  rewrite Z.div_add by lia. lia.
Qed.

Lemma Qfloor_range (x : Q) (m : Z) :
  (0 <= x /\ x < inject_Z m)%Q <-> 0 <= Qfloor x < m.
Proof.
  destruct x as [a b]. unfold Qle, Qlt. cbn [Qnum Qden inject_Z Qfloor].
  rewrite !Z.mul_1_r, Z.mul_0_l.
  pose proof (Z.div_mod a (Z.pos b) ltac:(lia)) as Hdm.
  pose proof (Z.mod_pos_bound a (Z.pos b) ltac:(lia)) as Hmod.
  split.
  - intros [H0 H1]. split; [apply Z.div_pos; lia|].
    apply Z.div_lt_upper_bound; lia.
  - intros [H0 H1]. split; nia.
Qed.

Lemma Qle_bool_floor (m : Z) (x : Q) :
  Qle_bool (inject_Z m) x = (m <=? Qfloor x).
Proof.
  destruct x as [a b]. unfold Qle_bool. cbn [Qnum Qden inject_Z Qfloor].
  rewrite Z.mul_1_r.
  pose proof (Z.div_mod a (Z.pos b) ltac:(lia)) as Hdm.
  pose proof (Z.mod_pos_bound a (Z.pos b) ltac:(lia)) as Hmod.
  destruct (Z.leb_spec (m * Z.pos b) a), (Z.leb_spec m (a / Z.pos b));
    try reflexivity; exfalso; nia.
Qed.

Lemma in_grid_floor (e n : Q) :
  in_grid e n <-> 0 <= Qfloor e < 700000 /\ 0 <= Qfloor n < 1300000.
Proof.
  unfold in_grid.
  now rewrite <- (Qfloor_range e 700000), <- (Qfloor_range n 1300000).
Qed.

(** The function looks at the coordinates only through their integer
    parts. *)
Lemma get_os_grid_reference_on_floors (e n : Q) (precision : Z) :
  get_os_grid_reference e n precision
  = on_floors (Qfloor e) (Qfloor n) precision.
Proof.
  unfold get_os_grid_reference, on_floors, layout.
  rewrite !(Qfloor_div_pos _ 100000).
  destruct (_ || _); [reflexivity|].
  destruct (let_pair _ _) as [lp|]; [|reflexivity].
  change 1000000%Q with (inject_Z 1000000).
  rewrite Qle_bool_floor.
  rewrite !(Qfloor_div_pos _ 100), !(Qfloor_div_pos _ 10).
  destruct (1000000 <=? Qfloor n), (precision =? 6), (precision =? 8),
    (precision =? 10);
    rewrite ?Qfloor_minus_Z, ?Z.div_1_r; reflexivity.
Qed.

(** *** Strings *)

Lemma length_append (s1 s2 : string) :
  String.length (s1 +:+ s2) = (String.length s1 + String.length s2)%nat.
Proof. induction s1 as [|c s1 IH]; simpl; [reflexivity|now rewrite IH]. Qed.

Lemma append_assoc (s1 s2 s3 : string) :
  (s1 +:+ s2) +:+ s3 = s1 +:+ (s2 +:+ s3).
Proof.
  induction s1 as [|c s1 IH]; [reflexivity|].
  change (String c ((s1 +:+ s2) +:+ s3) = String c (s1 +:+ s2 +:+ s3)).
  now rewrite IH.
Qed.

Lemma append_inj (a a' b b' : string) :
  String.length a = String.length a' ->
  a +:+ b = a' +:+ b' -> a = a' /\ b = b'.
Proof.
  revert a'. induction a as [|c a IH]; intros [|c' a']; simpl;
    try discriminate; [auto|].
  intros [= Hlen] [= -> Heq]. destruct (IH a' Hlen Heq) as [-> ->]. auto.
Qed.

Lemma minus_inside (a b c d pad t : string) :
  a +:+ b +:+ c +:+ d +:+ (pad +:+ String "-" t)
  = (a +:+ b +:+ c +:+ d +:+ pad) +:+ "-" +:+ t.
Proof. rewrite !append_assoc. reflexivity. Qed.

Lemma first_two_letters (c1 c2 : ascii) (s : string) :
  substring 0 2 (String c1 (String c2 "") +:+ s) = String c1 (String c2 "").
Proof. now destruct s. Qed.

Lemma length_repeat_char (k : nat) (c : ascii) :
  String.length (repeat_char k c) = k.
Proof. induction k; simpl; auto. Qed.

Lemma rjust_length (w : nat) (c : ascii) (s : string) :
  (String.length s <= w)%nat -> String.length (rjust w c s) = w.
Proof.
  intros Hle. unfold rjust. rewrite length_append, length_repeat_char. lia.
Qed.

Lemma all_chars_append (P : ascii -> bool) (s1 s2 : string) :
  all_chars P (s1 +:+ s2) = all_chars P s1 && all_chars P s2.
Proof.
  induction s1 as [|c s1 IH]; simpl; [reflexivity|].
  now rewrite IH, andb_assoc.
Qed.

Lemma all_chars_repeat (P : ascii -> bool) (k : nat) (c : ascii) :
  P c = true -> all_chars P (repeat_char k c) = true.
Proof. intros Hc. induction k; simpl; [reflexivity|]. now rewrite Hc. Qed.

Lemma decode_zeros (k : nat) (s : string) :
  decode 0 (repeat_char k "0" +:+ s) = decode 0 s.
Proof. induction k; simpl; auto. Qed.

(** *** Decimal numerals *)

Lemma pretty_N_char_digit (x : N) :
  (x < 10)%N ->
  is_digit (pretty_N_char x) = true /\ digit_value (pretty_N_char x) = x.
Proof.
  intros Hx.
  assert (x = 0 \/ x = 1 \/ x = 2 \/ x = 3 \/ x = 4 \/ x = 5 \/ x = 6
          \/ x = 7 \/ x = 8 \/ x = 9)%N as Hcases by lia.
  repeat (destruct Hcases as [->|Hcases]; [now vm_compute|]).
  subst. now vm_compute.
Qed.

Lemma pretty_N_go_spec (x : N) : forall s,
  exists k : nat,
    ((10 ^ N.of_nat k <= 10 * x)%N \/ (x = 0%N /\ k = 0%nat)) /\
    String.length (pretty_N_go x s) = (k + String.length s)%nat /\
    (all_chars is_digit s = true ->
     all_chars is_digit (pretty_N_go x s) = true) /\
    (forall acc,
       decode acc (pretty_N_go x s) = decode (acc * 10 ^ N.of_nat k + x) s).
Proof.
  induction (N.lt_wf_0 x) as [x _ IH]. intros s.
  destruct (N.eq_dec x 0%N) as [->|Hx].
  - exists 0%nat. rewrite pretty_N_go_0. repeat split; auto.
    intros acc. f_equal. simpl. lia.
  - rewrite pretty_N_go_step by lia.
    assert (Hlt : (x `div` 10 < x)%N) by (apply N.div_lt; lia).
    destruct (IH _ Hlt (String (pretty_N_char (x `mod` 10)) s))
      as (k & Hk & Hlen & Hdig & Hdec).
    pose proof (N.mod_lt x 10%N ltac:(lia)) as Hmod.
    destruct (pretty_N_char_digit _ Hmod) as [Hd Hv].
    pose proof (N.div_mod x 10%N ltac:(lia)) as Hdm.
    exists (S k). split; [|split; [|split]].
    + left. rewrite Nat2N.inj_succ, N.pow_succ_r'.
      destruct Hk as [Hk|[H0 ->]]; [lia|]. simpl. lia.
    + rewrite Hlen. simpl. lia.
    + intros Hs. apply Hdig. simpl. now rewrite Hd.
    + intros acc. rewrite Hdec. simpl decode. rewrite Hv. f_equal.
      rewrite Nat2N.inj_succ, N.pow_succ_r'. lia.
Qed.

(** The numeral of a number that is not negative: digits only, as many
    as the number needs, and it reads back as the number. *)
Lemma str_nonneg (z : Z) (w : nat) :
  0 <= z < 10 ^ Z.of_nat w -> (1 <= w)%nat ->
  (String.length (str z) <= w)%nat /\
  all_chars is_digit (str z) = true /\
  decode 0 (str z) = Z.to_N z.
Proof.
  intros [H0 Hw] H1. destruct z as [|p|p]; [|clear H0|lia].
  - repeat split. simpl. lia.
  - unfold str, pretty, pretty_Z, pretty, pretty_positive, pretty, pretty_N.
    rewrite decide_False by discriminate.
    destruct (pretty_N_go_spec (N.pos p) "") as (k & Hk & Hlen & Hdig & Hdec).
    rewrite Hlen, (Hdec 0%N). split; [|split; [auto|simpl; lia]].
    destruct Hk as [Hk|[? _]]; [|discriminate]. simpl. rewrite Nat.add_0_r.
    assert (Hpow : (10 ^ N.of_nat k < 10 ^ N.of_nat (S w))%N).
    { eapply N.le_lt_trans; [exact Hk|].
      rewrite Nat2N.inj_succ, N.pow_succ_r'.
      apply N.mul_lt_mono_pos_l; [lia|].
      apply N2Z.inj_lt. rewrite N2Z.inj_pow, nat_N_Z. exact Hw. }
    apply N.pow_lt_mono_r_iff in Hpow; lia.
Qed.

Lemma str_negative (z : Z) : z < 0 -> exists t, str z = String "-" t.
Proof. destruct z as [|p|p]; try lia. intros _. eexists. reflexivity. Qed.

(** A padded numeral: exactly [w] digits that read back as the number. *)
Lemma rjust_str (z : Z) (w : nat) :
  0 <= z < 10 ^ Z.of_nat w -> (1 <= w)%nat ->
  String.length (rjust w "0" (str z)) = w /\
  all_chars is_digit (rjust w "0" (str z)) = true /\
  decode 0 (rjust w "0" (str z)) = Z.to_N z.
Proof.
  intros Hz Hw. destruct (str_nonneg z w Hz Hw) as (Hlen & Hdig & Hdec).
  split; [now apply rjust_length|]. split.
  - unfold rjust. rewrite all_chars_append, Hdig.
    now rewrite all_chars_repeat.
  - unfold rjust. now rewrite decode_zeros.
Qed.

(** *** Letters *)

Lemma square_in_squares (e100k n100k : Z) :
  0 <= e100k <= 6 -> 0 <= n100k <= 12 -> In (e100k, n100k) squares.
Proof.
  intros He Hn. unfold squares. apply in_prod; apply in_map_iff.
  - exists (Z.to_nat e100k). split; [lia|]. apply in_seq. lia.
  - exists (Z.to_nat n100k). split; [lia|]. apply in_seq. lia.
Qed.

Lemma let_pair_defined (e100k n100k : Z) :
  0 <= e100k <= 6 -> 0 <= n100k <= 12 ->
  exists c1 c2, let_pair e100k n100k = Some (String c1 (String c2 "")).
Proof.
  intros He Hn. pose proof (square_in_squares _ _ He Hn) as Hin.
  assert (Hall : forallb (fun sq => match let_pair (fst sq) (snd sq) with
                                    | Some (String _ (String _ "")) => true
                                    | _ => false
                                    end) squares = true)
    by (vm_compute; reflexivity).
  rewrite forallb_forall in Hall. specialize (Hall _ Hin). simpl in Hall.
  destruct (let_pair e100k n100k) as [[|c1 [|c2 [|]]]|]; try discriminate.
  eauto.
Qed.

Lemma let_pair_inj (e1 n1 e2 n2 : Z) :
  0 <= e1 <= 6 -> 0 <= n1 <= 12 -> 0 <= e2 <= 6 -> 0 <= n2 <= 12 ->
  let_pair e1 n1 = let_pair e2 n2 -> e1 = e2 /\ n1 = n2.
Proof.
  intros He1 Hn1 He2 Hn2 Heq.
  pose proof (square_in_squares _ _ He1 Hn1) as Hin1.
  pose proof (square_in_squares _ _ He2 Hn2) as Hin2.
  assert (Hall :
    forallb (fun p =>
      forallb (fun q =>
        match let_pair (fst p) (snd p), let_pair (fst q) (snd q) with
        | Some a, Some b =>
            implb (String.eqb a b)
                  ((fst p =? fst q) && (snd p =? snd q))
        | _, _ => false
        end) squares) squares = true)
    by (vm_compute; reflexivity).
  rewrite forallb_forall in Hall. specialize (Hall _ Hin1).
  rewrite forallb_forall in Hall. specialize (Hall _ Hin2).
  simpl in Hall. rewrite <- Heq in Hall.
  destruct (let_pair e1 n1) as [a|]; [|discriminate].
  rewrite String.eqb_refl in Hall. simpl in Hall.
  apply andb_true_iff in Hall as [H1 H2]. lia.
Qed.

Lemma guard_false (E N : Z) :
  (E / 100000 <? 0) || (6 <? E / 100000)
  || (N / 100000 <? 0) || (12 <? N / 100000) = false
  <-> 0 <= E < 700000 /\ 0 <= N < 1300000.
Proof.
  rewrite !orb_false_iff, !Z.ltb_ge.
  pose proof (Z.div_mod E 100000 ltac:(lia)).
  pose proof (Z.mod_pos_bound E 100000 ltac:(lia)).
  pose proof (Z.div_mod N 100000 ltac:(lia)).
  pose proof (Z.mod_pos_bound N 100000 ltac:(lia)).
  lia.
Qed.

(** *** The parts of a reference *)

Lemma layout_cases (precision : Z) (w : nat) (cell : Z) (sep : string) :
  layout precision = Some (w, cell, sep) ->
  (precision = 6 /\ w = 3%nat /\ cell = 100 /\ sep = "") \/
  (precision = 8 /\ w = 4%nat /\ cell = 10 /\ sep = " ") \/
  (precision = 10 /\ w = 5%nat /\ cell = 1 /\ sep = " ").
Proof.
  unfold layout.
  destruct (Z.eqb_spec precision 6);
    [intros [= <- <- <-]; left; auto|].
  destruct (Z.eqb_spec precision 8);
    [intros [= <- <- <-]; right; left; auto|].
  destruct (Z.eqb_spec precision 10);
    [intros [= <- <- <-]; right; right; auto|].
  discriminate.
Qed.

Lemma layout_None (precision : Z) :
  layout precision = None <->
  precision <> 6 /\ precision <> 8 /\ precision <> 10.
Proof.
  unfold layout.
  destruct (Z.eqb_spec precision 6); [split; [discriminate|lia]|].
  destruct (Z.eqb_spec precision 8); [split; [discriminate|lia]|].
  destruct (Z.eqb_spec precision 10); [split; [discriminate|lia]|].
  tauto.
Qed.

(** Inside the grid the letters exist, and the reference is made of
    them and of the two padded numerals. *)
Lemma on_floors_parts (E N precision : Z) :
  0 <= E < 700000 -> 0 <= N < 1300000 ->
  exists c1 c2,
    let_pair (E / 100000) (N / 100000) = Some (String c1 (String c2 "")) /\
    on_floors E N precision =
    match layout precision with
    | Some (w, cell, sep) =>
        Returns
          (String c1 (String c2 "") +:+ sep
           +:+ rjust w "0" (str (E mod 100000 / cell)) +:+ sep
           +:+ rjust w "0"
                 (str ((N mod 100000
                        - (if 1000000 <=? N then 1000000 else 0)) / cell)))
    | None => RaisesValueError
    end.
Proof.
  intros HE HN. unfold on_floors.
  rewrite (proj2 (guard_false E N)) by auto.
  destruct (let_pair_defined (E / 100000) (N / 100000)) as (c1 & c2 & Hlp).
  { pose proof (Z.div_mod E 100000 ltac:(lia)).
    pose proof (Z.mod_pos_bound E 100000 ltac:(lia)). lia. }
  { pose proof (Z.div_mod N 100000 ltac:(lia)).
    pose proof (Z.mod_pos_bound N 100000 ltac:(lia)). lia. }
  exists c1, c2. split; [exact Hlp|]. rewrite Hlp.
  destruct (layout precision) as [[[w cell] sep]|]; [|reflexivity].
  rewrite !Z.mod_eq by lia.
  replace (E - E / 100000 * 100000) with (E - 100000 * (E / 100000)) by lia.
  replace ((if 1000000 <=? N then N - 1000000 else N) - N / 100000 * 100000)
    with (N - 100000 * (N / 100000)
          - (if 1000000 <=? N then 1000000 else 0))
    by (destruct (1000000 <=? N); lia).
  reflexivity.
Qed.

Lemma cell_numeral_bounds (r cell : Z) (w : nat) :
  0 <= r < 100000 ->
  (w = 3%nat /\ cell = 100) \/ (w = 4%nat /\ cell = 10)
  \/ (w = 5%nat /\ cell = 1) ->
  0 <= r / cell < 10 ^ Z.of_nat w /\ (1 <= w)%nat.
Proof.
  intros Hr [[-> ->]|[[-> ->]|[-> ->]]]; (split; [|lia]);
    (split; [apply Z.div_pos; lia|apply Z.div_lt_upper_bound; simpl; lia]).
Qed.

Lemma Qfloor_lt_iff (x : Q) (m : Z) :
  (x < inject_Z m)%Q <-> Qfloor x < m.
Proof.
  destruct x as [a b]. unfold Qlt. cbn [Qnum Qden inject_Z Qfloor].
  rewrite Z.mul_1_r.
  pose proof (Z.div_mod a (Z.pos b) ltac:(lia)) as Hdm.
  pose proof (Z.mod_pos_bound a (Z.pos b) ltac:(lia)) as Hmod.
  split; [intros H; apply Z.div_lt_upper_bound; lia|nia].
Qed.

(** The reference of a point of the grid below 1000 km north. *)
Lemma on_floors_main (E N precision : Z) (w : nat) (cell : Z) (sep : string) :
  0 <= E < 700000 -> 0 <= N < 1000000 ->
  layout precision = Some (w, cell, sep) ->
  exists lp ed nd,
    on_floors E N precision = Returns (lp +:+ sep +:+ ed +:+ sep +:+ nd) /\
    let_pair (E / 100000) (N / 100000) = Some lp /\
    String.length lp = 2%nat /\
    String.length ed = w /\ String.length nd = w /\
    all_chars is_digit ed = true /\ all_chars is_digit nd = true /\
    Z.of_N (decode 0 ed) = E mod 100000 / cell /\
    Z.of_N (decode 0 nd) = N mod 100000 / cell.
Proof.
  intros HE HN Hlayout.
  destruct (on_floors_parts E N precision HE ltac:(lia))
    as (c1 & c2 & Hlp & Hrun).
  rewrite Hlayout in Hrun.
  destruct (Z.leb_spec 1000000 N) as [?|_]; [lia|].
  rewrite Z.sub_0_r in Hrun.
  assert (Hcell : (w = 3%nat /\ cell = 100) \/ (w = 4%nat /\ cell = 10)
                  \/ (w = 5%nat /\ cell = 1))
    by (destruct (layout_cases _ _ _ _ Hlayout)
          as [(_ & ? & ? & _)|[(_ & ? & ? & _)|(_ & ? & ? & _)]]; auto).
  destruct (cell_numeral_bounds (E mod 100000) cell w
              (Z.mod_pos_bound E 100000 ltac:(lia)) Hcell) as [HbE Hw].
  destruct (cell_numeral_bounds (N mod 100000) cell w
              (Z.mod_pos_bound N 100000 ltac:(lia)) Hcell) as [HbN _].
  destruct (rjust_str _ w HbE Hw) as (HlenE & HdigE & HdecE).
  destruct (rjust_str _ w HbN Hw) as (HlenN & HdigN & HdecN).
  eexists _, _, _. split; [exact Hrun|]. split; [exact Hlp|].
  split; [reflexivity|]. split; [exact HlenE|]. split; [exact HlenN|].
  split; [exact HdigE|]. split; [exact HdigN|].
  rewrite HdecE, HdecN. split; apply Z2N.id; lia.
Qed.

(** X20.  How a call ends, for coordinates that are finite, not beyond
    10^300 in size and not negative within 10^-300 of zero.  It returns
    the empty string exactly for the points outside the grid, whatever
    the precision, also one it does not know.  It raises [ValueError]
    exactly for a point of the grid and a precision other than 6, 8 and
    10.  The letters are always there: it never raises [IndexError]. *)
Theorem grid_reference_outcomes (e n : Q) (precision : Z) :
  plain_coordinate e ->
  plain_coordinate n ->
  (get_os_grid_reference e n precision = Returns "" <-> ~ in_grid e n) /\
  (get_os_grid_reference e n precision = RaisesValueError <->
   in_grid e n /\ precision <> 6 /\ precision <> 8 /\ precision <> 10) /\
  get_os_grid_reference e n precision <> RaisesIndexError.
Proof.
  intros _ _.
  rewrite get_os_grid_reference_on_floors, in_grid_floor, <- layout_None.
  rewrite <- (guard_false (Qfloor e) (Qfloor n)).
  destruct (_ || _) eqn:Hguard.
  - unfold on_floors. rewrite Hguard.
    split; [|split]; [split; auto; discriminate| |discriminate].
    split; [discriminate|]. intros [? _]. discriminate.
  - apply guard_false in Hguard as [HE HN].
    destruct (on_floors_parts _ _ precision HE HN) as (c1 & c2 & _ & ->).
    destruct (layout precision) as [[[w cell] sep]|].
    + split; [|split]; [|split|]; try discriminate.
      * split; [discriminate|tauto].
      * intros [_ ?]. discriminate.
    + split; [|split]; [|tauto|discriminate].
      split; [discriminate|tauto].
Qed.

(** X21.  Each 100 km square of the grid has letters of its own: the
    references of two points of the grid start with the same two
    letters exactly when the points lie in the same square. *)
Theorem squares_have_their_own_letters
    (e n e' n' : Q) (precision precision' : Z) (ref ref' : string) :
  in_grid e n -> in_grid e' n' ->
  get_os_grid_reference e n precision = Returns ref ->
  get_os_grid_reference e' n' precision' = Returns ref' ->
  (substring 0 2 ref = substring 0 2 ref' <->
   Qfloor (e / 100000) = Qfloor (e' / 100000) /\
   Qfloor (n / 100000) = Qfloor (n' / 100000)).
Proof.
  rewrite !get_os_grid_reference_on_floors, !in_grid_floor.
  rewrite !(Qfloor_div_pos _ 100000).
  intros [HE HN] [HE' HN'].
  destruct (on_floors_parts _ _ precision HE HN) as (c1 & c2 & Hlp & ->).
  destruct (on_floors_parts _ _ precision' HE' HN') as (d1 & d2 & Hlp' & ->).
  destruct (layout precision) as [[[w cell] sep]|]; [|discriminate].
  destruct (layout precision') as [[[w' cell'] sep']|]; [|discriminate].
  intros [= <-] [= <-]. rewrite !first_two_letters.
  assert (Hq : forall E, 0 <= E < 1300000 -> 0 <= E / 100000 <= 12).
  { intros E H. pose proof (Z.div_mod E 100000 ltac:(lia)).
    pose proof (Z.mod_pos_bound E 100000 ltac:(lia)). lia. }
  assert (Hq' : forall E, 0 <= E < 700000 -> 0 <= E / 100000 <= 6).
  { intros E H. pose proof (Z.div_mod E 100000 ltac:(lia)).
    pose proof (Z.mod_pos_bound E 100000 ltac:(lia)). lia. }
  split.
  - intros [= -> ->]. rewrite <- Hlp' in Hlp.
    apply let_pair_inj in Hlp; auto.
  - intros [He Hn]. rewrite He, Hn, Hlp' in Hlp. now injection Hlp as -> ->.
Qed.

(** X22.  Below 1000 km north, the reference of a point of the grid is
    the two letters of its square followed by two groups of digits, of
    3, 4 or 5 digits each for the precisions 6, 8 and 10, with a space
    before each group for 8 and 10.  Read as numbers, the groups are the
    easting and the northing inside the square, counted in cells of 100,
    10 or 1 metres and rounded down. *)
Theorem reference_digits (e n : Q) (precision : Z)
    (w : nat) (cell : Z) (sep : string) :
  in_grid e n -> (n < 1000000)%Q ->
  layout precision = Some (w, cell, sep) ->
  exists lp ed nd,
    get_os_grid_reference e n precision
    = Returns (lp +:+ sep +:+ ed +:+ sep +:+ nd) /\
    let_pair (Qfloor (e / 100000)) (Qfloor (n / 100000)) = Some lp /\
    String.length lp = 2%nat /\
    String.length ed = w /\ String.length nd = w /\
    all_chars is_digit ed = true /\ all_chars is_digit nd = true /\
    Z.of_N (decode 0 ed) = Qfloor e mod 100000 / cell /\
    Z.of_N (decode 0 nd) = Qfloor n mod 100000 / cell.
Proof.
  rewrite get_os_grid_reference_on_floors, in_grid_floor.
  rewrite !(Qfloor_div_pos _ 100000).
  intros [HE HN] Hn Hlayout.
  apply (Qfloor_lt_iff n 1000000) in Hn.
  apply on_floors_main; auto. lia.
Qed.

(** X23.  From 1000 km north on, the northing group is wrong: the
    function takes off 1000 km and then the whole hundreds of
    kilometres once more, so that the number is negative and the
    reference holds a minus sign. *)
Theorem northings_from_1000km_get_a_minus_sign (e n : Q) (precision : Z) :
  in_grid e n -> (1000000 <= n)%Q ->
  precision = 6 \/ precision = 8 \/ precision = 10 ->
  exists before after,
    get_os_grid_reference e n precision
    = Returns (before +:+ "-" +:+ after).
Proof.
  rewrite get_os_grid_reference_on_floors, in_grid_floor.
  intros [HE HN] Hn Hp.
  apply Qle_bool_iff in Hn. change 1000000%Q with (inject_Z 1000000) in Hn.
  rewrite Qle_bool_floor in Hn. apply Z.leb_le in Hn.
  destruct (on_floors_parts _ _ precision HE HN) as (c1 & c2 & _ & ->).
  destruct (layout precision) as [[[w cell] sep]|] eqn:Hlayout.
  2:{ apply layout_None in Hlayout. lia. }
  destruct (Z.leb_spec 1000000 (Qfloor n)) as [_|?]; [|lia].
  assert (Hneg : (Qfloor n mod 100000 - 1000000) / cell < 0).
  { pose proof (Z.mod_pos_bound (Qfloor n) 100000 ltac:(lia)).
    apply Z.div_lt_upper_bound;
      destruct (layout_cases _ _ _ _ Hlayout)
        as [(_ & _ & -> & _)|[(_ & _ & -> & _)|(_ & _ & -> & _)]]; lia. }
  destruct (str_negative _ Hneg) as [t ->].
  unfold rjust at 2. eexists _, t. f_equal. apply minus_inside.
Qed.

(** X24.  Below 1000 km north, two points of the grid get the same
    reference at a precision exactly when they lie in the same cell of
    that precision: their eastings, and their northings, are the same
    when counted in whole cells of 100, 10 or 1 metres. *)
Theorem same_reference_same_cell (e n e' n' : Q) (precision : Z)
    (w : nat) (cell : Z) (sep : string) :
  in_grid e n -> in_grid e' n' ->
  (n < 1000000)%Q -> (n' < 1000000)%Q ->
  layout precision = Some (w, cell, sep) ->
  (get_os_grid_reference e n precision
   = get_os_grid_reference e' n' precision <->
   Qfloor e / cell = Qfloor e' / cell /\ Qfloor n / cell = Qfloor n' / cell).
Proof.
  rewrite !get_os_grid_reference_on_floors, !in_grid_floor.
  intros [HE HN] [HE' HN'] Hn Hn' Hlayout.
  apply (Qfloor_lt_iff n 1000000) in Hn.
  apply (Qfloor_lt_iff n' 1000000) in Hn'.
  set (E := Qfloor e) in *. set (N := Qfloor n) in *.
  set (E' := Qfloor e') in *. set (N' := Qfloor n') in *.
  assert (Hsplit : forall X,
            X / cell = X / 100000 * (100000 / cell) + X mod 100000 / cell).
  { intros X. pose proof (Z.div_mod X 100000 ltac:(lia)) as HX.
    destruct (layout_cases _ _ _ _ Hlayout)
      as [(_ & _ & -> & _)|[(_ & _ & -> & _)|(_ & _ & -> & _)]].
    - change (100000 / 100) with 1000.
      replace X with (X / 100000 * 1000 * 100 + X mod 100000) at 1 by lia.
      apply Z.div_add_l. lia.
    - change (100000 / 10) with 10000.
      replace X with (X / 100000 * 10000 * 10 + X mod 100000) at 1 by lia.
      apply Z.div_add_l. lia.
    - rewrite !Z.div_1_r. lia. }
  assert (Hsquare : forall X, X / 100000 = X / cell / (100000 / cell)).
  { intros X. rewrite Z.div_div;
      destruct (layout_cases _ _ _ _ Hlayout)
        as [(_ & _ & -> & _)|[(_ & _ & -> & _)|(_ & _ & -> & _)]];
      try lia; reflexivity. }
  assert (Hq : forall X, 0 <= X < 1300000 -> 0 <= X / 100000 <= 12).
  { intros X H. pose proof (Z.div_mod X 100000 ltac:(lia)).
    pose proof (Z.mod_pos_bound X 100000 ltac:(lia)). lia. }
  assert (Hq' : forall X, 0 <= X < 700000 -> 0 <= X / 100000 <= 6).
  { intros X H. pose proof (Z.div_mod X 100000 ltac:(lia)).
    pose proof (Z.mod_pos_bound X 100000 ltac:(lia)). lia. }
  split.
  - destruct (on_floors_main E N precision w cell sep HE ltac:(lia) Hlayout)
      as (lp & ed & nd & -> & Hlp & Hlen & HlenE & HlenN & _ & _ & HdE & HdN).
    destruct (on_floors_main E' N' precision w cell sep HE' ltac:(lia)
                Hlayout)
      as (lp' & ed' & nd' & -> & Hlp' & Hlen' & HlenE' & HlenN' & _ & _
          & HdE' & HdN').
    intros [= Href].
    apply append_inj in Href as [<- Href]; [|congruence].
    apply append_inj in Href as [_ Href]; [|reflexivity].
    apply append_inj in Href as [<- Href]; [|congruence].
    apply append_inj in Href as [_ <-]; [|reflexivity].
    rewrite <- Hlp' in Hlp.
    apply let_pair_inj in Hlp as [Hsq1 Hsq2]; auto; try (apply Hq; lia).
    rewrite (Hsplit E), (Hsplit E'), (Hsplit N), (Hsplit N').
    rewrite Hsq1, Hsq2, <- HdE, <- HdE', <- HdN, <- HdN'. auto.
  - intros [HcE HcN].
    assert (HsqE : E / 100000 = E' / 100000)
      by (rewrite (Hsquare E), (Hsquare E'); congruence).
    assert (HsqN : N / 100000 = N' / 100000)
      by (rewrite (Hsquare N), (Hsquare N'); congruence).
    assert (HrE : E mod 100000 / cell = E' mod 100000 / cell)
      by (pose proof (Hsplit E); pose proof (Hsplit E'); lia).
    assert (HrN : N mod 100000 / cell = N' mod 100000 / cell)
      by (pose proof (Hsplit N); pose proof (Hsplit N'); lia).
    destruct (on_floors_parts E N precision HE ltac:(lia))
      as (c1 & c2 & Hlp & Hrun).
    destruct (on_floors_parts E' N' precision HE' ltac:(lia))
      as (d1 & d2 & Hlp' & Hrun').
    rewrite Hrun, Hrun', Hlayout.
    destruct (Z.leb_spec 1000000 N) as [?|_]; [lia|].
    destruct (Z.leb_spec 1000000 N') as [?|_]; [lia|].
    rewrite !Z.sub_0_r, HrE, HrN.
    rewrite HsqE, HsqN, Hlp' in Hlp. now injection Hlp as -> ->.
Qed.

End GridReference.

(** * The further properties at work *)

Section FurtherWitnesses.
Import Planar Scenario Examples.

(** X1 on the first of the three routes. *)
Lemma record_attributes_exist_on_the_instance_witness :
  row_to_model world CyclingRoute (route "Main St") = Ok (record "Main St") /\
  record "Main St" !! "street" = Some (PStr "Main St") /\
  hasattr CyclingRoute "street" = true /\
  setattr_error CyclingRoute "street" = None.
Proof.
  split; [reflexivity|]. split; [reflexivity|].
  exact (record_attributes_exist_on_the_instance world CyclingRoute
           (route "Main St") (record "Main St") "street" (PStr "Main St")
           eq_refl eq_refl).
Defined.

(** X2: the street of a route is passed through. *)
Lemma attributes_pass_through_witness :
  NoDup (dict_keys (route "Main St")) /\
  hasattr CyclingRoute "street" = true /\
  row_to_model world CyclingRoute (route "Main St") = Ok (record "Main St") /\
  record "Main St" !! "street" = Some (PStr "Main St").
Proof.
  assert (Hnd : NoDup (dict_keys (route "Main St")))
    by (apply (bool_decide_unpack _); vm_compute; reflexivity).
  split; [exact Hnd|]. split; [reflexivity|]. split; [reflexivity|].
  apply (attributes_pass_through world CyclingRoute (route "Main St")
           (record "Main St") "street" Hnd eq_refl);
    [discriminate|discriminate|discriminate|reflexivity].
Defined.

(** X3: a [route_type] column after the [type] column wins. *)
Lemma later_of_type_and_route_type_wins_witness :
  hasattr CyclingRoute "route_type" = true /\
  dict_get "type" both_names = Some (PStr "Cycle Lane") /\
  exists m,
    row_to_model world CyclingRoute both_names = Ok m /\
    m !! "route_type" = Some (PStr "Shared Use").
Proof.
  split; [reflexivity|]. split; [reflexivity|].
  eexists. split; [reflexivity|].
  exact (later_of_type_and_route_type_wins world CyclingRoute both_names _
           eq_refl eq_refl).
Defined.

(** X4: a row with a [__class__] column, a row without a geometry
    column, a row whose geometry is text, and a table that holds such a
    row. *)
Lemma rows_without_usable_geometry_raise_witness :
  first_refusal CyclingRoute with_class = Some TypeError /\
  row_to_model world CyclingRoute with_class = Raise TypeError /\
  hasattr CyclingRoute "geometry" = true /\
  accepts CyclingRoute no_geometry_column /\
  row_to_model world CyclingRoute no_geometry_column = Raise AttributeError /\
  (exists e, row_to_model world CyclingRoute text_geometry = Raise e) /\
  (exists e' s',
     gdf_to_sql_model world with_text_geometry CyclingRoute (Some tt) 2 s0
     = (Raise e', s')) /\
  hasattr Street "geometry" = false /\
  accepts Street no_geometry_column /\
  exists m, row_to_model world Street no_geometry_column = Ok m.
Proof.
  destruct (rows_without_usable_geometry_raise world CyclingRoute
              with_class) as (Hrefused & _).
  destruct (rows_without_usable_geometry_raise world CyclingRoute
              no_geometry_column) as (_ & _ & Hmissing & _ & _).
  destruct (rows_without_usable_geometry_raise world CyclingRoute
              text_geometry) as (_ & _ & _ & Htext & Htable).
  destruct (rows_without_usable_geometry_raise world Street
              no_geometry_column) as (_ & Hwithout & _).
  split; [reflexivity|]. split; [apply Hrefused; reflexivity|].
  split; [reflexivity|]. split; [reflexivity|].
  split; [apply Hmissing; reflexivity|].
  split; [|split; [|split; [reflexivity|split; [reflexivity|]]]].
  - apply (Htext (PStr "LINESTRING (0 0, 1 1)")); try reflexivity.
    discriminate.
  - apply (Htable with_text_geometry 2 s0 TypeError); try reflexivity.
    simpl. auto.
  - apply Hwithout; reflexivity.
Defined.

(** A row with a refused item raises also for a target without a
    geometry field. *)
Lemma refused_item_raises_without_geometry_field :
  hasattr Street "geometry" = false /\
  row_to_model world Street with_class = Raise TypeError.
Proof. split; reflexivity. Defined.

(** X5: three routes in batches of two, into a database that holds one
    record already. *)
Lemma load_appends_all_records_witness :
  gpd_read_file world "out/routes.geojson" = Ok three_routes /\
  reconcile_crs world three_routes = Ok (three_routes, []) /\
  map_result (row_to_model world CyclingRoute) (rows three_routes)
  = Ok [record "Main St"; record "High St"; record "Mill Lane"] /\
  exists txs s',
    load_processed_geojson_to_db world "out/routes.geojson" CyclingRoute 2
                                 false loaded_before = (Ok 3, s') /\
    db_txs s' = ([[record "Old Rd"]] ++ txs)%list /\
    concat txs = [record "Main St"; record "High St"; record "Mill Lane"].
Proof.
  split; [reflexivity|]. split; [reflexivity|]. split; [reflexivity|].
  destruct (load_appends_all_records world "out/routes.geojson" CyclingRoute
              2 false loaded_before three_routes three_routes []
              [record "Main St"; record "High St"; record "Mill Lane"]
              eq_refl ltac:(discriminate) eq_refl eq_refl eq_refl eq_refl
              eq_refl (fun _ _ => eq_refl))
    as (txs & s' & Hrun & Htxs & _ & Hcat & _).
  exists txs, s'. auto.
Defined.

(** X6: the three routes loaded twice. *)
Lemma loading_twice_appends_twice_witness :
  gpd_read_file world "out/routes.geojson" = Ok three_routes /\
  exists txs s1 s2,
    load_processed_geojson_to_db world "out/routes.geojson" CyclingRoute 2
                                 false s0 = (Ok 3, s1) /\
    load_processed_geojson_to_db world "out/routes.geojson" CyclingRoute 2
                                 false s1 = (Ok 3, s2) /\
    db_txs s2 = (db_txs s0 ++ txs ++ txs)%list /\
    concat txs = [record "Main St"; record "High St"; record "Mill Lane"].
Proof.
  split; [reflexivity|].
  destruct (loading_twice_appends_twice world "out/routes.geojson"
              CyclingRoute 2 s0 three_routes three_routes []
              [record "Main St"; record "High St"; record "Mill Lane"]
              eq_refl ltac:(discriminate) eq_refl eq_refl eq_refl eq_refl
              eq_refl (fun _ _ => eq_refl))
    as (txs & s1 & s2 & Hrun1 & Hrun2 & _ & Htxs & Hcat).
  exists txs, s1, s2. auto.
Defined.


(** X8: batch size 0 with the drop flag empties the database. *)
Lemma non_positive_batch_size_loads_nothing_witness :
  0 <= 0 /\
  gpd_read_file world "out/routes.geojson" = Ok three_routes /\
  exists s',
    load_processed_geojson_to_db world "out/routes.geojson" CyclingRoute 0
                                 true loaded_before = (Ok 0, s') /\
    db_txs s' = [] /\
    stdout s' = [MDatabaseParameters; MDroppedTables; MCreatedTables;
                 MTablesInSchema; MErrorLoading ValueError].
Proof.
  split; [lia|]. split; [reflexivity|].
  destruct (non_positive_batch_size_loads_nothing world "out/routes.geojson"
              CyclingRoute 0 true loaded_before three_routes three_routes []
              ltac:(lia) eq_refl ltac:(discriminate) eq_refl eq_refl eq_refl)
    as (s' & Hrun & Htxs & _ & Hout).
  exists s'. auto.
Defined.

(** X9: a file declared in the British National Grid. *)
Lemma other_reference_systems_are_reprojected_witness :
  gpd_read_file reading_bng "out/bng.geojson" = Ok bng_routes /\
  crs bng_routes = Some BNG /\
  BNG <> WGS84 /\
  exists txs m' s',
    load_processed_geojson_to_db reading_bng "out/bng.geojson" CyclingRoute 2
                                 false s0 = (Ok 1, s') /\
    stdout s' = [MConvertedToWGS84; MDatabaseParameters; MCreatedTables;
                 MTablesInSchema] /\
    db_txs s' = txs /\
    concat txs = [m'] /\
    m' !! "geometry"
    = Some (PStr ("SRID=4326;"
                  ++ wkt_dumps reading_bng (transform BNG WGS84 main_st_line))).
Proof.
  split; [reflexivity|]. split; [reflexivity|]. split; [discriminate|].
  destruct (other_reference_systems_are_reprojected reading_bng
              "out/bng.geojson" CyclingRoute 2 false s0 bng_routes BNG _
              eq_refl ltac:(discriminate) eq_refl ltac:(discriminate)
              eq_refl eq_refl ltac:(lia) eq_refl (fun _ _ => eq_refl))
    as (txs & s' & Hrun & Hout & Htxs & _ & Hall).
  apply Forall2_cons_inv_l in Hall as (m' & ms & (m & Hm & Hm') & Hall & Hcat).
  apply Forall2_nil_inv_l in Hall as ->.
  exists txs, m', s'. split; [exact Hrun|]. split; [exact Hout|].
  split; [exact Htxs|]. split; [exact Hcat|].
  rewrite Hm'. unfold Model. apply lookup_insert_eq.
Defined.


(** X11: a file and a directory that does not exist. *)
Lemma file_takes_precedence_witness :
  given (input_file file_and_directory) = true /\
  given (input_dir file_and_directory) = true /\
  os_path_isdir world (arg (input_dir file_and_directory)) = false /\
  push_main world CyclingRoute file_and_directory s0
  = push_main world CyclingRoute (file_only file_and_directory)
              (emit [MBothProvided] s0).
Proof.
  split; [reflexivity|]. split; [reflexivity|]. split; [reflexivity|].
  exact (file_takes_precedence world CyclingRoute file_and_directory s0
           eq_refl eq_refl).
Defined.


(** X13: the first matched file declares no reference system; the run
    asks for dropping, and the old record is still there at the end. *)
Lemma drop_is_lost_with_an_unusable_first_file_witness :
  let E := world_listing ["out/undeclared.geojson"; "out/routes.geojson"] in
  drop_existing directory_with_drop = true /\
  unusable E "out/undeclared.geojson" /\
  exists s',
    push_main E CyclingRoute directory_with_drop loaded_before = (Ok tt, s') /\
    extends_without_drop loaded_before s'.
Proof.
  intros E.
  assert (Hwhy : unusable E "out/undeclared.geojson").
  { right. exists undeclared. split; [reflexivity|].
    right. left. exists ValueError. reflexivity. }
  split; [reflexivity|]. split; [exact Hwhy|].
  exact (drop_is_lost_with_an_unusable_first_file E CyclingRoute
           directory_with_drop loaded_before "out/undeclared.geojson"
           ["out/routes.geojson"] eq_refl eq_refl eq_refl eq_refl Hwhy).
Defined.


(** X15 on the document of the scenario, a FeatureCollection. *)
Lemma imported_shapes_witness :
  import_json_data world "data/routes.json" s0
  = (Ok (Some imported_table), after_import) /\
  crs imported_table = Some BNG /\
  after_import = emit [MImporting "data/routes.json"] s0 /\
  exists data features,
    json_load world "data/routes.json" = Ok data /\
    truthy features = true /\
    from_features world features = Ok (rows imported_table).
Proof.
  split; [reflexivity|].
  destruct (imported_shapes world "data/routes.json" s0 imported_table
              after_import eq_refl)
    as (Hcrs & Hstate & data & features & Hload & Htruthy & Hrows & _).
  split; [exact Hcrs|]. split; [exact Hstate|]. exists data, features. auto.
Defined.

(** X17 on the scenario, with the output directory in place. *)
Lemma written_file_holds_the_processed_table_witness :
  import_json_data world "data/routes.json" with_out_dir
  = (Ok (Some imported_table),
     emit [MImporting "data/routes.json"] with_out_dir) /\
  process_route_features world imported_table "data/routes.json"
    (emit [MImporting "data/routes.json"] with_out_dir)
  = (Ok (Some processed_table),
     emit [MImporting "data/routes.json"] with_out_dir) /\
  "out" ∈ fs_dirs with_out_dir /\
  (forall p d, to_file_error world p d = None) /\
  (exists p s3,
     process_route_json_file world "data/routes.json" "out" "geojson"
                             with_out_dir = (Ok (RPath p), s3) /\
     fs_files s3 !! p = Some (GeoJSONFile processed_table)) /\
  (exists p recs s3,
     process_route_json_file world "data/routes.json" "out" "csv"
                             with_out_dir = (Ok (RPath p), s3) /\
     fs_files s3 !! p = Some (CSVFile recs) /\
     length recs = 1%nat).
Proof.
  assert (Hdir : "out" ∈ fs_dirs with_out_dir)
    by (apply (bool_decide_unpack _); vm_compute; reflexivity).
  split; [reflexivity|]. split; [reflexivity|]. split; [exact Hdir|].
  split; [reflexivity|].
  destruct (written_file_holds_the_processed_table world "data/routes.json"
              "out" with_out_dir imported_table _ processed_table _
              eq_refl eq_refl Hdir (fun _ _ => eq_refl))
    as [Hgeojson (p & recs & s3 & Hrun & Hfile & Hrecs)].
  split; [exact Hgeojson|].
  exists p, recs, s3. split; [exact Hrun|]. split; [exact Hfile|].
  symmetry. exact (Forall2_length _ _ _ Hrecs).
Defined.


End FurtherWitnesses.

Section GridReferenceWitnesses.
Import Geotiles.

(** X20: a point west of the grid. *)
Lemma grid_reference_outcomes_witness :
  plain_coordinate (-5) /\ plain_coordinate 673060 /\
  ~ in_grid (-5) 673060 /\
  get_os_grid_reference (-5) 673060 10 = Returns "".
Proof.
  assert (H1 : plain_coordinate (-5))
    by (right; split; unfold Qle; vm_compute; discriminate).
  assert (H2 : plain_coordinate 673060)
    by (left; split; unfold Qle; vm_compute; discriminate).
  assert (H3 : ~ in_grid (-5) 673060)
    by (intros [[H _] _]; unfold Qle in H; simpl in H; lia).
  split; [exact H1|]. split; [exact H2|]. split; [exact H3|].
  exact (proj2 (proj1 (grid_reference_outcomes (-5) 673060 10 H1 H2)) H3).
Defined.

(** X21: two points of the square NT, at different precisions. *)
Lemma squares_have_their_own_letters_witness :
  in_grid 325940 673060 /\ in_grid 300000 600000 /\
  get_os_grid_reference 325940 673060 10 = Returns "NT 25940 73060" /\
  get_os_grid_reference 300000 600000 6 = Returns "NT000000" /\
  (substring 0 2 "NT 25940 73060" = substring 0 2 "NT000000" <->
   Qfloor (325940 / 100000) = Qfloor (300000 / 100000) /\
   Qfloor (673060 / 100000) = Qfloor (600000 / 100000)).
Proof.
  assert (H1 : in_grid 325940 673060)
    by (repeat split; (reflexivity || (unfold Qle; simpl; lia))).
  assert (H2 : in_grid 300000 600000)
    by (repeat split; (reflexivity || (unfold Qle; simpl; lia))).
  assert (R1 : get_os_grid_reference 325940 673060 10
               = Returns "NT 25940 73060") by (vm_compute; reflexivity).
  assert (R2 : get_os_grid_reference 300000 600000 6 = Returns "NT000000")
    by (vm_compute; reflexivity).
  split; [exact H1|]. split; [exact H2|]. split; [exact R1|].
  split; [exact R2|].
  exact (squares_have_their_own_letters 325940 673060 300000 600000 10 6
           "NT 25940 73060" "NT000000" H1 H2 R1 R2).
Defined.

(** X22 on the example of the docstring. *)
Lemma reference_digits_witness :
  in_grid 325940 673060 /\ (673060 < 1000000)%Q /\
  layout 10 = Some (5%nat, 1, " ") /\
  get_os_grid_reference 325940 673060 10 = Returns "NT 25940 73060" /\
  exists lp ed nd,
    get_os_grid_reference 325940 673060 10
    = Returns (lp +:+ " " +:+ ed +:+ " " +:+ nd) /\
    String.length lp = 2%nat /\
    String.length ed = 5%nat /\ String.length nd = 5%nat /\
    Z.of_N (decode 0 ed) = 25940 /\
    Z.of_N (decode 0 nd) = 73060.
Proof.
  assert (H1 : in_grid 325940 673060)
    by (repeat split; (reflexivity || (unfold Qle; simpl; lia))).
  split; [exact H1|]. split; [reflexivity|]. split; [reflexivity|].
  split; [vm_compute; reflexivity|].
  destruct (reference_digits 325940 673060 10 5 1 " " H1 eq_refl eq_refl)
    as (lp & ed & nd & Hrun & _ & Hlp & Hed & Hnd & _ & _ & He & Hn).
  exists lp, ed, nd. auto 10.
Defined.

(** X23: a point 1050 km north. *)
Lemma northings_from_1000km_get_a_minus_sign_witness :
  in_grid 325940 1050000 /\ (1000000 <= 1050000)%Q /\
  get_os_grid_reference 325940 1050000 10 = Returns "HY 25940 -950000" /\
  exists before after,
    get_os_grid_reference 325940 1050000 10
    = Returns (before +:+ "-" +:+ after).
Proof.
  assert (H1 : in_grid 325940 1050000)
    by (repeat split; (reflexivity || (unfold Qle; simpl; lia))).
  assert (H2 : (1000000 <= 1050000)%Q) by (unfold Qle; simpl; lia).
  split; [exact H1|]. split; [exact H2|]. split; [vm_compute; reflexivity|].
  exact (northings_from_1000km_get_a_minus_sign 325940 1050000 10 H1 H2
           (or_intror (or_intror eq_refl))).
Defined.

(** X24: two points of the same square metre. *)
Lemma same_reference_same_cell_witness :
  in_grid 325940 673060 /\ in_grid (651881 # 2) (2692241 # 4) /\
  (673060 < 1000000)%Q /\ ((2692241 # 4) < 1000000)%Q /\
  layout 10 = Some (5%nat, 1, " ") /\
  get_os_grid_reference 325940 673060 10
  = get_os_grid_reference (651881 # 2) (2692241 # 4) 10.
Proof.
  assert (H1 : in_grid 325940 673060)
    by (repeat split; (reflexivity || (unfold Qle; simpl; lia))).
  assert (H2 : in_grid (651881 # 2) (2692241 # 4))
    by (repeat split; (reflexivity || (unfold Qle; simpl; lia))).
  split; [exact H1|]. split; [exact H2|]. split; [reflexivity|].
  split; [reflexivity|]. split; [reflexivity|].
  apply (same_reference_same_cell 325940 673060 (651881 # 2) (2692241 # 4)
           10 5 1 " " H1 H2 eq_refl eq_refl eq_refl).
  split; reflexivity.
Defined.

End GridReferenceWitnesses.

Section EndToEndWitness.
Import Planar Scenario Examples.

(** X19 on the scenario: the processed table and the target class of the
    repository. *)
Lemma processed_tables_load_as_they_are_witness :
  process_route_features world imported_table "data/routes.json" after_import
  = (Ok (Some processed_table), after_import) /\
  Forall (accepts CyclingRoute) (rows processed_table) /\
  setattr_error CyclingRoute "geometry" = None /\
  reconcile_crs world processed_table = Ok (processed_table, []) /\
  exists models,
    map_result (row_to_model world CyclingRoute) (rows processed_table)
    = Ok models /\
    length models = 1%nat.
Proof.
  split; [reflexivity|].
  destruct (processed_tables_load_as_they_are world imported_table
              "data/routes.json" after_import processed_table after_import
              CyclingRoute eq_refl)
    as (Hcrs & _ & models & Hmodels & Hall);
    [repeat constructor|reflexivity|].
  split; [repeat constructor|]. split; [reflexivity|].
  split; [exact Hcrs|]. exists models. split; [exact Hmodels|].
  symmetry. exact (Forall2_length _ _ _ Hall).
Defined.

(** A processed table with a [__class__] column is not loaded. *)
Lemma processed_table_with_refused_column :
  exists out s',
    process_route_features world imported_with_class "data/routes.json" s0
    = (Ok (Some out), s') /\
    map_result (row_to_model world CyclingRoute) (rows out) = Raise TypeError.
Proof. eexists _, _. split; reflexivity. Defined.

End EndToEndWitness.
